(** * cbzmerge: merging comic-book archives with sequential page renumbering

    A shallow embedding of [cbzmerge.py] and the verification of the
    properties its specification states.

    Conventions of the embedding.
    - A Python [str] is a [string] whose characters are the code points
      below 256.  On that range [\d] is exactly [0-9] and [str.lower]
      only moves [A-Z] and the accented capitals of Latin-1.  Names with
      a code point from 256 on are outside the development: there [\d]
      also accepts the other decimal digits of Unicode, so every
      statement about [is_double_page] is a statement about names below
      code point 256.
    - Pillow enters through two parameters: whether the bytes of a file
      decode as an image, and what [Image.save] does for a destination
      whose extension is not [.pdf].
    - Python integers are unbounded: the page counter is an [N].
    - The working directory is a tree of nodes addressed by paths (lists of
      names); every directory is a finite map from names to nodes, so that
      two paths that name the same file really alias.
    - Statements run in a state-and-exception monad: an exception leaves
      the state as it was when it was raised. *)

From Stdlib Require Import NArith ZArith DecimalString DecimalN Ascii.
From stdpp Require Import gmap strings list sorting.

Set Warnings "-register-all".

(** ** Text: the string functions of Python the program calls *)

Module Text.

(** [s[:n]] and [s[n:]]. *)
Definition take (n : nat) (s : string) : string := String.substring 0 n s.
Definition drop (n : nat) (s : string) : string :=
  String.substring n (String.length s - n) s.

(** [s.endswith(suffix)]. *)
Definition endswith (s suffix : string) : bool :=
  bool_decide (String.length suffix ≤ String.length s) &&
  String.eqb (drop (String.length s - String.length suffix) s) suffix.

(** [s.endswith((x1, ..., xn))]: some element of the tuple is a suffix. *)
Definition endswith_any (s : string) (suffixes : list string) : bool :=
  existsb (endswith s) suffixes.

(** [str.lower] on one code point below 256. *)
Definition lower_char (c : ascii) : ascii :=
  let n := N_of_ascii c in
  if ((65 <=? n) && (n <=? 90) || (192 <=? n) && (n <=? 214)
      || (216 <=? n) && (n <=? 222))%N
  then ascii_of_N (n + 32) else c.

Fixpoint lower (s : string) : string :=
  match s with
  | EmptyString => EmptyString
  | String c s' => String (lower_char c) (lower s')
  end.

(** [s.rfind(c)] for a one-character [c]: the highest index, or -1. *)
Fixpoint rfind (s : string) (c : ascii) : Z :=
  match s with
  | EmptyString => (-1)%Z
  | String a s' =>
      let r := rfind s' c in
      if (0 <=? r)%Z then (r + 1)%Z
      else if Ascii.eqb a c then 0%Z else (-1)%Z
  end.

(** [os.path.splitext] (posixpath, through [genericpath._splitext]): the
    extension starts at the last dot of the last path component, unless
    only dots precede it. *)
Definition splitext (p : string) : string * string :=
  let sepIndex := rfind p "/" in
  let dotIndex := rfind p "." in
  if bool_decide (sepIndex < dotIndex)%Z &&
     existsb (λ i, negb (bool_decide (String.get i p = Some "."%char)))
       (seq (Z.to_nat (sepIndex + 1)) (Z.to_nat (dotIndex - (sepIndex + 1))))
  then (take (Z.to_nat dotIndex) p, drop (Z.to_nat dotIndex) p)
  else (p, "").

(** [str(n)]: the decimal digits of [n]. *)
Definition str (n : N) : string := NilEmpty.string_of_uint (N.to_uint n).

(** Left padding with zeros up to [width], as the format [0{width}d]
    does for a non-negative number. *)
Fixpoint zeros (k : nat) (s : string) : string :=
  match k with
  | O => s
  | S k' => String "0" (zeros k' s)
  end.

(** [f"{n:02d}"]. *)
Definition format_02d (n : N) : string :=
  let s := str n in zeros (2 - String.length s) s.

End Text.

(** ** Re: the fragment of Python's [re] the program uses *)

Module Re.

Inductive atom :=
  | Chr (c : ascii)   (** a literal character, escaped or not *)
  | Digit.            (** [\d] *)

Inductive token :=
  | Bol                              (** [^] *)
  | Eol                              (** [$] *)
  | One (a : atom)
  | Rep (a : atom) (lo hi : nat).    (** [a{lo,hi}] *)

Definition is_digit (c : ascii) : bool :=
  let n := N_of_ascii c in ((48 <=? n) && (n <=? 57))%N.

Definition atom_match (a : atom) (c : ascii) : bool :=
  match a with
  | Chr x => Ascii.eqb x c
  | Digit => is_digit c
  end.

(** [$] without [re.MULTILINE]: the end of the string, or just before a
    newline that is the last character. *)
Definition at_end (s : string) : bool :=
  match s with
  | EmptyString => true
  | String c EmptyString => Ascii.eqb c "010"
  | _ => false
  end.

(** Backtracking over a bounded repetition: take one more character when
    allowed, otherwise (or on failure) stop if [lo] are already taken. *)
Fixpoint rep_match (a : atom) (lo hi : nat) (k : nat → string → bool)
    (pos : nat) (s : string) : bool :=
  match hi with
  | O => bool_decide (lo = 0) && k pos s
  | S hi' =>
      match s with
      | String c s' =>
          atom_match a c && rep_match a (pred lo) hi' k (S pos) s'
          || bool_decide (lo = 0) && k pos s
      | EmptyString => bool_decide (lo = 0) && k pos s
      end
  end.

Fixpoint match_at (re : list token) (pos : nat) (s : string) : bool :=
  match re with
  | [] => true
  | Bol :: re' => bool_decide (pos = 0) && match_at re' pos s
  | Eol :: re' => at_end s && match_at re' pos s
  | One a :: re' =>
      match s with
      | String c s' => atom_match a c && match_at re' (S pos) s'
      | EmptyString => false
      end
  | Rep a lo hi :: re' => rep_match a lo hi (match_at re') pos s
  end.

(** [bool(re.match(re, s))]: a match that starts at index 0. *)
Definition matches (re : list token) (s : string) : bool := match_at re 0 s.

End Re.

(** ** The page classifier *)

(** The pattern [^\d{2,4}-\d{2,4}\.jpg$]. *)
Definition double_page_pattern : list Re.token :=
  [Re.Bol; Re.Rep Re.Digit 2 4; Re.One (Re.Chr "-"); Re.Rep Re.Digit 2 4;
   Re.One (Re.Chr "."); Re.One (Re.Chr "j"); Re.One (Re.Chr "p");
   Re.One (Re.Chr "g"); Re.Eol].

Definition is_double_page (filename : string) : bool :=
  Re.matches double_page_pattern filename.

(** ** Exceptions, archives and the working directory *)

Inductive exn :=
  | BadZipFile | IsADirectoryError | NotADirectoryError | FileExistsError
  | FileNotFoundError | SameFileError | UnidentifiedImageError | IndexError
  | ValueError | KeyError | OSError.

Abbreviation path := (list string).

(** A node of the working directory tree. *)
Inductive node (content : Type) :=
  | File (data : content)
  | Dir (entries : gmap string (node content)).
Arguments File {content} data.
Arguments Dir {content} entries.

(** A member of a ZIP container: the components of its name and its bytes,
    or [None] for a directory entry. *)
Abbreviation member content := (path * option content)%type.

(** What a name of the input directory is. *)
Inductive source (content : Type) :=
  | Archive (members : list (member content))  (** a readable ZIP container *)
  | Corrupt                                    (** a file that is no ZIP *)
  | Folder.                                    (** a directory *)
Arguments Archive {content} members.
Arguments Corrupt {content}.
Arguments Folder {content}.

(** The output file: a ZIP container (entry name, bytes; [None] for a
    directory entry) or a document (one page per image). *)
Inductive artifact (content : Type) :=
  | Cbz (entries : list (string * option content))
  | Pdf (pages : list content).
Arguments Cbz {content} entries.
Arguments Pdf {content} pages.

(** Operations on a tree, by recursion on the path. *)
Module Fs.
Section Fs.
Context {content : Type}.

Fixpoint lookup (p : path) (n : node content) : option (node content) :=
  match p with
  | [] => Some n
  | x :: p' =>
      match n with
      | Dir es => match es !! x with Some c => lookup p' c | None => None end
      | File _ => None
      end
  end.

Definition isdir (p : path) (n : node content) : bool :=
  match lookup p n with Some (Dir _) => true | _ => false end.

Definition exists_ (p : path) (n : node content) : bool :=
  match lookup p n with Some _ => true | None => false end.

(** [os.makedirs(p, exist_ok=True)]. *)
Fixpoint makedirs (p : path) (n : node content) : exn + node content :=
  match p with
  | [] => match n with Dir _ => inr n | File _ => inl FileExistsError end
  | x :: p' =>
      match n with
      | Dir es =>
          match makedirs p' (default (Dir ∅) (es !! x)) with
          | inr c => inr (Dir (<[x:=c]> es))
          | inl e => inl e
          end
      | File _ => inl NotADirectoryError
      end
  end.

(** [open(p, 'rb').read()]. *)
Definition read (p : path) (n : node content) : exn + content :=
  match lookup p n with
  | Some (File d) => inr d
  | Some (Dir _) => inl IsADirectoryError
  | None => inl FileNotFoundError
  end.

(** [open(p, 'wb').write(d)]: the parent must be a directory and [p] must
    not be one. *)
Fixpoint write (p : path) (d : content) (n : node content)
    : exn + node content :=
  match p with
  | [] =>
      match n with
      | Dir _ => inl IsADirectoryError
      | File _ => inr (File d)
      end
  | x :: p' =>
      match n with
      | Dir es =>
          match es !! x, p' with
          | None, [] => inr (Dir (<[x:=File d]> es))
          | None, _ :: _ => inl FileNotFoundError
          | Some c, _ =>
              match write p' d c with
              | inr c' => inr (Dir (<[x:=c']> es))
              | inl e => inl e
              end
          end
      | File _ => inl NotADirectoryError
      end
  end.

(** [os.listdir(p)], in the order the map enumerates its keys. *)
Definition listdir (p : path) (n : node content) : exn + list string :=
  match lookup p n with
  | Some (Dir es) => inr (elements (dom es))
  | Some (File _) => inl NotADirectoryError
  | None => inl FileNotFoundError
  end.

End Fs.
End Fs.

(** [sorted] on a list of strings: code-point lexicographic order. *)
Definition sorted (l : list string) : list string := merge_sort String.le l.

(** [os.path.basename] of a path given by its components. *)
Definition basename (p : path) : string := List.last p "".
(** [os.path.dirname]. *)
Definition dirname (p : path) : path := removelast p.

(** ** The state of one run and its monad *)

(** The files the run touches and the variables of [merge_cbz_files]
    that it assigns more than once. *)
Record state (content : Type) := State {
  tempdir : option (node content);
      (** the tree under the temporary directory; [None]: no such directory *)
  output_file : option (artifact content);
      (** the file at the destination path; [None]: no such file *)
  subdirs : list path;
  page_counter : N;
  files_to_export : list path;
}.
Arguments State {content}.
Arguments tempdir {content}.
Arguments output_file {content}.
Arguments subdirs {content}.
Arguments page_counter {content}.
Arguments files_to_export {content}.

(** Before the run: nothing at the destination, no temporary directory. *)
Definition initial {content : Type} : state content :=
  State None None [] 0 [].

(** A statement either returns or raises, and leaves a state. *)
Definition M (content A : Type) : Type :=
  state content → (exn + A) * state content.

#[global] Instance M_ret {content} : MRet (M content) :=
  λ A a s, (inr a, s).

#[global] Instance M_bind {content} : MBind (M content) :=
  λ A B k m s,
    match m s with
    | (inr a, s') => k a s'
    | (inl e, s') => (inl e, s')
    end.

Definition raise {content A} (e : exn) : M content A := λ s, (inl e, s).

Definition gets {content A} (f : state content → A) : M content A :=
  λ s, (inr (f s), s).

Definition modify {content} (f : state content → state content)
    : M content unit :=
  λ s, (inr tt, f s).

(** [for x in l: body(x)]. *)
Fixpoint for_each {content A} (l : list A) (body : A → M content unit)
    : M content unit :=
  match l with
  | [] => mret tt
  | x :: l' => body x ;; for_each l' body
  end.

(** [[f(x) for x in l]], with the effects of [f]. *)
Fixpoint map_each {content A B} (l : list A) (f : A → M content B)
    : M content (list B) :=
  match l with
  | [] => mret []
  | x :: l' => y ← f x; ys ← map_each l' f; mret (y :: ys)
  end.

(** A read of the temporary directory tree. *)
Definition on_tree {content A} (f : node content → exn + A) : M content A :=
  λ s, match tempdir s with
       | Some t => (f t, s)
       | None => (inl FileNotFoundError, s)
       end.

(** An update of the temporary directory tree. *)
Definition update_tree {content} (f : node content → exn + node content)
    : M content unit :=
  λ s, match tempdir s with
       | Some t =>
           match f t with
           | inr t' =>
               (inr tt, State (Some t') (output_file s) (subdirs s)
                          (page_counter s) (files_to_export s))
           | inl e => (inl e, s)
           end
       | None => (inl FileNotFoundError, s)
       end.

Definition set_tempdir {content} (t : option (node content))
    : M content unit :=
  modify (λ s, State t (output_file s) (subdirs s) (page_counter s)
                 (files_to_export s)).
Definition set_output_file {content} (o : option (artifact content))
    : M content unit :=
  modify (λ s, State (tempdir s) o (subdirs s) (page_counter s)
                 (files_to_export s)).
Definition set_subdirs {content} (l : list path) : M content unit :=
  modify (λ s, State (tempdir s) (output_file s) l (page_counter s)
                 (files_to_export s)).
Definition set_page_counter {content} (c : N) : M content unit :=
  modify (λ s, State (tempdir s) (output_file s) (subdirs s) c
                 (files_to_export s)).
Definition set_files_to_export {content} (l : list path) : M content unit :=
  modify (λ s, State (tempdir s) (output_file s) (subdirs s)
                 (page_counter s) l).

(** ** The library calls, on the state *)

(** [tempfile.mkdtemp()]: a fresh, empty directory. *)
Definition mkdtemp {content} : M content unit := set_tempdir (Some (Dir ∅)).

(** [shutil.rmtree(tempdir)]. *)
Definition rmtree {content} : M content unit :=
  on_tree (λ _, inr tt) ;; set_tempdir None.

Definition makedirs {content} (p : path) : M content unit :=
  update_tree (Fs.makedirs p).

Definition listdir {content} (p : path) : M content (list string) :=
  on_tree (Fs.listdir p).

(** [os.path.exists(p)]. *)
Definition path_exists {content} (p : path) : M content bool :=
  on_tree (λ t, inr (Fs.exists_ p t)).

(** [ZipFile.extractall(dir)], member by member: the directories above the
    member are created when nothing is there, then a directory entry is
    created and a file is written. *)
Definition extract_member {content} (dir : path) (m : member content)
    : M content unit :=
  match m with
  | (name, Some d) =>
      let upperdirs := dir ++ dirname name in
      there ← path_exists upperdirs;
      (if (there : bool) then mret tt else makedirs upperdirs);;
      update_tree (Fs.write (dir ++ name) d)
  | (name, None) => makedirs (dir ++ name)
  end.

Definition extractall {content} (members : list (member content))
    (dir : path) : M content unit :=
  for_each members (extract_member dir).

(** [zipfile.ZipFile(os.path.join(inputdir, name), 'r')]. *)
Definition ZipFile {content} (inputdir : gmap string (source content))
    (name : string) : M content (list (member content)) :=
  match inputdir !! name with
  | Some (Archive members) => mret members
  | Some Corrupt => raise BadZipFile
  | Some Folder => raise IsADirectoryError
  | None => raise FileNotFoundError
  end.

(** [shutil.copy(src, dst)]: into [dst] when it is a directory; the same
    file on both sides is refused. *)
Definition copy {content} (src dst : path) : M content unit :=
  dst_is_dir ← on_tree (λ t, inr (Fs.isdir dst t));
  let dst := if (dst_is_dir : bool) then dst ++ [basename src] else dst in
  same ← on_tree (λ t,
    inr (bool_decide (src = dst ∧ is_Some (Fs.lookup src t))));
  if (same : bool) then raise SameFileError
  else
    d ← on_tree (Fs.read src);
    update_tree (Fs.write dst d).

(** ** The program *)

Section Program.
Context {content : Type}.
(** Whether [Image.open(file).convert('RGB')] succeeds on these bytes. *)
Variable image_ok : content → bool.
(** What [Image.save] does for a destination whose lower-cased extension
    is not [.pdf], given that extension and the images: [ValueError] when
    Pillow has no format for the extension, otherwise what the writer of
    that format does. *)
Variable save_other : string → list content → exn + artifact content.
(** The input directory: what each of its names is. *)
Variable inputdir : gmap string (source content).

(** [mergedir = os.path.join(tempdir, 'mergedir')], relative to [tempdir]. *)
Definition mergedir : path := ["mergedir"].

Definition unpack_cbz (cbz_filename : string) : M content path :=
  let cbz_subdir := [(Text.splitext cbz_filename).1] in
  makedirs cbz_subdir;;
  zip_ref ← ZipFile inputdir cbz_filename;
  extractall zip_ref cbz_subdir;;
  mret cbz_subdir.

(** [Image.open(file)] followed by [convert('RGB')]. *)
Definition open_image (file : path) : M content content :=
  d ← on_tree (Fs.read file);
  if image_ok d then mret d else raise UnidentifiedImageError.

(** [images[0].save(output_pdf, save_all=True, append_images=images[1:])]:
    Pillow takes the format from the lower-cased extension of the
    destination; for [.pdf] all the images go into one document. *)
Definition save (images : list content) (output_pdf : string)
    : M content unit :=
  let ext := Text.lower (Text.splitext output_pdf).2 in
  if String.eqb ext ".pdf" then set_output_file (Some (Pdf images))
  else
    match save_other ext images with
    | inr written => set_output_file (Some written)
    | inl e => raise e
    end.

Definition export_to_pdf (files : list path) (output_pdf : string)
    : M content unit :=
  images ← map_each files open_image;
  match images with
  | [] => raise IndexError
  | first :: rest => save (first :: rest) output_pdf
  end.

(** [zip_out.write(file_path, arcname=...)]: a directory becomes an entry
    without bytes whose name ends in a slash. *)
Definition zip_write (file_path : path) (arcname : string) : M content unit :=
  n ← on_tree (λ t, match Fs.lookup file_path t with
                    | Some n => inr n
                    | None => inl FileNotFoundError
                    end);
  let entry := match n with
               | File d => (arcname, Some d)
               | Dir _ => (arcname +:+ "/", None)
               end in
  out ← gets output_file;
  match out with
  | Some (Cbz entries) => set_output_file (Some (Cbz (entries ++ [entry])))
  | _ => set_output_file (Some (Cbz [entry]))
  end.

(** The test of line 55 on a name of a subdirectory. *)
Definition is_image (f : string) : bool :=
  Text.endswith_any (Text.lower f) [".jpg"; ".jpeg"; ".png"; ".gif"].

(** The body of the inner loop (lines 57 to 78): one page is renamed,
    copied and counted. *)
Definition renumber_page (subdir : path) (filename : string)
    : M content unit :=
  let original_page := subdir ++ [filename] in
  c ← gets page_counter;
  if is_double_page filename then
    let '(base_name, ext) := Text.splitext filename in
    let new_base_name :=
      Text.format_02d c +:+ "-" +:+ Text.format_02d (c + 1) +:+ ext in
    let new_page_path := mergedir ++ [new_base_name] in
    copy original_page new_page_path;;
    files ← gets files_to_export;
    set_files_to_export (files ++ [new_page_path]);;
    set_page_counter (c + 2)
  else
    let '(base_name, ext) := Text.splitext filename in
    let new_page_name := Text.format_02d c +:+ ext in
    let new_page_path := mergedir ++ [new_page_name] in
    copy original_page new_page_path;;
    files ← gets files_to_export;
    set_files_to_export (files ++ [new_page_path]);;
    set_page_counter (c + 1).

(** The image files of a listing, in the order of the inner loop. *)
Definition image_files (names : list string) : list string :=
  sorted (List.filter is_image names).

(** The body of the outer loop (lines 53 to 78). *)
Definition renumber_subdir (subdir : path) : M content unit :=
  names ← listdir subdir;
  for_each (image_files names) (renumber_page subdir).

(** The archives of the input directory, in the order they are unpacked. *)
Definition cbz_files : list string :=
  sorted (List.filter (λ f, Text.endswith f ".cbz") (elements (dom inputdir))).

(** Step 3: every archive is unpacked into its own subdirectory. *)
Definition unpack_all : M content unit :=
  set_subdirs [];;
  for_each cbz_files (λ cbz_filename,
    subdir ← unpack_cbz cbz_filename;
    l ← gets subdirs;
    set_subdirs (l ++ [subdir])).

(** Step 4: the pages of every subdirectory are copied to [mergedir] under
    their new names. *)
Definition renumber_all : M content unit :=
  set_page_counter 1;;
  set_files_to_export [];;
  l ← gets subdirs;
  for_each l renumber_subdir.

(** Step 5: the output file, a document or an archive. *)
Definition write_output (output_path : string) (output_is_pdf : bool)
    : M content unit :=
  files ← gets files_to_export;
  if output_is_pdf then export_to_pdf files output_path
  else
    set_output_file (Some (Cbz []));;
    for_each files (λ file_path, zip_write file_path (basename file_path)).

(** [output_path] is the argument [output_file] of the source: the path
    of the destination; the field [output_file] of the state is the file
    found there. *)
Definition merge_cbz_files (output_path : string) (is_pdf : bool)
    : M content unit :=
  mkdtemp;;
  makedirs mergedir;;
  unpack_all;;
  renumber_all;;
  write_output output_path is_pdf;;
  rmtree.

(** [main] on the parsed arguments: the exit status of the process and the
    state it leaves. *)
Definition main (output_path : string) (is_pdf : bool)
    : nat * state content :=
  match merge_cbz_files output_path is_pdf initial with
  | (inr _, s) => (0, s)
  | (inl _, s) => (1, s)
  end.

End Program.


(** ** Definitions the statements use *)

(** All characters of a string satisfy a test. *)
Fixpoint all_chars (P : ascii → bool) (s : string) : bool :=
  match s with
  | EmptyString => true
  | String c s' => P c && all_chars P s'
  end.

(** The longest prefix of a string made of decimal digits. *)
Fixpoint leading_digits (s : string) : string :=
  match s with
  | EmptyString => EmptyString
  | String c s' =>
      if Re.is_digit c then String c (leading_digits s') else EmptyString
  end.

(** The number a staged name starts with: the counter value the name was
    formatted from. *)
Definition page_number (name : string) : N :=
  match NilEmpty.uint_of_string (leading_digits name) with
  | Some d => N.of_uint d
  | None => 0
  end.

(** The names staged so far, in order. *)
Definition staged_names {content} (s : state content) : list string :=
  basename <$> files_to_export s.

(** The shape the specification gives for a double-page name: two runs of
    2 to 4 decimal digits around a hyphen, then [.jpg] and nothing else. *)
Definition digit_run (s : string) : Prop :=
  all_chars Re.is_digit s = true ∧ 2 ≤ String.length s ≤ 4.

Definition double_page_shape (filename : string) : Prop :=
  ∃ lo hi, digit_run lo ∧ digit_run hi ∧
           filename = lo +:+ "-" +:+ hi +:+ ".jpg".

(** A newline, the one character [$] steps over. *)
Definition newline : string := String "010" EmptyString.

(** The renumbering of the specification (section 4.3), on the ordered
    list of page names: the counter is threaded through, a single page
    takes one number and a double page two. *)
Fixpoint spec_renumber (counter : N) (pages : list string) : list string :=
  match pages with
  | [] => []
  | filename :: rest =>
      let ext := (Text.splitext filename).2 in
      if is_double_page filename then
        (Text.format_02d counter +:+ "-" +:+ Text.format_02d (counter + 1)
           +:+ ext) :: spec_renumber (counter + 2) rest
      else
        (Text.format_02d counter +:+ ext) :: spec_renumber (counter + 1) rest
  end.

(** The names of the entries of an output archive. *)
Definition entry_names {content} (o : option (artifact content))
    : option (list string) :=
  match o with
  | Some (Cbz entries) => Some (entries.*1)
  | _ => None
  end.

(** A statement preserves a property of the state, whether it returns or
    raises. *)
Definition preserves {content A} (I : state content → Prop)
    (m : M content A) : Prop :=
  ∀ s, I s → I (m s).2.

(** The state with another temporary directory tree. *)
Definition with_tempdir {content} (t : option (node content))
    (s : state content) : state content :=
  State t (output_file s) (subdirs s) (page_counter s) (files_to_export s).

(** The invariant of the renumbering: the staged names carry strictly
    increasing page numbers, all below the counter. *)
Definition numbered {content} (s : state content) : Prop :=
  StronglySorted N.lt (page_number <$> staged_names s) ∧
  Forall (λ name, (page_number name < page_counter s)%N) (staged_names s).

(** A name is free for a regular file in a directory: no directory of that
    name is in the way. *)
Definition no_dir_at {content} (staged : gmap string (node content))
    (name : string) : Prop :=
  ∀ es, staged !! name ≠ Some (Dir es).

(** ** Well-formed inputs and the pages they hold *)

Section Pages.
Context {content : Type}.

(** One member written below the root of a tree, as [extract_member]
    writes it below the subdirectory of its archive. *)
Definition extract_member_tree (m : member content) (t : node content)
    : exn + node content :=
  match m with
  | (name, Some d) =>
      if Fs.exists_ (dirname name) t then Fs.write name d t
      else
        match Fs.makedirs (dirname name) t with
        | inr t' => Fs.write name d t'
        | inl e => inl e
        end
  | (name, None) => Fs.makedirs name t
  end.

Fixpoint extract_tree (members : list (member content)) (t : node content)
    : exn + node content :=
  match members with
  | [] => inr t
  | m :: members' =>
      match extract_member_tree m t with
      | inr t' => extract_tree members' t'
      | inl e => inl e
      end
  end.

(** The top level of the directory an archive extracts to, when it is
    readable and extracts without an exception. *)
Definition top_level (src : source content)
    : option (gmap string (node content)) :=
  match src with
  | Archive members =>
      match extract_tree members (Dir ∅) with
      | inr (Dir es) => Some es
      | _ => None
      end
  | _ => None
  end.

Variable inputdir : gmap string (source content).

Definition archive_entries (f : string) : gmap string (node content) :=
  default ∅ (inputdir !! f ≫= top_level).

(** The subdirectory of an archive: its name without the extension. *)
Definition stem (f : string) : string := (Text.splitext f).1.

(** The root of the temporary directory after the archives of a list are
    unpacked. *)
Definition unpacked (l : list string) (root : gmap string (node content))
    : gmap string (node content) :=
  foldl (λ r f, <[stem f := Dir (archive_entries f)]> r) root l.

(** The pages of an extracted archive, in page order: the top-level image
    names, sorted, each with the bytes of its file. *)
Definition archive_pages (es : gmap string (node content))
    : list (string * content) :=
  omap (λ x, match es !! x with
             | Some (File d) => Some (x, d)
             | _ => None
             end)
       (image_files (elements (dom es))).

(** The pages of the whole input, archive after archive in the sorted
    order of the archive names. *)
Definition input_pages : list (string * content) :=
  mjoin ((λ f, archive_pages (archive_entries f)) <$> cbz_files inputdir).

(** A well-formed input: every archive is readable and extracts, what is
    named like an image at its top level is a regular file, no two
    archives share a subdirectory and none takes the one of [mergedir]. *)
Record valid_input : Prop := {
  valid_readable :
    ∀ f, f ∈ cbz_files inputdir → is_Some (inputdir !! f ≫= top_level);
  valid_images :
    ∀ f x n, f ∈ cbz_files inputdir → archive_entries f !! x = Some n →
             is_image x = true → ∃ d, n = File d;
  valid_stems : NoDup (stem <$> cbz_files inputdir);
  valid_mergedir : "mergedir" ∉ stem <$> cbz_files inputdir;
}.

End Pages.

(** The counter after the renumbering of the specification. *)
Fixpoint spec_counter (counter : N) (pages : list string) : N :=
  match pages with
  | [] => counter
  | filename :: rest =>
      if is_double_page filename then spec_counter (counter + 2) rest
      else spec_counter (counter + 1) rest
  end.

(** Files written into a directory, one after the other. *)
Definition stage {content} (staged : gmap string (node content))
    (entries : list (string * content)) : gmap string (node content) :=
  foldl (λ g e, <[e.1 := File e.2]> g) staged entries.

(** The archive the specification expects for a list of pages: the new
    names in order, each with the bytes of its page. *)
Definition expected_entries {content} (pages : list (string * content))
    : list (string * option content) :=
  zip (spec_renumber 1 (pages.*1)) (Some <$> pages.*2).

(** A directory without subdirectories. *)
Definition all_files {content} (staged : gmap string (node content)) : Prop :=
  ∀ name, no_dir_at staged name.

(** The test of [valid_input]. *)
Definition is_file {content} (n : node content) : bool :=
  match n with File _ => true | Dir _ => false end.

Definition valid_inputb {content} (inputdir : gmap string (source content))
    : bool :=
  forallb (λ f,
      match inputdir !! f ≫= top_level with
      | Some es =>
          forallb (λ kv, implb (is_image kv.1) (is_file kv.2)) (map_to_list es)
      | None => false
      end) (cbz_files inputdir)
  && bool_decide (NoDup (stem <$> cbz_files inputdir))
  && bool_decide ("mergedir" ∉ stem <$> cbz_files inputdir).

(** The number format of the specification (section 4.3), written from its
    words: the decimal numeral of the counter, zero-padded to two digits. *)
Definition spec_zero_padded_2 (n : N) : string :=
  let numeral := NilEmpty.string_of_uint (N.to_uint n) in
  if (n <? 10)%N then String "0" numeral else numeral.

(** ** Example inputs

    File contents are labels; every file decodes as an image. *)

Definition all_images : string → bool := λ _, true.

(** A Pillow that has no format for any extension but [.pdf]. *)
Definition pdf_only : string → list string → exn + artifact string :=
  λ _ _, inl ValueError.

(** The destination of the examples: named after the mode. *)
Definition destination (is_pdf : bool) : string :=
  if is_pdf then "merged.pdf" else "merged.cbz".

(** The example of the specification: two volumes, the first with a
    double page. *)
Definition example_volumes : gmap string (source string) :=
  {[ "vol1.cbz" := Archive [(["01.jpg"], Some "vol1/01");
                            (["02.jpg"], Some "vol1/02");
                            (["18-19.jpg"], Some "vol1/18-19")];
     "vol2.cbz" := Archive [(["01.jpg"], Some "vol2/01");
                            (["02.jpg"], Some "vol2/02")] ]}.

(** An input directory without any file. *)
Definition empty_inputdir : gmap string (source string) := ∅.

(** A file named like an archive that is no ZIP container. *)
Definition corrupt_input : gmap string (source string) :=
  {[ "vol1.cbz" := Corrupt ]}.

(** An archive whose only image lies in a directory of the archive. *)
Definition nested_archive : gmap string (source string) :=
  {[ "vol1.cbz" :=
       Archive [(["chapter1"; "01.jpg"], Some "vol1/chapter1/01")] ]}.

(** An archive with an image at the top level, an image in a directory of
    the archive and a file that is no image. *)
Definition mixed_archive : gmap string (source string) :=
  {[ "vol1.cbz" := Archive [(["cover.PNG"], Some "vol1/cover");
                            (["chapter1"; "01.jpg"], Some "vol1/chapter1/01");
                            (["notes.txt"], Some "vol1/notes")] ]}.

(** An archive with a directory named like an image at its top level. *)
Definition image_named_directory : gmap string (source string) :=
  {[ "vol1.cbz" := Archive [(["cover.jpg"; "thumb.txt"], Some "thumb")] ]}.

(** An archive whose page does not decode, for the test [not_junk]. *)
Definition not_junk : string → bool := λ d, negb (String.eqb d "junk").

Definition junk_page : gmap string (source string) :=
  {[ "vol1.cbz" := Archive [(["01.jpg"], Some "junk")] ]}.

(** An archive whose subdirectory is [mergedir] itself. *)
Definition mergedir_clash : gmap string (source string) :=
  {[ "a.cbz" := Archive [(["01.jpg"], Some "a/01")];
     "mergedir.cbz" := Archive [(["x.jpg"], Some "mergedir/x")] ]}.

(** A state in the middle of the renumbering: [vol1] is unpacked, two
    pages are staged, the counter is at 3. *)
Definition example_state : state string :=
  State
    (Some (Dir {[ "mergedir" := Dir {[ "01.jpg" := File "vol1/01";
                                       "02.jpg" := File "vol1/02" ]};
                  "vol1" := Dir {[ "01.jpg" := File "vol1/01";
                                   "02.jpg" := File "vol1/02";
                                   "18-19.jpg" := File "vol1/18-19";
                                   "cover.png" := File "vol1/cover" ]} ]}))
    None [["vol1"]] 3
    [["mergedir"; "01.jpg"]; ["mergedir"; "02.jpg"]].

(** An archive named [mergedir.cbz] whose only page is a double page
    already named as the counter would name it. *)
Definition spread_in_mergedir : gmap string (source string) :=
  {[ "mergedir.cbz" := Archive [(["01-02.jpg"], Some "spread")] ]}.

(** The same with a single page. *)
Definition page_in_mergedir : gmap string (source string) :=
  {[ "mergedir.cbz" := Archive [(["01.jpg"], Some "page")] ]}.

(** ** Definitions for the further properties *)

(** Every staged name starts with its page number as the format prints
    it. *)
Definition well_named {content} (s : state content) : Prop :=
  Forall (λ name, ∃ rest, name = Text.format_02d (page_number name) +:+ rest)
    (staged_names s).

(** Every path handed to the writer is there in the temporary directory. *)
Definition staged_exist {content} (s : state content) : Prop :=
  ∀ p, p ∈ files_to_export s →
       ∃ t, tempdir s = Some t ∧ is_Some (Fs.lookup p t).

(** The input directory without the names that do not end in [.cbz]. *)
Definition archives_only {content} (inputdir : gmap string (source content))
    : gmap string (source content) :=
  filter (λ kv, Text.endswith kv.1 ".cbz" = true) inputdir.

(** There is a directory at a path of the temporary directory. *)
Definition dir_at {content} (p : path) (s : state content) : Prop :=
  ∃ t, tempdir s = Some t ∧ Fs.isdir p t = true.

(** * Proofs *)

(** ** Strings *)

#[local] Arguments Ascii.eqb : simpl never.

Lemma str_app_nil_l (s : string) : "" +:+ s = s.
Proof. done. Qed.

Lemma str_app_cons (x : ascii) (a b : string) :
  String x a +:+ b = String x (a +:+ b).
Proof. done. Qed.

(** Appends are kept folded by [simpl]; this unfolds them on constructors. *)
Ltac unfold_app :=
  repeat first [rewrite str_app_cons | rewrite str_app_nil_l].

Lemma str_app_nil_r (s : string) : s +:+ "" = s.
Proof. induction s as [|c s IH]; unfold_app; [done|]. by rewrite IH. Qed.

Lemma str_app_assoc (a b c : string) : (a +:+ b) +:+ c = a +:+ b +:+ c.
Proof. induction a as [|x a IH]; unfold_app; [done|]. by rewrite IH. Qed.

Lemma str_length_app (a b : string) :
  String.length (a +:+ b) = String.length a + String.length b.
Proof. induction a as [|x a IH]; unfold_app; simpl; [done|]. by rewrite IH. Qed.

Lemma all_chars_app P (a b : string) :
  all_chars P (a +:+ b) = all_chars P a && all_chars P b.
Proof.
  induction a as [|x a IH]; unfold_app; simpl; [done|].
  rewrite IH. by destruct (P x).
Qed.

(** ** The matcher *)

(** A bounded repetition matches exactly when the string splits into a run
    of [lo] to [hi] characters of the atom and a rest the continuation
    accepts. *)
Lemma rep_match_spec a lo hi k pos s :
  Re.rep_match a lo hi k pos s = true ↔
  ∃ pre post, s = pre +:+ post ∧ all_chars (Re.atom_match a) pre = true ∧
              lo ≤ String.length pre ≤ hi ∧
              k (pos + String.length pre) post = true.
Proof.
  revert lo pos s. induction hi as [|hi IH]; intros lo pos s.
  - simpl. rewrite andb_true_iff, bool_decide_eq_true. split.
    + intros [-> Hk]. exists "", s. rewrite Nat.add_0_r. repeat split; auto.
    + intros (pre & post & -> & _ & [Hlo Hhi] & Hk).
      destruct pre; [|simpl in Hhi; lia].
      unfold_app. simpl in *. rewrite Nat.add_0_r in Hk. split; [lia|done].
  - assert (Hstop : bool_decide (lo = 0) && k pos s = true →
      ∃ pre post, s = pre +:+ post ∧
                  all_chars (Re.atom_match a) pre = true ∧
                  lo ≤ String.length pre ≤ S hi ∧
                  k (pos + String.length pre) post = true).
    { rewrite andb_true_iff, bool_decide_eq_true. intros [-> Hk].
      exists "", s. rewrite Nat.add_0_r. simpl. repeat split; auto; lia. }
    split.
    + destruct s as [|c s]; simpl; [done|].
      rewrite orb_true_iff, andb_true_iff, IH.
      intros [[Hc (pre & post & -> & Hall & Hlen & Hk)]|Hk]; [|by apply Hstop].
      exists (String c pre), post. simpl. rewrite Hc, Hall.
      replace (pos + S (String.length pre)) with (S pos + String.length pre)
        by lia.
      repeat split; auto; lia.
    + intros (pre & post & -> & Hall & Hlen & Hk).
      destruct pre as [|c pre]; unfold_app; simpl in *.
      * assert (Hz : bool_decide (lo = 0) && k pos post = true).
        { rewrite Nat.add_0_r in Hk. rewrite Hk, andb_true_r.
          apply bool_decide_eq_true. lia. }
        destruct post; simpl; [done|]. rewrite Hz. apply orb_true_r.
      * apply andb_true_iff in Hall as [Hc Hall]. rewrite Hc. simpl.
        apply orb_true_iff. left. apply IH.
        exists pre, post. repeat split; auto; try lia.
        by replace (S pos + String.length pre)
          with (pos + S (String.length pre)) by lia.
Qed.

Lemma at_end_spec s : Re.at_end s = true ↔ s = "" ∨ s = newline.
Proof.
  unfold newline. destruct s as [|c [|d s]]; simpl.
  - split; auto.
  - rewrite Ascii.eqb_eq. split; [intros ->; auto|].
    intros [?|?]; congruence.
  - split; [done|]. intros [?|?]; congruence.
Qed.

(** What [is_double_page] accepts: the shape of the specification, and
    also that shape followed by one newline. *)
Lemma is_double_page_spec filename :
  is_double_page filename = true ↔
  double_page_shape filename ∨
  ∃ g, double_page_shape g ∧ filename = g +:+ newline.
Proof.
  unfold is_double_page, Re.matches, double_page_pattern.
  cbn [Re.match_at]. rewrite andb_true_iff, bool_decide_eq_true.
  rewrite rep_match_spec. split.
  - intros (_ & lo & post & -> & Hlo & Hlolen & Hk).
    destruct post as [|c post]; [done|].
    apply andb_true_iff in Hk as [Hc Hk]. simpl in Hc.
    apply Ascii.eqb_eq in Hc as <-.
    apply rep_match_spec in Hk as (hi & rest & -> & Hhi & Hhilen & Hk).
    destruct rest as [|c1 [|c2 [|c3 [|c4 rest]]]]; simpl in Hk;
      rewrite ?andb_false_r in Hk; try done.
    repeat (apply andb_true_iff in Hk as [?%Ascii.eqb_eq Hk]).
    rewrite andb_true_r in Hk. subst.
    apply at_end_spec in Hk as [->| ->].
    + left. exists lo, hi. repeat split; auto; lia.
    + right. exists (lo +:+ "-" +:+ hi +:+ ".jpg"). split.
      * exists lo, hi. repeat split; auto; lia.
      * by rewrite !str_app_assoc.
  - assert (Hshape : ∀ lo hi tail, digit_run lo → digit_run hi →
      Re.at_end tail = true →
      ∃ pre post, lo +:+ "-" +:+ hi +:+ ".jpg" +:+ tail = pre +:+ post ∧
        all_chars (Re.atom_match Re.Digit) pre = true ∧
        2 ≤ String.length pre ≤ 4 ∧
        Re.match_at [Re.One (Re.Chr "-"); Re.Rep Re.Digit 2 4;
           Re.One (Re.Chr "."); Re.One (Re.Chr "j"); Re.One (Re.Chr "p");
           Re.One (Re.Chr "g"); Re.Eol] (0 + String.length pre) post = true).
    { intros lo hi tail [Hlo Hlolen] [Hhi Hhilen] Htail.
      exists lo, ("-" +:+ hi +:+ ".jpg" +:+ tail).
      split; [done|]. split; [done|]. split; [done|].
      unfold_app. cbn [Re.match_at Re.atom_match].
      rewrite Ascii.eqb_refl, andb_true_l. apply rep_match_spec.
      exists hi, (".jpg" +:+ tail).
      split; [done|]. split; [done|]. split; [done|].
      unfold_app. cbn [Re.match_at Re.atom_match].
      rewrite !Ascii.eqb_refl, Htail. done. }
    intros [(lo & hi & Hlo & Hhi & ->)|(g & (lo & hi & Hlo & Hhi & ->) & ->)];
      (split; [done|]).
    + specialize (Hshape lo hi "" Hlo Hhi eq_refl).
      by rewrite !str_app_nil_r in Hshape.
    + specialize (Hshape lo hi newline Hlo Hhi eq_refl).
      by rewrite !str_app_assoc.
Qed.

(** ** Slices, suffixes and [splitext] *)

Lemma substring_all (s : string) : String.substring 0 (String.length s) s = s.
Proof. induction s as [|c s IH]; simpl; [done|]. by rewrite IH. Qed.

Lemma drop_0 (s : string) : Text.drop 0 s = s.
Proof. unfold Text.drop. rewrite Nat.sub_0_r. apply substring_all. Qed.

Lemma drop_S n c (s : string) : Text.drop (S n) (String c s) = Text.drop n s.
Proof. done. Qed.

Lemma take_S n c (s : string) :
  Text.take (S n) (String c s) = String c (Text.take n s).
Proof. done. Qed.

Lemma take_0 (s : string) : Text.take 0 s = "".
Proof. by destruct s. Qed.

Lemma take_drop n (s : string) : Text.take n s +:+ Text.drop n s = s.
Proof.
  revert n. induction s as [|c s IH]; intros [|n]; try done.
  - by rewrite take_0, drop_0.
  - rewrite take_S, drop_S, str_app_cons. by rewrite IH.
Qed.

Lemma drop_app_length (a b : string) :
  Text.drop (String.length a) (a +:+ b) = b.
Proof.
  induction a as [|c a IH]; unfold_app; simpl String.length.
  - apply drop_0.
  - by rewrite drop_S.
Qed.

Lemma take_app_length (a b : string) :
  Text.take (String.length a) (a +:+ b) = a.
Proof.
  induction a as [|c a IH]; unfold_app; simpl String.length.
  - apply take_0.
  - by rewrite take_S, IH.
Qed.

Lemma length_drop n (s : string) :
  String.length (Text.drop n s) = String.length s - n.
Proof.
  revert n. induction s as [|c s IH]; intros [|n]; try done.
  - by rewrite drop_0.
  - rewrite drop_S. simpl. apply IH.
Qed.

(** [endswith] is the suffix relation. *)
Lemma endswith_spec (s suffix : string) :
  Text.endswith s suffix = true ↔ ∃ pre, s = pre +:+ suffix.
Proof.
  unfold Text.endswith.
  rewrite andb_true_iff, bool_decide_eq_true, String.eqb_eq. split.
  - intros [_ <-]. eexists. symmetry. apply take_drop.
  - intros [pre ->]. rewrite str_length_app. split; [lia|].
    replace (String.length pre + String.length suffix - String.length suffix)
      with (String.length pre) by lia.
    apply drop_app_length.
Qed.

Lemma str_app_last_inj (a b : string) (c d : ascii) :
  a +:+ String c "" = b +:+ String d "" → a = b ∧ c = d.
Proof.
  revert b. induction a as [|x a IH]; intros [|y b]; unfold_app; intros H.
  - by injection H.
  - injection H as _ H. destruct b; discriminate H.
  - injection H as _ H. destruct a; discriminate H.
  - injection H as -> H. apply IH in H as [-> ->]. done.
Qed.

Lemma lower_app (a b : string) :
  Text.lower (a +:+ b) = Text.lower a +:+ Text.lower b.
Proof. induction a as [|x a IH]; unfold_app; simpl; [done|]. by rewrite IH. Qed.

(** A name that ends in a newline does not pass the image test. *)
Lemma is_image_newline (g : string) : is_image (g +:+ newline) = false.
Proof.
  unfold is_image, Text.endswith_any. rewrite lower_app.
  apply not_true_is_false. intros H.
  apply existsb_exists in H as (suf & Hin & Hsuf).
  apply endswith_spec in Hsuf as [pre Hpre].
  assert (∃ (c : ascii) body, suf = body +:+ String c "" ∧ c ≠ "010"%char)
    as (c & body & -> & Hc).
  { simpl in Hin.
    destruct Hin as [<-|[<-|[<-|[<-|[]]]]];
      [exists "g"%char, ".jp"|exists "g"%char, ".jpe"
      |exists "g"%char, ".pn"|exists "f"%char, ".gi"]; done. }
  rewrite <- str_app_assoc in Hpre.
  apply str_app_last_inj in Hpre as [_ Heq]. by rewrite <- Heq in Hc.
Qed.

(** [rfind] through a prefix that does not contain the character. *)
Lemma rfind_app_absent (a b : string) (c : ascii) :
  all_chars (λ x, negb (Ascii.eqb x c)) a = true →
  Text.rfind (a +:+ b) c =
    if (0 <=? Text.rfind b c)%Z
    then (Z.of_nat (String.length a) + Text.rfind b c)%Z else (-1)%Z.
Proof.
  induction a as [|x a IH]; unfold_app; simpl.
  - intros _. destruct (Z.leb_spec 0 (Text.rfind b c)); [done|].
    assert (∀ s, (-1 ≤ Text.rfind s c)%Z) as Hlow.
    { clear. intros s. induction s as [|y s IH]; simpl; [done|].
      destruct (Z.leb_spec 0 (Text.rfind s c)); [lia|].
      destruct (Ascii.eqb y c); lia. }
    specialize (Hlow b). lia.
  - intros [Hx Ha]%andb_true_iff. rewrite (IH Ha).
    destruct (Z.leb_spec 0 (Text.rfind b c)).
    + destruct (Z.leb_spec 0 (Z.of_nat (String.length a) + Text.rfind b c));
        lia.
    + simpl. by rewrite (negb_true_iff _) in Hx; rewrite Hx.
Qed.

(** [splitext] on a stem without dots or slashes followed by an extension
    whose only dot comes first. *)
Lemma splitext_app (c : ascii) (a b : string) :
  all_chars (λ x, negb (Ascii.eqb x ".")) (String c a) = true →
  all_chars (λ x, negb (Ascii.eqb x "/")) (String c a) = true →
  Text.rfind b "." = 0%Z → Text.rfind b "/" = (-1)%Z →
  Text.splitext (String c a +:+ b) = (String c a, b).
Proof.
  intros Hdot Hsep Hb Hbsep. unfold Text.splitext.
  rewrite (rfind_app_absent _ _ _ Hdot), (rfind_app_absent _ _ _ Hsep).
  rewrite Hb, Hbsep.
  change (0 <=? 0)%Z with true. change (0 <=? -1)%Z with false. cbv iota.
  rewrite Z.add_0_r, Nat2Z.id.
  rewrite bool_decide_eq_true_2 by lia. rewrite andb_true_l.
  replace (Z.to_nat (-1 + 1)) with 0 by done.
  replace (Z.to_nat (Z.of_nat (String.length (String c a)) - (-1 + 1)))
    with (S (String.length a)) by (simpl String.length; lia).
  cbn [seq existsb]. unfold_app. cbn [String.get].
  apply andb_true_iff in Hdot as [Hc _].
  rewrite bool_decide_eq_false_2; cycle 1.
  { intros [= ->]. done. }
  cbn [negb orb]. rewrite <- str_app_cons.
  by rewrite take_app_length, drop_app_length.
Qed.

(** ** The extension of a double-page name *)

Lemma all_chars_impl (P Q : ascii → bool) (s : string) :
  (∀ c, P c = true → Q c = true) →
  all_chars P s = true → all_chars Q s = true.
Proof.
  intros HPQ. induction s as [|c s IH]; simpl; [done|].
  intros [Hc Hs]%andb_true_iff. by rewrite (HPQ c Hc), IH.
Qed.

Lemma is_digit_not_char (x : ascii) :
  Re.is_digit x = false →
  ∀ c, Re.is_digit c = true → negb (Ascii.eqb c x) = true.
Proof.
  intros Hx c Hc. apply negb_true_iff, Ascii.eqb_neq. intros ->. congruence.
Qed.

Lemma digit_run_nonempty s : digit_run s → ∃ c s', s = String c s'.
Proof. intros [_ Hlen]. destruct s; simpl in Hlen; [lia|eauto]. Qed.

(** The extension [splitext] finds in a name [is_double_page] accepts. *)
Lemma double_page_ext filename :
  is_double_page filename = true →
  (double_page_shape filename ∧ (Text.splitext filename).2 = ".jpg") ∨
  (∃ g, double_page_shape g ∧ filename = g +:+ newline ∧
        (Text.splitext filename).2 = ".jpg" +:+ newline).
Proof.
  assert (Hsplit : ∀ lo hi tail, digit_run lo → digit_run hi →
    Text.rfind (".jpg" +:+ tail) "." = 0%Z →
    Text.rfind (".jpg" +:+ tail) "/" = (-1)%Z →
    (Text.splitext ((lo +:+ "-" +:+ hi +:+ ".jpg") +:+ tail)).2
      = ".jpg" +:+ tail).
  { intros lo hi tail Hlo Hhi Hdot Hsep.
    destruct (digit_run_nonempty lo Hlo) as (c & lo' & ->).
    destruct Hlo as [Hlo _], Hhi as [Hhi _].
    replace ((String c lo' +:+ "-" +:+ hi +:+ ".jpg") +:+ tail)
      with (String c (lo' +:+ "-" +:+ hi) +:+ ".jpg" +:+ tail)
      by (repeat (rewrite ?str_app_assoc; unfold_app); done).
    rewrite splitext_app; [done| | |done|done].
    - rewrite <- str_app_cons, !all_chars_app.
      rewrite (all_chars_impl _ _ _ (is_digit_not_char "." eq_refl) Hlo).
      by rewrite (all_chars_impl _ _ _ (is_digit_not_char "." eq_refl) Hhi).
    - rewrite <- str_app_cons, !all_chars_app.
      rewrite (all_chars_impl _ _ _ (is_digit_not_char "/" eq_refl) Hlo).
      by rewrite (all_chars_impl _ _ _ (is_digit_not_char "/" eq_refl) Hhi). }
  intros [Hshape|(g & Hshape & ->)]%is_double_page_spec.
  - left. split; [done|]. destruct Hshape as (lo & hi & Hlo & Hhi & ->).
    specialize (Hsplit lo hi "" Hlo Hhi eq_refl eq_refl).
    by rewrite !str_app_nil_r in Hsplit.
  - right. exists g. split; [done|]. split; [done|].
    destruct Hshape as (lo & hi & Hlo & Hhi & ->).
    by apply Hsplit.
Qed.

(** Among the names the merge looks at, a double page ends in [.jpg]. *)
Lemma double_page_image_ext filename :
  is_double_page filename = true → is_image filename = true →
  double_page_shape filename ∧ (Text.splitext filename).2 = ".jpg".
Proof.
  intros [?|(g & _ & -> & _)]%double_page_ext Himg; [done|].
  by rewrite is_image_newline in Himg.
Qed.

(** The extension never starts with a digit: it is empty or starts with
    the dot [rfind] found. *)
Lemma rfind_drop (s : string) (c : ascii) :
  (0 ≤ Text.rfind s c)%Z →
  ∃ rest, Text.drop (Z.to_nat (Text.rfind s c)) s = String c rest.
Proof.
  induction s as [|x s IH]; simpl; [lia|].
  destruct (Z.leb_spec 0 (Text.rfind s c)) as [Hr|Hr].
  - intros _. destruct (IH Hr) as [rest Hrest]. exists rest.
    replace (Z.to_nat (Text.rfind s c + 1)) with (S (Z.to_nat (Text.rfind s c)))
      by lia.
    by rewrite drop_S.
  - destruct (Ascii.eqb_spec x c) as [->|]; [|lia].
    intros _. exists s. apply drop_0.
Qed.

Lemma splitext_ext_cases (p : string) :
  (Text.splitext p).2 = "" ∨ ∃ rest, (Text.splitext p).2 = String "." rest.
Proof.
  unfold Text.splitext.
  destruct (bool_decide _ && _) eqn:Hc; [|by left].
  right. simpl. apply andb_true_iff in Hc as [Hlt _].
  apply bool_decide_eq_true in Hlt. apply rfind_drop.
  assert (∀ s c, (-1 ≤ Text.rfind s c)%Z) as Hlow.
  { clear. intros s c. induction s as [|y s IH]; simpl; [done|].
    destruct (Z.leb_spec 0 (Text.rfind s c)); [lia|].
    destruct (Ascii.eqb y c); lia. }
  specialize (Hlow p "/"%char). lia.
Qed.

Lemma leading_digits_ext (p : string) :
  leading_digits (Text.splitext p).2 = "".
Proof. by destruct (splitext_ext_cases p) as [->|[rest ->]]. Qed.

(** ** Formatted numbers read back *)

Lemma string_of_uint_digits d :
  all_chars Re.is_digit (NilEmpty.string_of_uint d) = true.
Proof. induction d; simpl; auto. Qed.

Lemma zeros_digits k s :
  all_chars Re.is_digit s = true →
  all_chars Re.is_digit (Text.zeros k s) = true.
Proof. intros Hs. induction k; simpl; auto. Qed.

Lemma format_02d_digits n : all_chars Re.is_digit (Text.format_02d n) = true.
Proof. apply zeros_digits, string_of_uint_digits. Qed.

Lemma leading_digits_app d rest :
  all_chars Re.is_digit d = true → leading_digits rest = "" →
  leading_digits (d +:+ rest) = d.
Proof.
  intros Hd Hrest. induction d as [|c d IH]; unfold_app; simpl in *; [done|].
  apply andb_true_iff in Hd as [Hc Hd]. by rewrite Hc, IH.
Qed.

Lemma uint_of_zeros k d :
  ∃ d', NilEmpty.uint_of_string (Text.zeros k (NilEmpty.string_of_uint d))
        = Some d' ∧ N.of_uint d' = N.of_uint d.
Proof.
  induction k as [|k (d' & Hd' & Heq)]; simpl.
  - exists d. by rewrite NilEmpty.usu.
  - exists (Decimal.D0 d'). by rewrite Hd'.
Qed.

(** The number read at the head of a name is the counter it was formatted
    from, whatever follows that is not a digit. *)
Lemma page_number_format (c : N) (rest : string) :
  leading_digits rest = "" → page_number (Text.format_02d c +:+ rest) = c.
Proof.
  intros Hrest. unfold page_number.
  rewrite leading_digits_app by auto using format_02d_digits.
  unfold Text.format_02d, Text.str.
  destruct (uint_of_zeros (2 - String.length
    (NilEmpty.string_of_uint (N.to_uint c))) (N.to_uint c)) as (d' & -> & ->).
  apply DecimalN.Unsigned.of_to.
Qed.
(** ** More on [rfind], [splitext] and the number format *)

Lemma rfind_low (s : string) (c : ascii) : (-1 ≤ Text.rfind s c)%Z.
Proof.
  induction s as [|y s IH]; simpl; [done|].
  destruct (Z.leb_spec 0 (Text.rfind s c)); [lia|].
  destruct (Ascii.eqb y c); lia.
Qed.

Lemma rfind_absent (s : string) (c : ascii) :
  all_chars (λ x, negb (Ascii.eqb x c)) s = true → Text.rfind s c = (-1)%Z.
Proof.
  induction s as [|y s IH]; simpl; [done|].
  intros [Hy Hs]%andb_true_iff. rewrite (IH Hs). simpl.
  by rewrite (negb_true_iff _) in Hy; rewrite Hy.
Qed.

(** [rfind] when the character occurs in the suffix. *)
Lemma rfind_app_present (a b : string) (c : ascii) :
  (0 ≤ Text.rfind b c)%Z →
  Text.rfind (a +:+ b) c = (Z.of_nat (String.length a) + Text.rfind b c)%Z.
Proof.
  intros Hb. induction a as [|x a IH]; unfold_app; simpl String.length.
  - by rewrite Z.add_0_l.
  - simpl Text.rfind. rewrite IH.
    destruct (Z.leb_spec 0 (Z.of_nat (String.length a) + Text.rfind b c));
      lia.
Qed.

(** [splitext] on an ordinary name: a stem that does not start with a dot,
    a dot, and letters without a dot; dots inside the stem do not matter. *)
Lemma splitext_ordinary (x : ascii) (base e : string) :
  x ≠ "."%char →
  all_chars (λ y, negb (Ascii.eqb y "/")) (String x base) = true →
  all_chars (λ y, negb (Ascii.eqb y ".")) e = true →
  all_chars (λ y, negb (Ascii.eqb y "/")) e = true →
  Text.splitext (String x base +:+ String "." e)
    = (String x base, String "." e).
Proof.
  intros Hx Hsep Hdot Hsepe. unfold Text.splitext.
  assert (Hr : Text.rfind (String "." e) "." = 0%Z)
    by (simpl; by rewrite (rfind_absent _ _ Hdot)).
  assert (Hs : Text.rfind (String "." e) "/" = (-1)%Z)
    by (simpl; by rewrite (rfind_absent _ _ Hsepe)).
  rewrite (rfind_app_present _ (String "." e) ".") by (rewrite Hr; lia).
  rewrite (rfind_app_absent _ _ _ Hsep). rewrite Hr, Hs.
  change (0 <=? -1)%Z with false. cbv iota.
  rewrite Z.add_0_r, Nat2Z.id.
  rewrite bool_decide_eq_true_2 by lia. rewrite andb_true_l.
  replace (Z.to_nat (-1 + 1)) with 0 by done.
  replace (Z.to_nat (Z.of_nat (String.length (String x base)) - (-1 + 1)))
    with (S (String.length base)) by (simpl String.length; lia).
  cbn [seq existsb]. rewrite (str_app_cons x). cbn [String.get].
  rewrite bool_decide_eq_false_2 by (by intros [= ->]).
  cbn [negb orb]. rewrite <- str_app_cons.
  by rewrite take_app_length, drop_app_length.
Qed.

(** The numeral of a number from 10 on has two digits at least. *)
Lemma length_numeral (n : N) :
  (10 ≤ n)%N → 2 ≤ String.length (NilEmpty.string_of_uint (N.to_uint n)).
Proof.
  intros Hn. rewrite <- (DecimalN.Unsigned.of_to n) in Hn.
  destruct (N.to_uint n) as [|d|d|d|d|d|d|d|d|d|d];
    try (by vm_compute in Hn);
    (destruct d; [by vm_compute in Hn|simpl; lia..]).
Qed.

(** The format of the code is the format of the specification. *)
Lemma format_02d_spec (n : N) : Text.format_02d n = spec_zero_padded_2 n.
Proof.
  unfold Text.format_02d, spec_zero_padded_2, Text.str.
  destruct (N.ltb_spec n 10) as [Hlt|Hge].
  - assert (Hn : In n (N.of_nat <$> seq 0 10)).
    { apply in_map_iff. exists (N.to_nat n).
      split; [lia|]. apply in_seq. lia. }
    simpl in Hn.
    by destruct Hn as [<-|[<-|[<-|[<-|[<-|[<-|[<-|[<-|[<-|[<-|[]]]]]]]]]]].
  - pose proof (length_numeral n Hge) as Hlen. cbn zeta.
    by replace (2 - _) with 0 by lia.
Qed.

(** ** Reasoning about statements *)

Section Monad.
Context {content : Type}.
Implicit Types (s : state content) (I : state content → Prop).

Lemma run_bind {A B} (m : M content A) (k : A → M content B) s :
  (m ≫= k) s =
    match m s with
    | (inr a, s') => k a s'
    | (inl e, s') => (inl e, s')
    end.
Proof. done. Qed.

Lemma preserves_ret {A} I (a : A) : preserves I (mret a : M content A).
Proof. by intros s. Qed.

Lemma preserves_raise {A} I e : preserves I (raise e : M content A).
Proof. by intros s. Qed.

Lemma preserves_gets {A} I (f : state content → A) : preserves I (gets f).
Proof. by intros s. Qed.

Lemma preserves_bind {A B} I (m : M content A) (k : A → M content B) :
  preserves I m → (∀ a, preserves I (k a)) → preserves I (m ≫= k).
Proof.
  intros Hm Hk s Hs. rewrite run_bind. specialize (Hm s Hs).
  destruct (m s) as [[e|a] s']; [done|]. by apply Hk.
Qed.

Lemma preserves_for_each {A} I (l : list A) (body : A → M content unit) :
  (∀ x, preserves I (body x)) → preserves I (for_each l body).
Proof.
  intros Hbody. induction l as [|x l IH]; simpl.
  - apply preserves_ret.
  - apply preserves_bind; auto.
Qed.

Lemma preserves_map_each {A B} I (l : list A) (f : A → M content B) :
  (∀ x, preserves I (f x)) → preserves I (map_each l f).
Proof.
  intros Hf. induction l as [|x l IH]; simpl.
  - apply preserves_ret.
  - apply preserves_bind; [done|]. intros y.
    apply preserves_bind; [done|]. intros ys. apply preserves_ret.
Qed.

Lemma preserves_modify I (f : state content → state content) :
  (∀ s, I s → I (f s)) → preserves I (modify f).
Proof. intros Hf s. apply Hf. Qed.

Lemma preserves_on_tree {A} I (f : node content → exn + A) :
  preserves I (on_tree f).
Proof. intros s Hs. unfold on_tree. by destruct (tempdir s). Qed.

Lemma preserves_update_tree I (f : node content → exn + node content) :
  (∀ s t, I s → is_Some (tempdir s) → I (with_tempdir (Some t) s)) →
  preserves I (update_tree f).
Proof.
  intros HI s Hs. unfold update_tree.
  destruct (tempdir s) as [t|] eqn:Ht; [|done].
  destruct (f t) as [e|t']; [done|]. apply HI; [done|]. by rewrite Ht.
Qed.

End Monad.

(** Unfolds the library calls and the program down to the primitive
    statements and applies the structural rules; what is left are the
    updates of the state. *)
Ltac preserves_step :=
  match goal with
  | |- ∀ _, _ => intro
  | |- preserves _ (mret _) => apply preserves_ret
  | |- preserves _ (raise _) => apply preserves_raise
  | |- preserves _ (gets _) => apply preserves_gets
  | |- preserves _ (on_tree _) => apply preserves_on_tree
  | |- preserves _ (_ ≫= _) => apply preserves_bind
  | |- preserves _ (for_each _ _) => apply preserves_for_each
  | |- preserves _ (map_each _ _) => apply preserves_map_each
  | |- preserves _ (modify _) => apply preserves_modify
  | |- preserves _ (update_tree _) => apply preserves_update_tree
  | |- preserves _ (match ?x with _ => _ end) => destruct x
  | |- preserves _ _ =>
      progress unfold mkdtemp, rmtree, makedirs, listdir, path_exists,
        extract_member,
        extractall, ZipFile, copy, set_tempdir, set_output_file, set_subdirs,
        set_page_counter, set_files_to_export, unpack_cbz, open_image,
        export_to_pdf, save, zip_write, renumber_subdir, unpack_all,
        write_output
  end.
Ltac preserves := repeat preserves_step.

(** Runs the assignments and reads at the head of a sequence. *)
Ltac run_state :=
  repeat (rewrite run_bind;
          cbn [gets modify set_tempdir set_output_file set_subdirs
               set_page_counter set_files_to_export mret M_ret
               tempdir output_file subdirs page_counter files_to_export]).

(** ** The library calls *)

Section Engine.
Context {content : Type}.
Implicit Types (s : state content) (t : node content).

(** [shutil.copy], spelled out on a state that has a temporary directory. *)
Lemma copy_run (src dst : path) s t :
  tempdir s = Some t →
  copy src dst s =
    let dst' := if Fs.isdir dst t then dst ++ [basename src] else dst in
    if bool_decide (src = dst' ∧ is_Some (Fs.lookup src t))
    then (inl SameFileError, s)
    else match Fs.read src t with
         | inl e => (inl e, s)
         | inr d =>
             match Fs.write dst' d t with
             | inl e => (inl e, s)
             | inr t' => (inr tt, with_tempdir (Some t') s)
             end
         end.
Proof.
  intros Ht. unfold copy. rewrite run_bind. unfold on_tree at 1. rewrite Ht.
  rewrite run_bind. unfold on_tree at 1. rewrite Ht.
  destruct (Fs.isdir dst t); simpl;
    (case_bool_decide; [done|]);
    rewrite run_bind; unfold on_tree at 1; rewrite Ht;
    (destruct (Fs.read src t) as [e|d]; [done|]);
    unfold update_tree; rewrite Ht;
    by destruct (Fs.write _ d t).
Qed.

(** A copy changes nothing but the temporary directory tree. *)
Lemma copy_frame (src dst : path) s :
  (copy src dst s).2 = s ∨
  ∃ t, (copy src dst s).1 = inr tt ∧
       (copy src dst s).2 = with_tempdir (Some t) s.
Proof.
  destruct (tempdir s) as [t|] eqn:Ht.
  - rewrite (copy_run _ _ _ _ Ht). simpl.
    case_bool_decide; [by left|].
    destruct (Fs.read src t) as [e|d]; [by left|].
    destruct (Fs.write _ d t) as [e|t']; [by left|]. right. by exists t'.
  - left. unfold copy. rewrite run_bind. unfold on_tree at 1. by rewrite Ht.
Qed.

(** The name the inner loop gives a page when the counter is [c]. *)
Lemma renumber_page_run (subdir : path) (filename : string) s :
  let c := page_counter s in
  let ext := (Text.splitext filename).2 in
  let name :=
    if is_double_page filename
    then Text.format_02d c +:+ "-" +:+ Text.format_02d (c + 1) +:+ ext
    else Text.format_02d c +:+ ext in
  let step := if is_double_page filename then 2%N else 1%N in
  renumber_page subdir filename s =
    match copy (subdir ++ [filename]) (mergedir ++ [name]) s with
    | (inr _, s1) =>
        (inr tt, State (tempdir s1) (output_file s1) (subdirs s1) (c + step)
                   (files_to_export s1 ++ [mergedir ++ [name]]))
    | (inl e, s1) => (inl e, s1)
    end.
Proof.
  unfold renumber_page. rewrite run_bind. cbn [gets].
  destruct (Text.splitext filename) as [base_name ext] eqn:Hsplit.
  destruct (is_double_page filename); cbn zeta; cbn [snd];
    rewrite run_bind;
    by destruct (copy _ _ s) as [[e|[]] s1].
Qed.

(** One page: on return one name is staged, it starts with the counter,
    and the counter has grown; on an exception neither has changed. *)
Lemma renumber_page_step (subdir : path) (filename : string) s :
  match renumber_page subdir filename s with
  | (inr _, s') =>
      ∃ name, staged_names s' = staged_names s ++ [name] ∧
              page_number name = page_counter s ∧
              (page_counter s < page_counter s')%N
  | (inl _, s') =>
      staged_names s' = staged_names s ∧ page_counter s' = page_counter s
  end.
Proof.
  rewrite renumber_page_run. cbn zeta.
  set (name := if is_double_page filename then _ else _).
  assert (Hname : page_number name = page_counter s).
  { subst name. destruct (is_double_page filename).
    - apply page_number_format. by unfold_app.
    - apply page_number_format, leading_digits_ext. }
  assert (Hlast : ∀ s1 : state content,
    files_to_export s1 = files_to_export s →
    basename <$> (files_to_export s1 ++ [mergedir ++ [name]])
      = staged_names s ++ [name]).
  { intros s1 Hs1. unfold staged_names. by rewrite fmap_app, Hs1. }
  destruct (copy_frame (subdir ++ [filename]) (mergedir ++ [name]) s)
    as [Heq|(t & Hok & Heq)];
    destruct (copy _ _ s) as [[e|[]] s1]; simpl in *; subst s1;
    try done.
  - exists name. split; [by apply Hlast|]. split; [done|].
    destruct (is_double_page filename); lia.
  - exists name. split; [by apply Hlast|]. split; [done|].
    destruct (is_double_page filename); lia.
Qed.

Lemma numbered_snoc s s' name :
  numbered s → staged_names s' = staged_names s ++ [name] →
  page_number name = page_counter s → (page_counter s < page_counter s')%N →
  numbered s'.
Proof.
  intros [Hsorted Hbelow] Hnames Hname Hlt. unfold numbered.
  rewrite Hnames, fmap_app. split.
  - apply StronglySorted_app. split; [|split; [done|]].
    + intros x1 x2 (n & -> & Hn)%list_elem_of_fmap Hx2.
      apply list_elem_of_singleton in Hx2 as ->.
      rewrite Forall_forall in Hbelow. rewrite Hname. by apply Hbelow.
    + repeat constructor.
  - apply Forall_app. split.
    + eapply Forall_impl; [done|]. intros n Hn. simpl in Hn. lia.
    + constructor; [lia|constructor].
Qed.

Lemma renumber_page_numbered (subdir : path) (filename : string) :
  preserves numbered (renumber_page (content:=content) subdir filename).
Proof.
  intros s Hs. pose proof (renumber_page_step subdir filename s) as Hstep.
  destruct (renumber_page subdir filename s) as [[e|[]] s']; simpl.
  - destruct Hstep as [Hnames Hc]. unfold numbered. by rewrite Hnames, Hc.
  - destruct Hstep as (name & Hnames & Hname & Hlt).
    by eapply numbered_snoc.
Qed.

End Engine.

(** Closes the conditions the updates of the other variables leave. *)
Ltac frame_numbered :=
  preserves;
  try (intros; unfold numbered, staged_names, with_tempdir in *; done).

Section Run.
Context {content : Type}.
Variable image_ok : content → bool.
Variable save_other : string → list content → exn + artifact content.
Variable inputdir : gmap string (source content).
Variable output_path : string.

Lemma renumber_all_numbered (s : state content) :
  numbered (renumber_all s).2.
Proof.
  unfold renumber_all. rewrite !run_bind. simpl. rewrite run_bind. simpl.
  apply (preserves_for_each numbered).
  - intros subdir. frame_numbered. apply renumber_page_numbered.
  - split; simpl; constructor.
Qed.

Lemma merge_numbered (is_pdf : bool) :
  preserves numbered (merge_cbz_files image_ok save_other inputdir output_path
      is_pdf).
Proof.
  unfold merge_cbz_files.
  apply preserves_bind; [frame_numbered|intros _].
  apply preserves_bind; [frame_numbered|intros _].
  apply preserves_bind; [frame_numbered|intros _].
  apply preserves_bind; [intros s _; apply renumber_all_numbered|intros _].
  apply preserves_bind; [frame_numbered|intros _].
  frame_numbered.
Qed.

(** The temporary directory, once made, stays until [rmtree]. *)
Lemma work_keeps_tempdir (is_pdf : bool) :
  preserves (λ s, is_Some (tempdir s))
    (makedirs mergedir;; unpack_all inputdir;; renumber_all;;
     write_output image_ok save_other output_path is_pdf).
Proof.
  unfold renumber_all. preserves; try unfold renumber_page; preserves;
    try (intros; unfold with_tempdir in *; simpl in *; by eauto).
Qed.

End Run.

Lemma StronglySorted_lt_NoDup (l : list N) : StronglySorted N.lt l → NoDup l.
Proof.
  induction 1 as [|x l Hl IH Hx]; constructor; [|done].
  intros Hin. rewrite Forall_forall in Hx. specialize (Hx x Hin). lia.
Qed.

(** ** One page, when the copy goes through *)

Section Step.
Context {content : Type}.
Implicit Types (s : state content) (root staged : gmap string (node content)).

Lemma write_staged root staged (name : string) (d : content) :
  root !! "mergedir" = Some (Dir staged) → no_dir_at staged name →
  Fs.write (mergedir ++ [name]) d (Dir root) =
    inr (Dir (<["mergedir" := Dir (<[name := File d]> staged)]> root)).
Proof.
  intros Hm Hname. simpl. rewrite Hm.
  destruct (staged !! name) as [[d'|es]|] eqn:Hn; simpl; try done.
  by destruct (Hname es).
Qed.

Lemma isdir_staged root staged (name : string) :
  root !! "mergedir" = Some (Dir staged) → no_dir_at staged name →
  Fs.isdir (mergedir ++ [name]) (Dir root) = false.
Proof.
  intros Hm Hname. unfold Fs.isdir. simpl. rewrite Hm.
  destruct (staged !! name) as [[d'|es]|] eqn:Hn; try done.
  by destruct (Hname es).
Qed.

(** The inner loop body, when the page is a regular file and its new name
    is free for a file in [mergedir]. *)
Lemma renumber_page_ok (subdir : path) (filename : string) s root staged d :
  let c := page_counter s in
  let ext := (Text.splitext filename).2 in
  let name :=
    if is_double_page filename
    then Text.format_02d c +:+ "-" +:+ Text.format_02d (c + 1) +:+ ext
    else Text.format_02d c +:+ ext in
  let step := if is_double_page filename then 2%N else 1%N in
  tempdir s = Some (Dir root) →
  root !! "mergedir" = Some (Dir staged) →
  Fs.lookup (subdir ++ [filename]) (Dir root) = Some (File d) →
  subdir ++ [filename] ≠ mergedir ++ [name] →
  no_dir_at staged name →
  renumber_page subdir filename s =
    (inr tt,
     State (Some (Dir (<["mergedir" := Dir (<[name := File d]> staged)]> root)))
       (output_file s) (subdirs s) (c + step)
       (files_to_export s ++ [mergedir ++ [name]])).
Proof.
  intros c ext name step Ht Hm Hsrc Hne Hfree.
  rewrite renumber_page_run. fold c ext. cbn zeta. fold name step.
  rewrite (copy_run _ _ _ _ Ht). cbn zeta.
  rewrite (isdir_staged _ _ _ Hm Hfree).
  rewrite bool_decide_eq_false_2 by (intros [? _]; done).
  unfold Fs.read. rewrite Hsrc.
  by rewrite (write_staged _ _ _ _ Hm Hfree).
Qed.

End Step.

(** ** Unpacking *)

Section Unpack.
Context {content : Type}.
Implicit Types (s : state content) (root : gmap string (node content))
  (c : node content).

Lemma with_tempdir_twice (t1 t2 : option (node content)) s :
  with_tempdir t2 (with_tempdir t1 s) = with_tempdir t2 s.
Proof. done. Qed.

(** The tree operations below a directory of the root act on that
    directory alone. *)
Lemma makedirs_below root (x : string) (p : path) c :
  root !! x = Some c →
  Fs.makedirs (x :: p) (Dir root) =
    match Fs.makedirs p c with
    | inr c' => inr (Dir (<[x:=c']> root))
    | inl e => inl e
    end.
Proof. intros Hx. simpl. by rewrite Hx. Qed.

Lemma write_below root (x : string) (p : path) (d : content) c :
  root !! x = Some c →
  Fs.write (x :: p) d (Dir root) =
    match Fs.write p d c with
    | inr c' => inr (Dir (<[x:=c']> root))
    | inl e => inl e
    end.
Proof. intros Hx. simpl. by rewrite Hx. Qed.

Lemma update_tree_run (f : node content → exn + node content) s t t' :
  tempdir s = Some t → f t = inr t' →
  update_tree f s = (inr tt, with_tempdir (Some t') s).
Proof. intros Ht Hf. unfold update_tree. by rewrite Ht, Hf. Qed.

Lemma exists_below root (x : string) (p : path) c :
  root !! x = Some c → Fs.exists_ (x :: p) (Dir root) = Fs.exists_ p c.
Proof. intros Hx. unfold Fs.exists_. simpl. by rewrite Hx. Qed.

Lemma extract_member_below (x : string) (m : member content) s root c c' :
  tempdir s = Some (Dir root) → root !! x = Some c →
  extract_member_tree m c = inr c' →
  extract_member [x] m s
    = (inr tt, with_tempdir (Some (Dir (<[x:=c']> root))) s).
Proof.
  intros Ht Hx Hm. destruct m as [name [d|]]; simpl in Hm;
    unfold extract_member; cbn [app].
  - rewrite run_bind. unfold path_exists, on_tree at 1. rewrite Ht.
    rewrite (exists_below _ _ _ _ Hx). rewrite run_bind.
    destruct (Fs.exists_ (dirname name) c).
    + cbn [mret M_ret]. erewrite update_tree_run; [done|done|].
      by rewrite (write_below _ _ _ _ _ Hx), Hm.
    + destruct (Fs.makedirs (dirname name) c) as [e|c1] eqn:Hmk; [done|].
      unfold makedirs.
      erewrite update_tree_run; [|done|]; cycle 1.
      { rewrite (makedirs_below _ _ _ _ Hx), Hmk. done. }
      erewrite update_tree_run; [|done|]; cycle 1.
      { rewrite (write_below _ _ _ _ c1) by apply lookup_insert_eq.
        rewrite Hm. done. }
      by rewrite with_tempdir_twice, insert_insert_eq.
  - unfold makedirs. erewrite update_tree_run; [done|done|].
    by rewrite (makedirs_below _ _ _ _ Hx), Hm.
Qed.

Lemma extractall_below (x : string) (members : list (member content))
    s root c c' :
  tempdir s = Some (Dir root) → root !! x = Some c →
  extract_tree members c = inr c' →
  extractall members [x] s
    = (inr tt, with_tempdir (Some (Dir (<[x:=c']> root))) s).
Proof.
  revert s root c. induction members as [|m members IH]; intros s root c.
  - intros Ht Hx [= <-]. unfold extractall. simpl.
    rewrite insert_id by done. destruct s; simpl in *. by rewrite Ht.
  - intros Ht Hx Hm. simpl in Hm.
    destruct (extract_member_tree m c) as [e|c1] eqn:Hm1; [done|].
    unfold extractall. cbn [for_each]. rewrite run_bind.
    rewrite (extract_member_below _ _ _ _ _ _ Ht Hx Hm1).
    fold (extractall members [x]).
    erewrite IH; [|done|apply lookup_insert_eq|done].
    by rewrite with_tempdir_twice, insert_insert_eq.
Qed.

Variable inputdir : gmap string (source content).

(** An archive that is readable and extracts, unpacked into a free name
    of the temporary directory. *)
Lemma unpack_cbz_run (f : string) s root :
  tempdir s = Some (Dir root) → root !! stem f = None →
  is_Some (inputdir !! f ≫= top_level) →
  unpack_cbz inputdir f s =
    (inr [stem f],
     with_tempdir
       (Some (Dir (<[stem f := Dir (archive_entries inputdir f)]> root))) s).
Proof.
  intros Ht Hfree [es Hes]. unfold archive_entries. rewrite Hes. simpl.
  destruct (inputdir !! f) as [[members| |]|] eqn:Hf; try done.
  simpl in Hes.
  destruct (extract_tree members (Dir ∅)) as [e|[d|es']] eqn:Hex; try done.
  injection Hes as ->.
  unfold unpack_cbz. fold (stem f). rewrite run_bind. unfold makedirs.
  erewrite update_tree_run; [|done|]; cycle 1.
  { simpl. rewrite Hfree. done. }
  rewrite run_bind. unfold ZipFile. rewrite Hf. cbn [mret M_ret].
  rewrite run_bind.
  erewrite extractall_below; [|done|apply lookup_insert_eq|done].
  by rewrite with_tempdir_twice, insert_insert_eq.
Qed.

Lemma unpacked_other (l : list string) root (x : string) :
  x ∉ stem <$> l → unpacked inputdir l root !! x = root !! x.
Proof.
  revert root. induction l as [|f l IH]; intros root Hx; [done|].
  rewrite fmap_cons, not_elem_of_cons in Hx. destruct Hx as [Hne Hx].
  simpl. rewrite IH by done. by rewrite lookup_insert_ne.
Qed.

Lemma unpacked_archive (l : list string) root (f : string) :
  NoDup (stem <$> l) → f ∈ l →
  unpacked inputdir l root !! stem f = Some (Dir (archive_entries inputdir f)).
Proof.
  revert root. induction l as [|g l IH]; intros root Hnd Hf.
  - by apply elem_of_nil in Hf.
  - rewrite fmap_cons in Hnd. apply NoDup_cons in Hnd as [Hg Hnd].
    apply elem_of_cons in Hf as [->|Hf]; simpl.
    + rewrite unpacked_other by done. apply lookup_insert_eq.
    + by apply IH.
Qed.

Lemma unpack_loop_run (l : list string) s root :
  tempdir s = Some (Dir root) →
  NoDup (stem <$> l) →
  (∀ f, f ∈ l → root !! stem f = None) →
  (∀ f, f ∈ l → is_Some (inputdir !! f ≫= top_level)) →
  for_each l (λ cbz_filename,
    subdir ← unpack_cbz inputdir cbz_filename;
    sd ← gets subdirs;
    set_subdirs (sd ++ [subdir])) s =
  (inr tt,
   State (Some (Dir (unpacked inputdir l root))) (output_file s)
     (subdirs s ++ ((λ f, [stem f]) <$> l)) (page_counter s)
     (files_to_export s)).
Proof.
  revert s root. induction l as [|f l IH]; intros s root Ht Hnd Hfree Hok.
  - simpl. rewrite List.app_nil_r. destruct s; simpl in *. by rewrite Ht.
  - rewrite fmap_cons in Hnd. apply NoDup_cons in Hnd as [Hf Hnd].
    cbn [for_each]. rewrite !run_bind.
    rewrite (unpack_cbz_run f s root Ht) by (apply Hfree || apply Hok; left).
    rewrite run_bind. cbn [gets set_subdirs modify].
    erewrite IH; [|done|done| |]; cycle 1.
    { intros g Hg. rewrite lookup_insert_ne; [apply Hfree; by right|].
      intros Heq. apply Hf. rewrite Heq. by apply list_elem_of_fmap_2. }
    { intros g Hg. apply Hok. by right. }
    simpl. by rewrite <- List.app_assoc.
Qed.

End Unpack.

(** ** The renumbering of the specification *)

Lemma spec_renumber_app c (l1 l2 : list string) :
  spec_renumber c (l1 ++ l2)
    = spec_renumber c l1 ++ spec_renumber (spec_counter c l1) l2.
Proof.
  revert c. induction l1 as [|x l1 IH]; intros c; simpl; [done|].
  destruct (is_double_page x); simpl; by rewrite IH.
Qed.

Lemma spec_counter_app c (l1 l2 : list string) :
  spec_counter c (l1 ++ l2) = spec_counter (spec_counter c l1) l2.
Proof.
  revert c. induction l1 as [|x l1 IH]; intros c; simpl; [done|].
  destruct (is_double_page x); apply IH.
Qed.

Lemma length_spec_renumber c (l : list string) :
  length (spec_renumber c l) = length l.
Proof.
  revert c. induction l as [|x l IH]; intros c; simpl; [done|].
  destruct (is_double_page x); simpl; by rewrite IH.
Qed.

Lemma spec_counter_le c (l : list string) : (c ≤ spec_counter c l)%N.
Proof.
  revert c. induction l as [|x l IH]; intros c; simpl; [lia|].
  destruct (is_double_page x); etrans; [|apply IH| |apply IH]; lia.
Qed.

(** The names of the specification carry strictly increasing numbers,
    from the first counter value on. *)
Lemma spec_renumber_numbers c (l : list string) :
  StronglySorted N.lt (page_number <$> spec_renumber c l) ∧
  Forall (λ name, (c ≤ page_number name)%N) (spec_renumber c l).
Proof.
  revert c. induction l as [|x l IH]; intros c; simpl.
  { split; constructor. }
  assert (Hstep : ∀ name k, page_number name = c → (0 < k)%N →
    StronglySorted N.lt (page_number <$> name :: spec_renumber (c + k) l) ∧
    Forall (λ n, (c ≤ page_number n)%N) (name :: spec_renumber (c + k) l)).
  { intros name k Hname Hk. destruct (IH (c + k)%N) as [Hs Hf]. split.
    - rewrite fmap_cons. constructor; [done|]. rewrite Hname.
      apply Forall_fmap. eapply Forall_impl; [done|]. simpl. lia.
    - constructor; [lia|]. eapply Forall_impl; [done|]. simpl. lia. }
  destruct (is_double_page x); apply Hstep; try lia.
  - apply page_number_format. by unfold_app.
  - apply page_number_format, leading_digits_ext.
Qed.

Lemma spec_renumber_NoDup c (l : list string) : NoDup (spec_renumber c l).
Proof.
  eapply NoDup_fmap_1, StronglySorted_lt_NoDup, spec_renumber_numbers.
Qed.

(** ** Staging *)

Section Renumber.
Context {content : Type}.
Implicit Types (s : state content)
  (root staged es : gmap string (node content))
  (pages : list (string * content)).

Lemma stage_app staged (l1 l2 : list (string * content)) :
  stage staged (l1 ++ l2) = stage (stage staged l1) l2.
Proof. apply foldl_app. Qed.

Lemma stage_all_files staged (l : list (string * content)) :
  all_files staged → all_files (stage staged l).
Proof.
  revert staged. induction l as [|[n d] l IH]; intros staged Hs; [done|].
  simpl. apply IH. intros name es. unfold stage. simpl.
  destruct (decide (n = name)) as [->|Hne].
  - by rewrite lookup_insert_eq.
  - rewrite lookup_insert_ne by done. apply Hs.
Qed.

Lemma stage_other staged (l : list (string * content)) (name : string) :
  name ∉ l.*1 → stage staged l !! name = staged !! name.
Proof.
  revert staged. induction l as [|[n d] l IH]; intros staged Hn; [done|].
  rewrite fmap_cons, not_elem_of_cons in Hn. destruct Hn as [Hne Hn].
  simpl. rewrite IH by done. by rewrite lookup_insert_ne.
Qed.

Lemma stage_lookup staged (l : list (string * content)) (name : string) d :
  NoDup l.*1 → (name, d) ∈ l → stage staged l !! name = Some (File d).
Proof.
  revert staged. induction l as [|[n d'] l IH]; intros staged Hnd Hin.
  - by apply elem_of_nil in Hin.
  - rewrite fmap_cons in Hnd. apply NoDup_cons in Hnd as [Hn Hnd].
    apply elem_of_cons in Hin as [[= -> ->]|Hin]; simpl.
    + rewrite stage_other by done. apply lookup_insert_eq.
    + by apply IH.
Qed.

(** The inner loop over the pages of one subdirectory that is not
    [mergedir]: every page is staged under the name of the
    specification. *)
Lemma renumber_pages_run (x : string) pages s root staged es :
  tempdir s = Some (Dir root) →
  root !! "mergedir" = Some (Dir staged) → all_files staged →
  x ≠ "mergedir" → root !! x = Some (Dir es) →
  (∀ f d, (f, d) ∈ pages → es !! f = Some (File d)) →
  for_each pages.*1 (renumber_page [x]) s =
    (inr tt,
     State
       (Some (Dir (<["mergedir" :=
          Dir (stage staged
                 (zip (spec_renumber (page_counter s) pages.*1) pages.*2))]>
          root)))
       (output_file s) (subdirs s)
       (spec_counter (page_counter s) pages.*1)
       (files_to_export s ++
          ((λ name, mergedir ++ [name]) <$>
             spec_renumber (page_counter s) pages.*1))).
Proof.
  revert s root staged.
  induction pages as [|[f d] pages IH]; intros s root staged Ht Hm Hfiles
    Hx Hes Hpages.
  - simpl. rewrite List.app_nil_r, insert_id by done.
    destruct s; simpl in *. by rewrite Ht.
  - rewrite !fmap_cons. cbn [for_each fst snd]. rewrite run_bind.
    erewrite (renumber_page_ok [x] f s root staged d); try done; cycle 1.
    { simpl. rewrite Hes. erewrite Hpages; [done|left]. }
    { simpl. intros [= ? _]. done. }
    cbn zeta.
    set (name := if is_double_page f then _ else _).
    rewrite (IH _ (<["mergedir" := Dir (<[name := File d]> staged)]> root)
               (<[name := File d]> staged)); try done; cycle 1.
    { apply lookup_insert_eq. }
    { intros name' es'. destruct (decide (name = name')) as [<-|Hne].
      - by rewrite lookup_insert_eq.
      - rewrite lookup_insert_ne by done. apply Hfiles. }
    { by rewrite lookup_insert_ne. }
    { intros g e Hg. apply Hpages. by right. }
    cbn [tempdir output_file subdirs page_counter files_to_export].
    rewrite insert_insert_eq. cbn [spec_renumber spec_counter].
    subst name.
    destruct (is_double_page f); cbn [zip zip_with fmap list_fmap stage foldl];
      by rewrite <- List.app_assoc.
Qed.

End Renumber.

(** ** The whole merge on a well-formed input *)

Section Merge.
Context {content : Type}.
Variable image_ok : content → bool.
Variable save_other : string → list content → exn + artifact content.
Variable inputdir : gmap string (source content).
Variable output_path : string.
Implicit Types (s : state content)
  (root staged es : gmap string (node content)).

Lemma sorted_elem_of (l : list string) (x : string) :
  x ∈ sorted l ↔ x ∈ l.
Proof. unfold sorted. by rewrite merge_sort_Permutation. Qed.

Lemma image_files_elem_of (names : list string) (x : string) :
  x ∈ image_files names ↔ x ∈ names ∧ is_image x = true.
Proof.
  unfold image_files. rewrite sorted_elem_of, !list_elem_of_In.
  apply filter_In.
Qed.

(** The pages of an extracted archive are files of its top level; when
    every image name there is a file, they are all its image names. *)
Lemma archive_pages_lookup es (x : string) (d : content) :
  (x, d) ∈ archive_pages es → es !! x = Some (File d).
Proof.
  unfold archive_pages. rewrite list_elem_of_omap.
  intros (y & _ & Hy). destruct (es !! y) as [[d'|]|] eqn:Hes; try done.
  by injection Hy as -> ->.
Qed.

Lemma archive_pages_names es :
  (∀ x n, es !! x = Some n → is_image x = true → ∃ d, n = File d) →
  (archive_pages es).*1 = image_files (elements (dom es)).
Proof.
  intros Hfiles. unfold archive_pages.
  assert (Hall : ∀ x, x ∈ image_files (elements (dom es)) →
    ∃ d, es !! x = Some (File d)).
  { intros x [Hx Himg]%image_files_elem_of.
    apply elem_of_elements, elem_of_dom in Hx as [n Hn].
    destruct (Hfiles x n Hn Himg) as [d ->]. by exists d. }
  induction (image_files (elements (dom es))) as [|x l IH]; [done|].
  destruct (Hall x) as [d Hd]; [by left|].
  simpl. rewrite Hd. simpl. f_equal. apply IH.
  intros y Hy. apply Hall. by right.
Qed.

Lemma listdir_run (x : string) s root es :
  tempdir s = Some (Dir root) → root !! x = Some (Dir es) →
  listdir [x] s = (inr (elements (dom es)), s).
Proof.
  intros Ht Hx. unfold listdir, on_tree, Fs.listdir. rewrite Ht. simpl.
  by rewrite Hx.
Qed.

(** The outer loop over the subdirectories of a list of archives. *)
Lemma renumber_subdirs_run (l : list string) s root staged :
  tempdir s = Some (Dir root) →
  root !! "mergedir" = Some (Dir staged) → all_files staged →
  (∀ f, f ∈ l → stem f ≠ "mergedir") →
  (∀ f, f ∈ l →
        root !! stem f = Some (Dir (archive_entries inputdir f))) →
  (∀ f x n, f ∈ l → archive_entries inputdir f !! x = Some n →
            is_image x = true → ∃ d, n = File d) →
  let pages :=
    mjoin ((λ f, archive_pages (archive_entries inputdir f)) <$> l) in
  for_each ((λ f, [stem f]) <$> l) renumber_subdir s =
    (inr tt,
     State
       (Some (Dir (<["mergedir" :=
          Dir (stage staged
                 (zip (spec_renumber (page_counter s) pages.*1) pages.*2))]>
          root)))
       (output_file s) (subdirs s)
       (spec_counter (page_counter s) pages.*1)
       (files_to_export s ++
          ((λ name, mergedir ++ [name]) <$>
             spec_renumber (page_counter s) pages.*1))).
Proof.
  revert s root staged.
  induction l as [|f l IH]; intros s root staged Ht Hm Hfiles Hne Hroot Himg.
  - simpl. rewrite List.app_nil_r, insert_id by done.
    destruct s; simpl in *. by rewrite Ht.
  - cbn zeta. rewrite !fmap_cons. cbn [for_each mjoin list_join].
    rewrite run_bind. unfold renumber_subdir at 1. rewrite run_bind.
    rewrite (listdir_run _ _ _ _ Ht (Hroot f ltac:(left))).
    set (es := archive_entries inputdir f).
    rewrite <- (archive_pages_names es) by (intros x n; apply Himg; left).
    rewrite (renumber_pages_run (stem f) (archive_pages es) s root staged es)
      by (done || (apply Hne; left) || (apply Hroot; left)
          || apply archive_pages_lookup).
    set (names := spec_renumber (page_counter s) (archive_pages es).*1).
    set (staged1 := stage staged (zip names (archive_pages es).*2)).
    rewrite (IH _ (<["mergedir" := Dir staged1]> root) staged1);
      try done; cycle 1.
    { apply lookup_insert_eq. }
    { by apply stage_all_files. }
    { intros g Hg. apply Hne. by right. }
    { intros g Hg.
      rewrite lookup_insert_ne by (apply not_eq_sym, Hne; by right).
      apply Hroot. by right. }
    { intros g x n Hg. apply Himg. by right. }
    cbn [tempdir output_file subdirs page_counter files_to_export].
    rewrite insert_insert_eq, !fmap_app.
    rewrite spec_renumber_app, spec_counter_app, fmap_app.
    subst staged1 names.
    rewrite zip_with_app; cycle 1.
    { by rewrite length_spec_renumber, !length_fmap. }
    by rewrite stage_app, <- List.app_assoc.
Qed.

(** The archive written from staged files. *)
Lemma zip_write_run (l : list (string * content)) s root staged entries :
  tempdir s = Some (Dir root) → root !! "mergedir" = Some (Dir staged) →
  output_file s = Some (Cbz entries) →
  (∀ name d, (name, d) ∈ l → staged !! name = Some (File d)) →
  for_each ((λ name, mergedir ++ [name]) <$> l.*1)
    (λ file_path, zip_write file_path (basename file_path)) s =
  (inr tt,
   State (tempdir s) (Some (Cbz (entries ++ zip l.*1 (Some <$> l.*2))))
     (subdirs s) (page_counter s) (files_to_export s)).
Proof.
  revert s entries.
  induction l as [|[name d] l IH]; intros s entries Ht Hm Ho Hl.
  - simpl. rewrite List.app_nil_r. destruct s; simpl in *. by rewrite Ho.
  - rewrite !fmap_cons. cbn [for_each fst snd]. rewrite run_bind.
    unfold zip_write at 1. rewrite run_bind. unfold on_tree at 1. rewrite Ht.
    simpl Fs.lookup. rewrite Hm, (Hl name d) by left.
    rewrite run_bind. cbn [gets]. rewrite Ho.
    cbn [set_output_file modify].
    erewrite IH; [|done|done|done|]; cycle 1.
    { intros n e Hn. apply Hl. by right. }
    simpl. by rewrite <- List.app_assoc, ?Ht.
Qed.

(** The images opened from staged files. *)
Lemma open_images_run (l : list (string * content)) s root staged :
  tempdir s = Some (Dir root) → root !! "mergedir" = Some (Dir staged) →
  (∀ name d, (name, d) ∈ l → staged !! name = Some (File d)) →
  Forall (λ d, image_ok d = true) l.*2 →
  map_each ((λ name, mergedir ++ [name]) <$> l.*1) (open_image image_ok) s
    = (inr l.*2, s).
Proof.
  intros Ht Hm. induction l as [|[name d] l IH]; intros Hl Hok; [done|].
  rewrite !fmap_cons. cbn [fmap list_fmap snd] in Hok.
  apply Forall_cons in Hok as [Hd Hok].
  cbn [map_each fst snd]. rewrite run_bind.
  unfold open_image at 1. rewrite run_bind. unfold on_tree at 1. rewrite Ht.
  unfold Fs.read. simpl Fs.lookup. rewrite Hm, (Hl name d) by left.
  rewrite Hd. cbn [mret M_ret]. rewrite run_bind.
  rewrite IH; [done| |done]. intros n e Hn. apply Hl. by right.
Qed.

(** On a well-formed input the merge returns in archive mode; it stages
    the pages of the archives, in the sorted order of the archive names
    and of the page names, under the names of the specification, writes
    them to the output archive in that order and removes the temporary
    directory. *)
Lemma merge_valid_input :
  valid_input inputdir →
  let pages := input_pages inputdir in
  merge_cbz_files image_ok save_other inputdir output_path false initial =
    (inr tt,
     State None (Some (Cbz (expected_entries pages)))
       ((λ f, [stem f]) <$> cbz_files inputdir)
       (spec_counter 1 pages.*1)
       ((λ name, mergedir ++ [name]) <$> spec_renumber 1 pages.*1)).
Proof.
  intros [Hread Himg Hstems Hmerge] pages.
  assert (Hne : ∀ f, f ∈ cbz_files inputdir → stem f ≠ "mergedir").
  { intros f Hf Heq. apply Hmerge. rewrite <- Heq.
    by apply list_elem_of_fmap_2. }
  set (root0 := <["mergedir" := Dir ∅]> (∅ : gmap string (node content))).
  set (root := unpacked inputdir (cbz_files inputdir) root0).
  assert (Hm : root !! "mergedir" = Some (Dir ∅)).
  { unfold root. rewrite unpacked_other by done. apply lookup_insert_eq. }
  unfold merge_cbz_files. rewrite run_bind.
  cbn [mkdtemp set_tempdir modify initial tempdir output_file subdirs
       page_counter files_to_export].
  rewrite run_bind. unfold makedirs.
  erewrite (update_tree_run _ _ _ (Dir root0)); [|done|]; cycle 1.
  { simpl. by rewrite lookup_empty. }
  rewrite run_bind. unfold unpack_all. rewrite run_bind.
  cbn [set_subdirs modify with_tempdir tempdir output_file subdirs
       page_counter files_to_export].
  rewrite (unpack_loop_run inputdir (cbz_files inputdir) _ root0);
    [|done|done| |done]; cycle 1.
  { intros f Hf. unfold root0.
    rewrite lookup_insert_ne by (apply not_eq_sym, Hne, Hf).
    apply lookup_empty. }
  cbn [tempdir output_file subdirs page_counter files_to_export app].
  fold root. rewrite run_bind. unfold renumber_all.
  run_state.
  rewrite (renumber_subdirs_run (cbz_files inputdir) _ root ∅);
    [|done|done|done|done| |done]; cycle 1.
  { intros f Hf. by apply unpacked_archive. }
  cbn zeta. fold (input_pages inputdir). fold pages.
  cbn [tempdir output_file subdirs page_counter files_to_export app].
  set (names := spec_renumber 1 pages.*1).
  set (l := zip names pages.*2).
  assert (Hlen : length names = length pages.*2).
  { unfold names. by rewrite length_spec_renumber, !length_fmap. }
  assert (Hl1 : l.*1 = names) by (apply fst_zip; lia).
  assert (Hl2 : l.*2 = pages.*2) by (apply snd_zip; lia).
  rewrite run_bind. unfold write_output. run_state.
  rewrite <- Hl1 at 1.
  erewrite (zip_write_run l _ _ (stage ∅ l) []); [|done| |done|]; cycle 1.
  { apply lookup_insert_eq. }
  { intros name d Hin. apply stage_lookup; [|done].
    rewrite Hl1. apply spec_renumber_NoDup. }
  cbn [tempdir output_file subdirs page_counter files_to_export app].
  rewrite Hl1, Hl2. unfold rmtree. rewrite run_bind. done.
Qed.

(** The document mode on a well-formed input whose pages all decode, up
    to the call of [save]: the same pages are staged and handed to
    [save] in order; without any page [images[0]] raises. *)
Lemma merge_valid_input_document :
  valid_input inputdir →
  let pages := input_pages inputdir in
  Forall (λ d, image_ok d = true) pages.*2 →
  merge_cbz_files image_ok save_other inputdir output_path true initial =
    match pages with
    | [] =>
        (inl IndexError,
         State
           (Some (Dir (<["mergedir" := Dir ∅]>
              (unpacked inputdir (cbz_files inputdir)
                 (<["mergedir" := Dir ∅]> ∅)))))
           None ((λ f, [stem f]) <$> cbz_files inputdir) 1 [])
    | _ :: _ =>
        match
          save save_other pages.*2 output_path
            (State
               (Some (Dir (<["mergedir" :=
                              Dir (stage ∅ (zip (spec_renumber 1 pages.*1)
                                              pages.*2))]>
                  (unpacked inputdir (cbz_files inputdir)
                     (<["mergedir" := Dir ∅]> ∅)))))
               None ((λ f, [stem f]) <$> cbz_files inputdir)
               (spec_counter 1 pages.*1)
               ((λ name, mergedir ++ [name]) <$> spec_renumber 1 pages.*1))
        with
        | (inr _, s') => rmtree s'
        | (inl e, s') => (inl e, s')
        end
    end.
Proof.
  intros [Hread Himg Hstems Hmerge] pages Hok.
  assert (Hne : ∀ f, f ∈ cbz_files inputdir → stem f ≠ "mergedir").
  { intros f Hf Heq. apply Hmerge. rewrite <- Heq.
    by apply list_elem_of_fmap_2. }
  set (root0 := <["mergedir" := Dir ∅]> (∅ : gmap string (node content))).
  set (root := unpacked inputdir (cbz_files inputdir) root0).
  assert (Hm : root !! "mergedir" = Some (Dir ∅)).
  { unfold root. rewrite unpacked_other by done. apply lookup_insert_eq. }
  unfold merge_cbz_files. rewrite run_bind.
  cbn [mkdtemp set_tempdir modify initial tempdir output_file subdirs
       page_counter files_to_export].
  rewrite run_bind. unfold makedirs.
  erewrite (update_tree_run _ _ _ (Dir root0)); [|done|]; cycle 1.
  { simpl. by rewrite lookup_empty. }
  rewrite run_bind. unfold unpack_all. rewrite run_bind.
  cbn [set_subdirs modify with_tempdir tempdir output_file subdirs
       page_counter files_to_export].
  rewrite (unpack_loop_run inputdir (cbz_files inputdir) _ root0);
    [|done|done| |done]; cycle 1.
  { intros f Hf. unfold root0.
    rewrite lookup_insert_ne by (apply not_eq_sym, Hne, Hf).
    apply lookup_empty. }
  cbn [tempdir output_file subdirs page_counter files_to_export app].
  fold root. rewrite run_bind. unfold renumber_all.
  run_state.
  rewrite (renumber_subdirs_run (cbz_files inputdir) _ root ∅);
    [|done|done|done|done| |done]; cycle 1.
  { intros f Hf. by apply unpacked_archive. }
  cbn zeta. fold (input_pages inputdir). fold pages.
  cbn [tempdir output_file subdirs page_counter files_to_export app].
  set (names := spec_renumber 1 pages.*1).
  set (l := zip names pages.*2).
  assert (Hlen : length names = length pages.*2).
  { unfold names. by rewrite length_spec_renumber, !length_fmap. }
  assert (Hl1 : l.*1 = names) by (apply fst_zip; lia).
  assert (Hl2 : l.*2 = pages.*2) by (apply snd_zip; lia).
  rewrite run_bind. unfold write_output. run_state.
  unfold export_to_pdf. rewrite run_bind. rewrite <- Hl1 at 1.
  erewrite (open_images_run l _ _ (stage ∅ l)); [|done| | |]; cycle 1.
  { apply lookup_insert_eq. }
  { intros name d Hin. apply stage_lookup; [|done].
    rewrite Hl1. apply spec_renumber_NoDup. }
  { by rewrite Hl2. }
  rewrite Hl2. subst l names. destruct pages as [|[f d] pages']; [done|].
  rewrite !fmap_cons. done.
Qed.


(** With a destination whose extension is [.pdf]: the document has one
    page for each staged page. *)
Lemma merge_valid_input_pdf :
  valid_input inputdir →
  let pages := input_pages inputdir in
  Forall (λ d, image_ok d = true) pages.*2 →
  Text.lower (Text.splitext output_path).2 = ".pdf" →
  merge_cbz_files image_ok save_other inputdir output_path true initial =
    match pages with
    | [] =>
        (inl IndexError,
         State
           (Some (Dir (<["mergedir" := Dir ∅]>
              (unpacked inputdir (cbz_files inputdir)
                 (<["mergedir" := Dir ∅]> ∅)))))
           None ((λ f, [stem f]) <$> cbz_files inputdir) 1 [])
    | _ :: _ =>
        (inr tt,
         State None (Some (Pdf pages.*2))
           ((λ f, [stem f]) <$> cbz_files inputdir)
           (spec_counter 1 pages.*1)
           ((λ name, mergedir ++ [name]) <$> spec_renumber 1 pages.*1))
    end.
Proof.
  intros Hvalid pages Hok Hpdf.
  rewrite (merge_valid_input_document Hvalid Hok). fold pages.
  destruct pages as [|page pages']; [done|].
  unfold save. rewrite Hpdf, String.eqb_refl.
  cbn [set_output_file modify]. unfold rmtree. by rewrite run_bind.
Qed.


End Merge.

(** ** Well-formed inputs *)

Section Valid.
Context {content : Type}.
Implicit Types (es : gmap string (node content)) (t : node content).

Lemma valid_inputb_sound (inputdir : gmap string (source content)) :
  valid_inputb inputdir = true → valid_input inputdir.
Proof.
  unfold valid_inputb. rewrite !andb_true_iff, !bool_decide_eq_true.
  rewrite forallb_forall. intros [[Hall Hnd] Hm].
  split; [| |done|done].
  - intros f Hf%list_elem_of_In. specialize (Hall f Hf).
    by destruct (inputdir !! f ≫= top_level).
  - intros f x n Hf%list_elem_of_In Hx Himg. specialize (Hall f Hf).
    unfold archive_entries in Hx.
    destruct (inputdir !! f ≫= top_level) as [es|]; [|done].
    simpl in Hx. rewrite forallb_forall in Hall.
    specialize (Hall (x, n)). simpl in Hall. rewrite Himg in Hall.
    destruct n as [d|]; [by exists d|].
    discriminate Hall. by apply list_elem_of_In, elem_of_map_to_list.
Qed.

(** What [makedirs] and [write] return is a directory whenever the path
    goes below the node. *)
Lemma makedirs_dir (p : path) t t' :
  Fs.makedirs p t = inr t' → ∃ es, t' = Dir es.
Proof.
  destruct p as [|x p], t as [d|es]; simpl; try done.
  - intros [= <-]. by exists es.
  - destruct (Fs.makedirs p _); [done|]. intros [= <-]. by eexists.
Qed.

Lemma write_dir (x : string) (p : path) (d : content) t t' :
  Fs.write (x :: p) d t = inr t' → ∃ es, t' = Dir es.
Proof.
  destruct t as [d'|es]; simpl; [done|].
  destruct (es !! x) as [c|].
  - destruct (Fs.write p d c); [done|]. intros [= <-]. by eexists.
  - destruct p; [|done]. intros [= <-]. by eexists.
Qed.

(** Neither makes a file at the top level other than the file a member
    with a one-component name is written to: nothing is flattened. *)
Lemma makedirs_top_files (p : path) es es' (x : string) (d : content) :
  Fs.makedirs p (Dir es) = inr (Dir es') →
  es' !! x = Some (File d) → es !! x = Some (File d).
Proof.
  destruct p as [|y p]; simpl.
  - by intros [= <-].
  - destruct (Fs.makedirs p _) as [e|c] eqn:Hc; [done|]. intros [= <-].
    destruct (makedirs_dir _ _ _ Hc) as [es'' ->].
    destruct (decide (y = x)) as [->|Hne].
    + by rewrite lookup_insert_eq.
    + by rewrite lookup_insert_ne.
Qed.

Lemma write_top_files (p : path) (d : content) es es' (x : string)
    (d' : content) :
  Fs.write p d (Dir es) = inr (Dir es') →
  es' !! x = Some (File d') →
  (p = [x] ∧ d' = d) ∨ es !! x = Some (File d').
Proof.
  destruct p as [|y p]; simpl; [done|].
  destruct (es !! y) as [c|] eqn:Hy.
  - destruct (Fs.write p d c) as [e|c'] eqn:Hc; [done|]. intros [= <-].
    destruct (decide (y = x)) as [->|Hne].
    + rewrite lookup_insert_eq. intros [= ->].
      destruct p as [|z p].
      * left. destruct c; simpl in Hc; [|done]. by injection Hc as ->.
      * by destruct (write_dir _ _ _ _ _ Hc).
    + rewrite lookup_insert_ne by done. by right.
  - destruct p; [|done]. intros [= <-].
    destruct (decide (y = x)) as [->|Hne].
    + rewrite lookup_insert_eq. intros [= ->]. by left.
    + rewrite lookup_insert_ne by done. by right.
Qed.

Lemma extract_member_top_files (m : member content) es es' (x : string)
    (d : content) :
  extract_member_tree m (Dir es) = inr (Dir es') →
  es' !! x = Some (File d) →
  m = ([x], Some d) ∨ es !! x = Some (File d).
Proof.
  destruct m as [name [d'|]]; simpl.
  - destruct (Fs.exists_ (dirname name) (Dir es)).
    { intros Hw Hx.
      by destruct (write_top_files _ _ _ _ _ _ Hw Hx) as [[-> ->]|Hx1];
        [left|right]. }
    destruct (Fs.makedirs (dirname name) (Dir es)) as [e|t1] eqn:Hmk; [done|].
    destruct (makedirs_dir _ _ _ Hmk) as [es1 ->].
    intros Hw Hx.
    destruct (write_top_files _ _ _ _ _ _ Hw Hx) as [[-> ->]|Hx1]; [by left|].
    right. by eapply makedirs_top_files.
  - intros Hmk Hx. right. by eapply makedirs_top_files.
Qed.

Lemma extract_member_tree_dir (m : member content) es t' :
  extract_member_tree m (Dir es) = inr t' → ∃ es', t' = Dir es'.
Proof.
  destruct m as [name [d|]]; simpl.
  - destruct (Fs.exists_ (dirname name) (Dir es)).
    { destruct name as [|y name]; [done|apply write_dir]. }
    destruct (Fs.makedirs (dirname name) (Dir es)) as [e|t1] eqn:Hmk; [done|].
    destruct (makedirs_dir _ _ _ Hmk) as [es1 ->].
    destruct name as [|y name]; [done|]. apply write_dir.
  - apply makedirs_dir.
Qed.

Lemma extract_tree_top_files (members : list (member content)) es es'
    (x : string) (d : content) :
  extract_tree members (Dir es) = inr (Dir es') →
  es' !! x = Some (File d) →
  ([x], Some d) ∈ members ∨ es !! x = Some (File d).
Proof.
  revert es. induction members as [|m members IH]; intros es; simpl.
  - intros [= <-]. by right.
  - destruct (extract_member_tree m (Dir es)) as [e|t1] eqn:Hm; [done|].
    destruct (extract_member_tree_dir _ _ _ Hm) as [es1 ->].
    intros Hex Hx.
    destruct (IH _ Hex Hx) as [Hin|Hx1]; [left; by right|].
    destruct (extract_member_top_files _ _ _ _ _ Hm Hx1) as [->|Hx0];
      [left; by left|by right].
Qed.

(** A file at the top level of an extracted archive is a member of the
    archive whose name has one component. *)
Lemma archive_entries_member (inputdir : gmap string (source content))
    (f : string) (members : list (member content)) (x : string) (d : content) :
  inputdir !! f = Some (Archive members) →
  archive_entries inputdir f !! x = Some (File d) →
  ([x], Some d) ∈ members.
Proof.
  intros Hf. unfold archive_entries. rewrite Hf. simpl.
  destruct (extract_tree members (Dir ∅)) as [e|[d'|es]] eqn:Hex;
    simpl; try by rewrite lookup_empty.
  intros Hx. by destruct (extract_tree_top_files _ _ _ _ _ Hex Hx)
    as [?|Hempty]; [|rewrite lookup_empty in Hempty].
Qed.

Lemma archive_pages_elem_of es (x : string) (d : content) :
  (x, d) ∈ archive_pages es ↔ es !! x = Some (File d) ∧ is_image x = true.
Proof.
  unfold archive_pages. rewrite list_elem_of_omap. split.
  - intros (y & [Hy Himg]%image_files_elem_of & Hlook).
    destruct (es !! y) as [[d'|]|] eqn:Hes; try done.
    by injection Hlook as -> ->.
  - intros [Hx Himg]. exists x. rewrite Hx. split; [|done].
    apply image_files_elem_of. split; [|done].
    apply elem_of_elements, elem_of_dom. by eexists.
Qed.

End Valid.

(** ** The two output modes stage the same names *)

Section Modes.
Context {content : Type}.
Variable image_ok : content → bool.
Variable save_other : string → list content → exn + artifact content.
Variable inputdir : gmap string (source content).
Variable output_path : string.

Lemma write_keeps_staged (is_pdf : bool) (files : list path) :
  preserves (λ s : state content, files_to_export s = files)
    (write_output image_ok save_other output_path is_pdf;; rmtree).
Proof. preserves; try (intros; unfold with_tempdir in *; by simpl in * ). Qed.

Lemma merge_staged_mode (is_pdf : bool) :
  files_to_export (merge_cbz_files image_ok save_other inputdir output_path
      is_pdf initial).2
    = files_to_export (merge_cbz_files image_ok save_other inputdir output_path
        false initial).2.
Proof.
  unfold merge_cbz_files. rewrite !(run_bind mkdtemp).
  destruct (mkdtemp initial) as [[e|[]] s0]; [done|].
  rewrite !(run_bind (makedirs mergedir)).
  destruct (makedirs mergedir s0) as [[e|[]] s1]; [done|].
  rewrite !(run_bind (unpack_all inputdir)).
  destruct (unpack_all inputdir s1) as [[e|[]] s2]; [done|].
  rewrite !(run_bind renumber_all).
  destruct (renumber_all s2) as [[e|[]] s3]; [done|].
  rewrite (write_keeps_staged is_pdf (files_to_export s3) s3 eq_refl).
  by rewrite (write_keeps_staged false (files_to_export s3) s3 eq_refl).
Qed.

End Modes.

(** ** Corollaries for well-formed inputs *)

Section Corollaries.
Context {content : Type}.
Variable image_ok : content → bool.
Variable save_other : string → list content → exn + artifact content.
Variable inputdir : gmap string (source content).
Variable output_path : string.

Lemma staged_of_names (names : list string) :
  basename <$> ((λ name, mergedir ++ [name]) <$> names) = names.
Proof.
  induction names as [|n names IH]; [done|].
  rewrite !fmap_cons. by f_equal.
Qed.

Lemma pages_names (l : list string) :
  (∀ f x n, f ∈ l → archive_entries inputdir f !! x = Some n →
            is_image x = true → ∃ d, n = File d) →
  (mjoin ((λ f, archive_pages (archive_entries inputdir f)) <$> l)).*1 =
    mjoin ((λ f, image_files (elements (dom (archive_entries inputdir f))))
             <$> l).
Proof.
  induction l as [|f l IH]; intros Hl; [done|].
  rewrite !fmap_cons. cbn [mjoin list_join]. rewrite fmap_app. f_equal.
  - apply archive_pages_names. intros x n. apply Hl. by left.
  - apply IH. intros g x n Hg. apply Hl. by right.
Qed.

Lemma input_pages_names :
  valid_input inputdir →
  (input_pages inputdir).*1 =
    mjoin ((λ f, image_files (elements (dom (archive_entries inputdir f))))
             <$> cbz_files inputdir).
Proof. intros Hvalid. apply pages_names, Hvalid. Qed.

(** The names staged on a well-formed input, in either mode. *)
Lemma merge_valid_staged (is_pdf : bool) :
  valid_input inputdir →
  staged_names (merge_cbz_files image_ok save_other inputdir output_path is_pdf
      initial).2
    = spec_renumber 1 (input_pages inputdir).*1.
Proof.
  intros Hvalid. unfold staged_names. rewrite merge_staged_mode.
  rewrite (merge_valid_input image_ok save_other inputdir output_path Hvalid).
      simpl.
  apply staged_of_names.
Qed.

Lemma length_expected_entries (pages : list (string * content)) :
  length (expected_entries pages) = length pages.
Proof.
  unfold expected_entries.
  rewrite length_zip_with, length_spec_renumber, !length_fmap. lia.
Qed.

(** On a well-formed input one name is staged for each page of each
    archive, in either mode, and the output archive has one entry for
    each. *)
Lemma merge_valid_page_count :
  valid_input inputdir →
  (∀ is_pdf,
     length (files_to_export
               (merge_cbz_files image_ok save_other inputdir output_path is_pdf
                   initial).2) =
       sum_list ((λ f, length (archive_pages (archive_entries inputdir f)))
                   <$> cbz_files inputdir)) ∧
  ∃ entries,
    output_file (merge_cbz_files image_ok save_other inputdir output_path false
        initial).2
      = Some (Cbz entries) ∧
    length entries =
      sum_list ((λ f, length (archive_pages (archive_entries inputdir f)))
                  <$> cbz_files inputdir).
Proof.
  intros Hvalid.
  assert (Hsum : length (input_pages inputdir) =
    sum_list ((λ f, length (archive_pages (archive_entries inputdir f)))
                <$> cbz_files inputdir)).
  { unfold input_pages. rewrite length_join.
    by rewrite <- list_fmap_compose. }
  split.
  - intros is_pdf.
    rewrite <- (length_fmap basename). fold (staged_names
      (merge_cbz_files image_ok save_other inputdir output_path is_pdf
          initial).2).
    rewrite merge_valid_staged by done.
    by rewrite length_spec_renumber, length_fmap.
  - rewrite (merge_valid_input image_ok save_other inputdir output_path Hvalid).
    eexists. split; [done|]. by rewrite length_expected_entries.
Qed.

End Corollaries.

(** * The claims of the specification *)

(** ** C1: the example of the specification *)

(** C1, as stated, does not hold: on the two example volumes the merge
    does not stage the names 01.jpg, 02.jpg, 04-05.jpg, 06.jpg, 07.jpg. *)
Lemma C1_claimed_names_refuted :
  staged_names (main all_images pdf_only example_volumes "merged.cbz" false).2
    ≠ ["01.jpg"; "02.jpg"; "04-05.jpg"; "06.jpg"; "07.jpg"] ∧
  entry_names (output_file (main all_images pdf_only example_volumes
      "merged.cbz" false).2)
    ≠ Some ["01.jpg"; "02.jpg"; "04-05.jpg"; "06.jpg"; "07.jpg"].
Proof. split; vm_compute; intros [=]. Qed.

(** C1, amended: on the two example volumes the merge succeeds in both
    modes and stages exactly 01.jpg, 02.jpg, 03-04.jpg, 05.jpg, 06.jpg, in
    that order; the counter takes the values 1, 2, 3, 5, 6 and ends at 7;
    the output archive has these entries with the pages of vol1 then vol2. *)
Theorem C1_example_merge :
  (∀ is_pdf,
     (main all_images pdf_only example_volumes (destination is_pdf) is_pdf).1 =
         0 ∧
     staged_names (main all_images pdf_only example_volumes (destination
         is_pdf) is_pdf).2
       = ["01.jpg"; "02.jpg"; "03-04.jpg"; "05.jpg"; "06.jpg"] ∧
     page_number <$> staged_names (main all_images pdf_only example_volumes
         (destination is_pdf) is_pdf).2
       = [1; 2; 3; 5; 6]%N ∧
     page_counter (main all_images pdf_only example_volumes (destination
         is_pdf) is_pdf).2 = 7%N) ∧
  output_file (main all_images pdf_only example_volumes "merged.cbz" false).2
    = Some (Cbz [("01.jpg", Some "vol1/01"); ("02.jpg", Some "vol1/02");
                 ("03-04.jpg", Some "vol1/18-19"); ("05.jpg", Some "vol2/01");
                 ("06.jpg", Some "vol2/02")]).
Proof. split; [intros []|]; by vm_compute. Qed.

(** ** C2: a double page takes two numbers and one name *)

(** One page of the inner loop, on any state: when it returns, exactly
    one path is staged, under the name made from the counter, and the
    counter has moved by the step of the page; when it raises, nothing has
    changed. *)
Lemma renumber_page_emits {content} (subdir : path) (filename : string)
    (s : state content) :
  let c := page_counter s in
  let name :=
    if is_double_page filename
    then Text.format_02d c +:+ "-" +:+ Text.format_02d (c + 1)
         +:+ (Text.splitext filename).2
    else Text.format_02d c +:+ (Text.splitext filename).2 in
  match renumber_page subdir filename s with
  | (inr _, s') =>
      files_to_export s' = files_to_export s ++ [mergedir ++ [name]] ∧
      page_counter s' = (c + if is_double_page filename then 2 else 1)%N
  | (inl _, s') => s' = s
  end.
Proof.
  rewrite renumber_page_run. cbn zeta.
  set (name := if is_double_page filename then _ else _).
  destruct (copy_frame (subdir ++ [filename]) (mergedir ++ [name]) s)
    as [Heq|(t & Hok & Heq)];
    destruct (copy _ _ s) as [[e|[]] s1]; simpl in *; subst; try done.
Qed.

(** C2 at an input with the single archive [mergedir.cbz] holding the
    double page [01-02.jpg]: the archive is unpacked into the staging
    directory itself, the name the counter gives the page is the name of
    the page, [shutil.copy] raises [SameFileError], and no entry is
    emitted for the double page; the counter stays at 1. *)
Theorem C2_spread_in_mergedir_not_emitted :
  is_double_page "01-02.jpg" = true ∧
  (merge_cbz_files all_images pdf_only spread_in_mergedir "merged.cbz" false
      initial).1
    = inl SameFileError ∧
  files_to_export
    (merge_cbz_files all_images pdf_only spread_in_mergedir "merged.cbz" false
        initial).2 = [] ∧
  page_counter
    (merge_cbz_files all_images pdf_only spread_in_mergedir "merged.cbz" false
        initial).2 = 1%N ∧
  output_file
    (merge_cbz_files all_images pdf_only spread_in_mergedir "merged.cbz" false
        initial).2 = None.
Proof. repeat split; by vm_compute. Qed.

(** Whenever an entry is emitted for a double page it is the one of the
    claim: on every state, the loop body either stages exactly the name
    made of [lo] and [lo + 1] and moves the counter by two, or raises and
    changes nothing. *)
Lemma double_spread_emitted_or_nothing {content} (subdir : path)
    (filename : string) (s : state content) :
  is_double_page filename = true →
  let lo := page_counter s in
  match renumber_page subdir filename s with
  | (inr _, s') =>
      files_to_export s' =
        files_to_export s ++
          [mergedir ++ [Text.format_02d lo +:+ "-" +:+ Text.format_02d (lo + 1)
                        +:+ (Text.splitext filename).2]] ∧
      page_counter s' = (lo + 2)%N
  | (inl _, s') => s' = s
  end.
Proof.
  intros Hdouble lo. pose proof (renumber_page_emits subdir filename s) as H.
  cbn zeta in H. by rewrite Hdouble in H.
Qed.

(** Away from that clash (C2): whatever the numbers in its own name, a
    double page met when the counter is [lo] is staged once, under the name
        made of [lo] and
    [lo + 1] in two digits around a hyphen and the extension of the
    original, and the counter moves to [lo + 2].  The copy goes through
    when the page is a regular file other than its target and no directory
    has the target name. *)
Theorem C2_double_spread_step {content} (subdir : path) (filename : string)
    (s : state content) (root staged : gmap string (node content))
    (d : content) :
  let lo := page_counter s in
  let name := Text.format_02d lo +:+ "-" +:+ Text.format_02d (lo + 1)
              +:+ (Text.splitext filename).2 in
  is_double_page filename = true →
  tempdir s = Some (Dir root) →
  root !! "mergedir" = Some (Dir staged) →
  Fs.lookup (subdir ++ [filename]) (Dir root) = Some (File d) →
  subdir ++ [filename] ≠ mergedir ++ [name] →
  no_dir_at staged name →
  renumber_page subdir filename s =
    (inr tt,
     State (Some (Dir (<["mergedir" := Dir (<[name := File d]> staged)]> root)))
       (output_file s) (subdirs s) (lo + 2)
       (files_to_export s ++ [mergedir ++ [name]])).
Proof.
  intros lo name Hdouble Ht Hm Hsrc Hne Hfree.
  pose proof (renumber_page_ok subdir filename s root staged d) as Hok.
  cbn zeta in Hok. rewrite Hdouble in Hok. by apply Hok.
Qed.

(** The double page 18-19.jpg of vol1, met with the counter at 3. *)
Lemma C2_double_spread_step_witness :
  renumber_page ["vol1"] "18-19.jpg" example_state =
    (inr tt,
     State
       (Some (Dir {[ "mergedir" := Dir {[ "01.jpg" := File "vol1/01";
                                          "02.jpg" := File "vol1/02";
                                          "03-04.jpg" := File "vol1/18-19" ]};
                     "vol1" := Dir {[ "01.jpg" := File "vol1/01";
                                      "02.jpg" := File "vol1/02";
                                      "18-19.jpg" := File "vol1/18-19";
                                      "cover.png" := File "vol1/cover" ]} ]}))
       None [["vol1"]] 5
       [["mergedir"; "01.jpg"]; ["mergedir"; "02.jpg"];
        ["mergedir"; "03-04.jpg"]]).
Proof.
  refine (eq_trans
    (C2_double_spread_step ["vol1"] "18-19.jpg" example_state
       {[ "mergedir" := Dir {[ "01.jpg" := File "vol1/01";
                               "02.jpg" := File "vol1/02" ]};
          "vol1" := Dir {[ "01.jpg" := File "vol1/01";
                           "02.jpg" := File "vol1/02";
                           "18-19.jpg" := File "vol1/18-19";
                           "cover.png" := File "vol1/cover" ]} ]}
       {[ "01.jpg" := File "vol1/01"; "02.jpg" := File "vol1/02" ]}
       "vol1/18-19" _ _ _ _ _ _) _).
  - vm_compute. reflexivity.
  - reflexivity.
  - vm_compute. reflexivity.
  - vm_compute. reflexivity.
  - vm_compute. intros [=].
  - intros es. vm_compute. intros [=].
  - vm_compute. reflexivity.
Defined.

(** ** C3: the order of the renumbering and the single pages *)

(** The example of the specification is a well-formed input. *)
Lemma example_volumes_valid : valid_input example_volumes.
Proof. apply valid_inputb_sound. by vm_compute. Qed.

(** C3 at an input with the single archive [mergedir.cbz] holding the
    single page [01.jpg]: the archive is unpacked into the staging
    directory itself, the name the counter gives the page is the name of
    the page, [shutil.copy] raises [SameFileError], and no name is emitted
    for the page; the counter stays at 1. *)
Theorem C3_page_in_mergedir_not_emitted :
  is_double_page "01.jpg" = false ∧
  (merge_cbz_files all_images pdf_only page_in_mergedir "merged.cbz" false
      initial).1
    = inl SameFileError ∧
  files_to_export
    (merge_cbz_files all_images pdf_only page_in_mergedir "merged.cbz" false
        initial).2 = [] ∧
  page_counter
    (merge_cbz_files all_images pdf_only page_in_mergedir "merged.cbz" false
        initial).2 = 1%N.
Proof. repeat split; by vm_compute. Qed.

(** Away from that clash (C3): on a well-formed input the archives are
    taken in the lexicographic order of their names and, in each, the
    image names in lexicographic order; the names staged, in either mode,
    are those of the renumbering of the specification started with the
    counter at 1 on that sequence of pages.  The number in a name is the
    zero-padded numeral of the specification, the extension of an
    ordinary name is what follows its stem, and on every state a page
    that is not a double page is either staged under the counter in two
    digits followed by its own extension, the counter moving by exactly
    one, or the copy raises and nothing changes. *)
Theorem C3_renumbering_order {content} (image_ok : content → bool)
    (save_other : string → list content → exn + artifact content)
    (inputdir : gmap string (source content)) (output_path : string) :
  valid_input inputdir →
  (Sorted String.le (cbz_files inputdir) ∧
   ∀ f, f ∈ cbz_files inputdir ↔
        is_Some (inputdir !! f) ∧ Text.endswith f ".cbz" = true) ∧
  (∀ names,
     Sorted String.le (image_files names) ∧
     ∀ x, x ∈ image_files names ↔ x ∈ names ∧ is_image x = true) ∧
  (∀ n, Text.format_02d n = spec_zero_padded_2 n) ∧
  (∀ (x : ascii) (base e : string),
     x ≠ "."%char →
     all_chars (λ y, negb (Ascii.eqb y "/")) (String x base) = true →
     all_chars (λ y, negb (Ascii.eqb y ".")) e = true →
     all_chars (λ y, negb (Ascii.eqb y "/")) e = true →
     Text.splitext (String x base +:+ String "." e)
       = (String x base, String "." e)) ∧
  (∀ is_pdf,
     staged_names (merge_cbz_files image_ok save_other inputdir output_path
         is_pdf initial).2 =
       spec_renumber 1
         (mjoin ((λ f, image_files
                         (elements (dom (archive_entries inputdir f))))
                   <$> cbz_files inputdir))) ∧
  (∀ (subdir : path) (filename : string) (s : state content),
     is_double_page filename = false →
     match renumber_page subdir filename s with
     | (inr _, s') =>
         files_to_export s' =
           files_to_export s ++
             [mergedir ++ [spec_zero_padded_2 (page_counter s)
                           +:+ (Text.splitext filename).2]] ∧
         page_counter s' = (page_counter s + 1)%N
     | (inl _, s') => s' = s
     end).
Proof.
  intros Hvalid. split; [|split; [|split; [|split; [|split]]]].
  - split; [apply (Sorted_merge_sort String.le)|].
    intros f. unfold cbz_files.
    rewrite sorted_elem_of, list_elem_of_In, filter_In, <- list_elem_of_In.
    by rewrite elem_of_elements, elem_of_dom.
  - intros names. split; [apply (Sorted_merge_sort String.le)|].
    apply image_files_elem_of.
  - apply format_02d_spec.
  - apply splitext_ordinary.
  - intros is_pdf. rewrite <- input_pages_names by done.
    by apply merge_valid_staged.
  - intros subdir filename s Hsingle.
    pose proof (renumber_page_emits subdir filename s) as H.
    cbn zeta in H. rewrite Hsingle, format_02d_spec in H. exact H.
Qed.

(** The two example volumes, in document mode: the names, letter for
    letter. *)
Lemma C3_renumbering_order_witness :
  staged_names (merge_cbz_files all_images pdf_only example_volumes
      "merged.pdf" true initial).2 =
    ["01.jpg"; "02.jpg"; "03-04.jpg"; "05.jpg"; "06.jpg"].
Proof.
  refine (eq_trans
    (proj1 (proj2 (proj2 (proj2 (proj2
       (C3_renumbering_order all_images pdf_only example_volumes
          "merged.pdf"
          example_volumes_valid))))) true) _).
  by vm_compute.
Defined.

(** ** C4: the counter only grows and no name is staged twice *)

(** C4: in every run, on every input and in both modes, whether the run
    returns or raises: each page that is staged gets the value of the
    counter at the head of its name and the counter grows; a page that
    raises changes neither; so the page numbers of the staged names are
    strictly increasing along the sequence and no two staged names are
    equal. *)
Theorem C4_counter_strictly_increasing {content}
    (image_ok : content → bool)
    (save_other : string → list content → exn + artifact content)
    (inputdir : gmap string (source content)) (output_path : string)
    (is_pdf : bool) :
  (∀ (subdir : path) (filename : string) (s : state content),
     match renumber_page subdir filename s with
     | (inr _, s') =>
         ∃ name, staged_names s' = staged_names s ++ [name] ∧
                 page_number name = page_counter s ∧
                 (page_counter s < page_counter s')%N
     | (inl _, s') =>
         staged_names s' = staged_names s ∧ page_counter s' = page_counter s
     end) ∧
  StronglySorted N.lt
    (page_number <$>
       staged_names (merge_cbz_files image_ok save_other inputdir output_path
           is_pdf initial).2) ∧
  NoDup (staged_names (merge_cbz_files image_ok save_other inputdir output_path
      is_pdf initial).2) ∧
  NoDup (files_to_export (merge_cbz_files image_ok save_other inputdir
      output_path is_pdf initial).2).
Proof.
  split; [apply renumber_page_step|].
  assert (Hinit : numbered (initial (content:=content))).
  { split; constructor. }
  destruct (merge_numbered image_ok save_other inputdir output_path is_pdf
      initial Hinit)
    as [Hsorted _].
  assert (Hnames : NoDup (staged_names
    (merge_cbz_files image_ok save_other inputdir output_path is_pdf
        initial).2)).
  { eapply NoDup_fmap_1, StronglySorted_lt_NoDup, Hsorted. }
  split; [done|]. split; [done|].
  eapply NoDup_fmap_1, Hnames.
Qed.

(** ** C5: one output entry for each page *)

(** C5 at an input with an archive named [mergedir.cbz]: the two archives
    hold one page each, the output archive has three entries, the page of
    [a.cbz] twice.  The subdirectory of [mergedir.cbz] is [mergedir]
    itself, so the page staged there for [a.cbz] is listed again as a
    page of [mergedir.cbz]. *)
Theorem C5_mergedir_clash_duplicates_page :
  main all_images pdf_only mergedir_clash "merged.cbz" false =
    (0, State None
          (Some (Cbz [("01.jpg", Some "a/01"); ("02.jpg", Some "a/01");
                      ("03.jpg", Some "mergedir/x")]))
          [["a"]; ["mergedir"]] 4
          [["mergedir"; "01.jpg"]; ["mergedir"; "02.jpg"];
           ["mergedir"; "03.jpg"]]) ∧
  (λ f, archive_pages (archive_entries mergedir_clash f))
    <$> cbz_files mergedir_clash
    = [[("01.jpg", "a/01")]; [("x.jpg", "mergedir/x")]].
Proof. split; by vm_compute. Qed.

(** ** C6: what the classifier accepts *)

(** [is_double_page] on the names of the specification: a reversed range
    is a double page, other extensions and other cases are not. *)
Lemma is_double_page_examples :
  is_double_page "18-19.jpg" = true ∧ is_double_page "19-18.jpg" = true ∧
  is_double_page "0018-0019.jpg" = true ∧
  is_double_page "18-19.jpeg" = false ∧ is_double_page "18-19.png" = false ∧
  is_double_page "18-19.JPG" = false ∧ is_double_page "8-9.jpg" = false ∧
  is_double_page "00018-19.jpg" = false ∧ is_double_page "18.jpg" = false.
Proof. by vm_compute. Qed.





(** ** C7: the temporary directory after the run *)

(** C7, as stated, does not hold: with a file [vol1.cbz] that is no ZIP
    container the run raises while unpacking, the process exits with
    status 1, and the temporary directory is still there. *)
Lemma C7_failed_run_leaves_tempdir :
  (merge_cbz_files all_images pdf_only corrupt_input "merged.cbz" false
      initial).1
    = inl BadZipFile ∧
  (main all_images pdf_only corrupt_input "merged.cbz" false).1 = 1 ∧
  tempdir (main all_images pdf_only corrupt_input "merged.cbz" false).2 ≠ None.
Proof. split; [by vm_compute|]. split; [by vm_compute|]. by vm_compute. Qed.

(** The same at the two later steps: a directory named like an image makes
    the copy raise while renumbering, a page that does not decode makes
    the export raise while writing; the temporary directory stays. *)
Lemma failed_steps_leave_tempdir :
  (merge_cbz_files all_images pdf_only image_named_directory "merged.cbz" false
      initial).1
    = inl IsADirectoryError ∧
  is_Some (tempdir
    (merge_cbz_files all_images pdf_only image_named_directory "merged.cbz"
        false initial).2) ∧
  (merge_cbz_files not_junk pdf_only junk_page "merged.pdf" true initial).1
    = inl UnidentifiedImageError ∧
  is_Some (tempdir (merge_cbz_files not_junk pdf_only junk_page "merged.pdf"
      true initial).2).
Proof.
  split; [by vm_compute|]. split; [vm_compute; by eexists|].
  split; [by vm_compute|]. vm_compute; by eexists.
Qed.

(** C7, amended: the temporary directory is removed exactly on the runs
    that return; on every run that raises, at whatever step, it is left
    in place. *)
Theorem C7_tempdir_removed_iff_success {content}
    (image_ok : content → bool)
    (save_other : string → list content → exn + artifact content)
    (inputdir : gmap string (source content)) (output_path : string)
    (is_pdf : bool) :
  match merge_cbz_files image_ok save_other inputdir output_path is_pdf initial
      with
  | (inr _, s) => tempdir s = None
  | (inl _, s) => is_Some (tempdir s)
  end.
Proof.
  unfold merge_cbz_files. rewrite run_bind. cbn [mkdtemp set_tempdir modify].
  set (s0 := State _ _ _ _ _).
  assert (Hs0 : is_Some (tempdir s0)) by (by eexists).
  pose proof (work_keeps_tempdir image_ok save_other inputdir output_path
      is_pdf s0 Hs0) as Hwork.
  rewrite run_bind in Hwork |- *.
  destruct (makedirs mergedir s0) as [[e|[]] s1]; [done|].
  rewrite run_bind in Hwork |- *.
  destruct (unpack_all inputdir s1) as [[e|[]] s2]; [done|].
  rewrite run_bind in Hwork |- *.
  destruct (renumber_all s2) as [[e|[]] s3]; [done|].
  rewrite run_bind.
  destruct (write_output image_ok save_other output_path is_pdf s3) as [[e|[]]
      s4]; [done|].
  simpl in Hwork. destruct Hwork as [t Ht].
  unfold rmtree. rewrite run_bind. unfold on_tree. by rewrite Ht.
Qed.

(** ** C8: an input directory without archives *)

(** C8, as stated, does not hold: on an empty input directory the run in
    archive mode returns, the process exits with status 0 and an output
    archive without entries is at the destination. *)
Lemma C8_empty_input_succeeds :
  main all_images pdf_only empty_inputdir "merged.cbz" false
    = (0, State None (Some (Cbz [])) [] 1 []).
Proof. by vm_compute. Qed.

Lemma filter_none {A} (p : A → bool) (l : list A) :
  (∀ x, x ∈ l → p x = false) → List.filter p l = [].
Proof.
  induction l as [|x l IH]; simpl; [done|]. intros Hl.
  rewrite (Hl x) by left. apply IH. intros y Hy. apply Hl. by right.
Qed.

Lemma no_cbz_files {content} (inputdir : gmap string (source content)) :
  (∀ f, is_Some (inputdir !! f) → Text.endswith f ".cbz" = false) →
  cbz_files inputdir = [].
Proof.
  intros Hno. unfold cbz_files. rewrite filter_none; [done|].
  intros f Hf. apply Hno. by apply elem_of_dom, elem_of_elements.
Qed.

(** C8, amended: when no name of the input directory ends in [.cbz], the
    temporary directory is made all the same; in archive mode the run
    returns, the process exits with status 0, an archive without entries
    is written and the temporary directory is removed; in document mode
    the run raises [IndexError], the process exits with status 1, nothing
    is written and the temporary directory is left in place. *)
Theorem C8_no_archives {content} (image_ok : content → bool)
    (save_other : string → list content → exn + artifact content)
    (inputdir : gmap string (source content)) (output_path : string) :
  (∀ f, is_Some (inputdir !! f) → Text.endswith f ".cbz" = false) →
  main image_ok save_other inputdir output_path false
    = (0, State None (Some (Cbz [])) [] 1 []) ∧
  merge_cbz_files image_ok save_other inputdir output_path true initial
    = (inl IndexError,
       State (Some (Dir {[ "mergedir" := Dir ∅ ]})) None [] 1 []) ∧
  (main image_ok save_other inputdir output_path true).1 = 1.
Proof.
  intros Hno%no_cbz_files.
  unfold main, merge_cbz_files, unpack_all. rewrite Hno. by vm_compute.
Qed.

(** An input directory that only holds a text file. *)
Lemma C8_no_archives_witness :
  main all_images pdf_only {[ "notes.txt" := Corrupt ]} "merged.pdf" false
    = (0, State None (Some (Cbz [])) [] 1 []) ∧
  merge_cbz_files all_images pdf_only {[ "notes.txt" := Corrupt ]}
    "merged.pdf" true initial
    = (inl IndexError,
       State (Some (Dir {[ "mergedir" := Dir ∅ ]})) None [] 1 []) ∧
  (main all_images pdf_only {[ "notes.txt" := Corrupt ]} "merged.pdf" true).1
    = 1.
Proof.
  refine (C8_no_archives all_images pdf_only {[ "notes.txt" := Corrupt ]}
            "merged.pdf" _).
  intros f [src Hf]. apply lookup_singleton_Some in Hf as [<- _].
  by vm_compute.
Defined.

(** ** C9: which members of an archive are pages *)

(** C9, as stated, does not hold: the only member of the archive is the
    image [chapter1/01.jpg]; the run returns and the output archive has no
    entry. *)
Lemma C9_nested_member_ignored :
  main all_images pdf_only nested_archive "merged.cbz" false
    = (0, State None (Some (Cbz [])) [["vol1"]] 1 []).
Proof. by vm_compute. Qed.

(** C9, amended: on a well-formed input the merge returns in archive mode
    and the output archive holds one entry for each page, where the pages
    of an archive are exactly the regular files at the top level of the
    extracted archive whose lower-cased name ends in .jpg, .jpeg, .png or
    .gif; each such file is a member whose name has one component, so
    that a member inside a directory of the archive gives no page. *)
Theorem C9_top_level_pages {content} (image_ok : content → bool)
    (save_other : string → list content → exn + artifact content)
    (inputdir : gmap string (source content)) (output_path : string) :
  valid_input inputdir →
  (main image_ok save_other inputdir output_path false).1 = 0 ∧
  output_file (main image_ok save_other inputdir output_path false).2
    = Some (Cbz (expected_entries (input_pages inputdir))) ∧
  length (expected_entries (input_pages inputdir))
    = sum_list ((λ f, length (archive_pages (archive_entries inputdir f)))
                  <$> cbz_files inputdir) ∧
  (∀ f x d, (x, d) ∈ archive_pages (archive_entries inputdir f) ↔
            archive_entries inputdir f !! x = Some (File d) ∧
            Text.endswith_any (Text.lower x) [".jpg"; ".jpeg"; ".png"; ".gif"]
              = true) ∧
  (∀ f members x d,
     inputdir !! f = Some (Archive members) →
     archive_entries inputdir f !! x = Some (File d) →
     ([x], Some d) ∈ members).
Proof.
  intros Hvalid. unfold main.
  rewrite (merge_valid_input image_ok save_other inputdir output_path Hvalid).
      simpl.
  split; [done|]. split; [done|]. split.
  - rewrite length_expected_entries. unfold input_pages.
    rewrite length_join. by rewrite <- list_fmap_compose.
  - split; [intros f x d; apply archive_pages_elem_of|].
    intros f members x d. apply archive_entries_member.
Qed.

(** An archive with a nested member is a well-formed input. *)
Lemma mixed_archive_valid : valid_input mixed_archive.
Proof. apply valid_inputb_sound. by vm_compute. Qed.

(** Of a cover at the top level, a page in a directory and a text file,
    the cover is the only page. *)
Lemma C9_top_level_pages_witness :
  output_file (main all_images pdf_only mixed_archive "merged.cbz" false).2
    = Some (Cbz [("01.PNG", Some "vol1/cover")]).
Proof.
  refine (eq_trans (proj1 (proj2
    (C9_top_level_pages all_images pdf_only mixed_archive "merged.cbz"
       mixed_archive_valid))) _).
  by vm_compute.
Defined.

(** ** C10: a staged double-page name is a double-page name again *)

Lemma format_02d_length (n : N) :
  (n < 10000)%N → 2 ≤ String.length (Text.format_02d n) ≤ 4.
Proof.
  intros Hn.
  assert (Hall : forallb (λ k,
    let len := String.length (Text.format_02d (N.of_nat k)) in
    (2 <=? len) && (len <=? 4)) (seq 0 (N.to_nat 10000)) = true)
    by (by vm_compute).
  rewrite forallb_forall in Hall.
  specialize (Hall (N.to_nat n)). rewrite N2Nat.id in Hall.
  cbn zeta in Hall. rewrite andb_true_iff, !Nat.leb_le in Hall.
  apply Hall, in_seq. lia.
Qed.

Lemma format_02d_digit_run (n : N) :
  (n < 10000)%N → digit_run (Text.format_02d n).
Proof.
  intros Hn. split; [apply format_02d_digits|by apply format_02d_length].
Qed.

(** C10: for every counter value [lo] from 1 to 9998, the name a double
    page is staged under, [lo] and [lo + 1] in two digits around a hyphen
    followed by [.jpg], is accepted by [is_double_page]; and [.jpg] is the
    extension the engine appends for every double page that passes the
    image test. *)
Theorem C10_staged_double_page_detected (lo : N) :
  (1 ≤ lo)%N → (lo + 1 ≤ 9999)%N →
  is_double_page
    (Text.format_02d lo +:+ "-" +:+ Text.format_02d (lo + 1) +:+ ".jpg")
    = true ∧
  ∀ filename, is_double_page filename = true → is_image filename = true →
    is_double_page
      (Text.format_02d lo +:+ "-" +:+ Text.format_02d (lo + 1)
         +:+ (Text.splitext filename).2) = true.
Proof.
  intros Hlo Hhi.
  assert (Hname : is_double_page
    (Text.format_02d lo +:+ "-" +:+ Text.format_02d (lo + 1) +:+ ".jpg")
    = true).
  { apply is_double_page_spec. left.
    exists (Text.format_02d lo), (Text.format_02d (lo + 1)).
    split; [apply format_02d_digit_run; lia|].
    split; [apply format_02d_digit_run; lia|done]. }
  split; [done|]. intros filename Hdouble Himage.
  by destruct (double_page_image_ext filename Hdouble Himage) as [_ ->].
Qed.

(** The counter at 3. *)
Lemma C10_staged_double_page_detected_witness :
  is_double_page "03-04.jpg" = true ∧
  ∀ filename, is_double_page filename = true → is_image filename = true →
    is_double_page ("03-04" +:+ (Text.splitext filename).2) = true.
Proof.
  refine (C10_staged_double_page_detected 3 _ _); by vm_compute.
Defined.

(** * Further properties of the code *)

(** ** The classifier and the names of the renumbering *)

Lemma leading_digits_shape (lo rest : string) :
  digit_run lo → leading_digits (lo +:+ "-" +:+ rest) = lo.
Proof. intros [Hlo _]. apply leading_digits_app; [done|]. by unfold_app. Qed.

(** X3: the name a single page is staged under is never a double-page
    name, whatever the counter and the original name: merged again, the
    page is a single page again. *)
Theorem X3_single_stays_single (c : N) (filename : string) :
  is_double_page (Text.format_02d c +:+ (Text.splitext filename).2) = false.
Proof.
  apply not_true_is_false. intros Hdouble.
  assert (Hshape : ∃ lo rest, digit_run lo ∧
    Text.format_02d c +:+ (Text.splitext filename).2 = lo +:+ "-" +:+ rest).
  { apply is_double_page_spec in Hdouble
      as [(lo & hi & Hlo & _ & ->)|(g & (lo & hi & Hlo & _ & ->) & ->)].
    - by exists lo, (hi +:+ ".jpg").
    - exists lo, (hi +:+ ".jpg" +:+ newline). split; [done|].
      by rewrite !str_app_assoc. }
  destruct Hshape as (lo & rest & Hlo & Heq).
  pose proof (f_equal leading_digits Heq) as Hlead.
  rewrite (leading_digits_shape lo rest Hlo) in Hlead.
  rewrite leading_digits_app in Hlead
    by auto using format_02d_digits, leading_digits_ext.
  rewrite <- Hlead in Heq. apply (inj (String.app _)) in Heq.
  destruct (splitext_ext_cases filename) as [Hext|[r Hext]];
    rewrite Hext in Heq; discriminate Heq.
Qed.

(** *** The extension of a staged name *)

Lemma drop_empty (n : nat) : Text.drop n "" = "".
Proof. by destruct n. Qed.

(** Behind the index [rfind] returns the character does not occur. *)
Lemma rfind_after (s : string) (c : ascii) (n : nat) :
  (Text.rfind s c < Z.of_nat n)%Z →
  all_chars (λ x, negb (Ascii.eqb x c)) (Text.drop n s) = true.
Proof.
  revert n. induction s as [|y s IH]; intros n; [by rewrite drop_empty|].
  simpl Text.rfind. pose proof (rfind_low s c) as Hlow.
  destruct n as [|n].
  - rewrite drop_0. simpl.
    destruct (Z.leb_spec 0 (Text.rfind s c)); [lia|].
    destruct (Ascii.eqb y c); [lia|]. intros _. simpl.
    rewrite <- (drop_0 s). apply IH. lia.
  - rewrite drop_S. intros Hlt. apply IH.
    destruct (Z.leb_spec 0 (Text.rfind s c)); [lia|lia].
Qed.

Lemma drop_next (s : string) (n : nat) (c : ascii) (rest : string) :
  Text.drop n s = String c rest → Text.drop (S n) s = rest.
Proof.
  revert n. induction s as [|y s IH]; intros n.
  - by rewrite drop_empty.
  - destruct n as [|n].
    + rewrite drop_0, drop_S, drop_0. by intros [= _ ->].
    + rewrite !drop_S. apply IH.
Qed.

(** The extension [splitext] returns is empty, or a dot followed by
    characters that are neither dots nor slashes. *)
Lemma splitext_ext_shape (p : string) :
  (Text.splitext p).2 = "" ∨
  ∃ rest, (Text.splitext p).2 = String "." rest ∧
          all_chars (λ x, negb (Ascii.eqb x ".")) rest = true ∧
          all_chars (λ x, negb (Ascii.eqb x "/")) rest = true.
Proof.
  unfold Text.splitext.
  destruct (bool_decide _ && _) eqn:Hc; [|by left].
  right. simpl. apply andb_true_iff in Hc as [Hlt _].
  apply bool_decide_eq_true in Hlt.
  pose proof (rfind_low p "/") as Hsep.
  destruct (rfind_drop p "." ltac:(lia)) as [rest Hrest].
  exists rest. split; [done|].
  pose proof (drop_next _ _ _ _ Hrest) as Hnext. split.
  - rewrite <- Hnext. apply rfind_after. lia.
  - assert (Hall : all_chars (λ x, negb (Ascii.eqb x "/"))
      (Text.drop (Z.to_nat (Text.rfind p ".")) p) = true)
      by (apply rfind_after; lia).
    rewrite Hrest in Hall. by simpl in Hall.
Qed.

Lemma length_zeros (k : nat) (s : string) :
  String.length (Text.zeros k s) = k + String.length s.
Proof. induction k as [|k IH]; simpl; [done|]. by rewrite IH. Qed.

Lemma format_02d_nonempty (n : N) :
  ∃ x rest, Text.format_02d n = String x rest.
Proof.
  assert (Hlen : 2 ≤ String.length (Text.format_02d n)).
  { unfold Text.format_02d. rewrite length_zeros. lia. }
  destruct (Text.format_02d n); simpl in Hlen; [lia|eauto].
Qed.

(** [splitext] on a stem of digits and hyphens followed by an extension
    that [splitext] returned. *)
Lemma splitext_number (stem0 filename : string) :
  all_chars (λ x, Re.is_digit x || Ascii.eqb x "-") stem0 = true →
  (∃ x rest, stem0 = String x rest) →
  Text.splitext (stem0 +:+ (Text.splitext filename).2)
    = (stem0, (Text.splitext filename).2).
Proof.
  intros Hchars (x & rest0 & ->).
  assert (Hnot : ∀ y : ascii, Re.is_digit y = false → Ascii.eqb "-" y = false →
    all_chars (λ x, negb (Ascii.eqb x y)) (String x rest0) = true).
  { intros y Hy Hhyphen. eapply all_chars_impl; [|done].
    intros c [Hc|Hc]%orb_true_iff.
    - by apply is_digit_not_char.
    - apply Ascii.eqb_eq in Hc as ->. by rewrite Hhyphen. }
  destruct (splitext_ext_shape filename) as [->|(rest & -> & Hdot & Hsep)].
  - rewrite str_app_nil_r. unfold Text.splitext.
    rewrite (rfind_absent _ "."), (rfind_absent _ "/") by by apply Hnot.
    by rewrite bool_decide_eq_false_2 by lia.
  - apply splitext_app; try by apply Hnot.
    + simpl. by rewrite (rfind_absent _ _ Hdot).
    + simpl. by rewrite (rfind_absent _ _ Hsep).
Qed.

(** X4: renaming keeps the extension: [splitext] splits the name a page is
    staged under into its number part and the extension of the original
    name, character for character, for single and for double pages. *)
Theorem X4_extension_kept (c : N) (filename : string) :
  Text.splitext (Text.format_02d c +:+ (Text.splitext filename).2)
    = (Text.format_02d c, (Text.splitext filename).2) ∧
  Text.splitext
    ((Text.format_02d c +:+ "-" +:+ Text.format_02d (c + 1))
       +:+ (Text.splitext filename).2)
    = (Text.format_02d c +:+ "-" +:+ Text.format_02d (c + 1),
       (Text.splitext filename).2).
Proof.
  assert (Hdigits : ∀ n,
    all_chars (λ x, Re.is_digit x || Ascii.eqb x "-") (Text.format_02d n)
      = true).
  { intros n. eapply all_chars_impl; [|apply format_02d_digits].
    intros x ->. done. }
  split; apply splitext_number.
  - apply Hdigits.
  - apply format_02d_nonempty.
  - rewrite !all_chars_app, !Hdigits. done.
  - destruct (format_02d_nonempty c) as (x & rest & ->).
    exists x, (rest +:+ "-" +:+ Text.format_02d (c + 1)). by unfold_app.
Qed.

(** *** The order of the staged names *)

Section Names.
Context {content : Type}.
Implicit Types (s : state content).

Lemma renumber_page_well_named (subdir : path) (filename : string) :
  preserves well_named (renumber_page (content:=content) subdir filename).
Proof.
  intros s Hs. rewrite renumber_page_run. cbn zeta.
  set (name := if is_double_page filename then _ else _).
  assert (Hname : ∃ rest,
    name = Text.format_02d (page_number name) +:+ rest).
  { subst name. destruct (is_double_page filename).
    - eexists. rewrite page_number_format by by unfold_app. done.
    - eexists. rewrite page_number_format by apply leading_digits_ext. done. }
  destruct (copy_frame (subdir ++ [filename]) (mergedir ++ [name]) s)
    as [Heq|(t & Hok & Heq)];
    destruct (copy _ _ s) as [[e|[]] s1]; simpl in *; subst s1;
    try done;
    unfold well_named, staged_names; simpl; rewrite fmap_app;
    apply Forall_app; split; try done; by repeat constructor.
Qed.

End Names.

Ltac frame_well_named :=
  preserves;
  try (intros; unfold well_named, staged_names, with_tempdir in *; done).

Section Order.
Context {content : Type}.
Variable image_ok : content → bool.
Variable save_other : string → list content → exn + artifact content.
Variable inputdir : gmap string (source content).
Variable output_path : string.

Lemma merge_well_named (is_pdf : bool) :
  preserves well_named (merge_cbz_files image_ok save_other inputdir
      output_path is_pdf).
Proof.
  unfold merge_cbz_files.
  apply preserves_bind; [frame_well_named|intros _].
  apply preserves_bind; [frame_well_named|intros _].
  apply preserves_bind; [frame_well_named|intros _].
  apply preserves_bind; [|intros _].
  { intros s _. unfold renumber_all. rewrite !run_bind. simpl.
    rewrite run_bind. simpl.
    apply (preserves_for_each well_named).
    - intros subdir. frame_well_named. apply renumber_page_well_named.
    - constructor. }
  apply preserves_bind; [frame_well_named|intros _].
  frame_well_named.
Qed.

End Order.

Lemma compare_app_lt (a b r1 r2 : string) :
  String.length a = String.length b → String.compare a b = Lt →
  String.compare (a +:+ r1) (b +:+ r2) = Lt.
Proof.
  revert b. induction a as [|x a IH]; intros [|y b]; try done.
  unfold_app. simpl. intros [= Hlen].
  destruct (Ascii.compare x y); [by apply IH|done|done].
Qed.

Lemma format_02d_lt (c1 c2 : N) (r1 r2 : string) :
  (c1 < c2)%N → (c2 < 100)%N →
  String.ltb (Text.format_02d c1 +:+ r1) (Text.format_02d c2 +:+ r2) = true.
Proof.
  intros Hlt Hc2.
  assert (Hall : forallb (λ n, forallb (λ m,
      implb (n <? m)
        (bool_decide (String.length (Text.format_02d (N.of_nat n))
                      = String.length (Text.format_02d (N.of_nat m))) &&
         String.ltb (Text.format_02d (N.of_nat n))
                    (Text.format_02d (N.of_nat m))))
      (seq 0 100)) (seq 0 100) = true) by (by vm_compute).
  rewrite forallb_forall in Hall.
  specialize (Hall (N.to_nat c1)). rewrite forallb_forall in Hall.
  specialize (Hall ltac:(apply in_seq; lia) (N.to_nat c2)
    ltac:(apply in_seq; lia)).
  rewrite !N2Nat.id in Hall.
  rewrite (proj2 (Nat.ltb_lt _ _)) in Hall by lia.
  simpl in Hall. apply andb_true_iff in Hall as [Hlen Hcmp].
  apply bool_decide_eq_true in Hlen. unfold String.ltb in *.
  destruct (String.compare (Text.format_02d c1) (Text.format_02d c2)) eqn:Hc;
    try done.
  by rewrite (compare_app_lt _ _ r1 r2 Hlen Hc).
Qed.

(** X5: when a run ends with the counter at 100 or less, the staged names
    are in strictly increasing lexicographic order: sorting the output by
    name gives the page order back.  (The two-digit format gives no such
    order once a number has three digits.) *)
Theorem X5_names_sorted_below_100 {content} (image_ok : content → bool)
    (save_other : string → list content → exn + artifact content)
    (inputdir : gmap string (source content)) (output_path : string) (is_pdf :
        bool) :
  (page_counter (merge_cbz_files image_ok save_other inputdir output_path
      is_pdf initial).2 ≤ 100)%N →
  StronglySorted (λ a b, String.ltb a b = true)
    (staged_names (merge_cbz_files image_ok save_other inputdir output_path
        is_pdf initial).2).
Proof.
  intros Hcounter.
  assert (Hinit : numbered (initial (content:=content))).
  { split; constructor. }
  destruct (merge_numbered image_ok save_other inputdir output_path is_pdf
      initial Hinit)
    as [Hsorted Hbelow].
  pose proof (merge_well_named image_ok save_other inputdir output_path is_pdf
      initial
    ltac:(constructor)) as Hnamed.
  unfold well_named in Hnamed.
  induction (staged_names (merge_cbz_files image_ok save_other inputdir
      output_path is_pdf initial).2)
    as [|a l IH]; [constructor|].
  rewrite fmap_cons in Hsorted.
  apply StronglySorted_inv in Hsorted as [Hsorted Ha].
  apply Forall_cons in Hbelow as [_ Hbelow].
  apply Forall_cons in Hnamed as [[ra Hra] Hnamed].
  constructor; [by apply IH|].
  rewrite Forall_fmap in Ha. rewrite Forall_forall in Ha, Hbelow, Hnamed |- *.
  intros b Hb. destruct (Hnamed b Hb) as [rb Hrb].
  rewrite Hra, Hrb. apply format_02d_lt.
  - apply (Ha b Hb).
  - specialize (Hbelow b Hb). simpl in Hbelow. lia.
Qed.

Lemma X5_names_sorted_below_100_witness :
  StronglySorted (λ a b, String.ltb a b = true)
    (staged_names
       (merge_cbz_files all_images pdf_only example_volumes "merged.cbz"
          false initial).2).
Proof.
  refine (X5_names_sorted_below_100 all_images pdf_only example_volumes
            "merged.cbz" false _).
  by vm_compute.
Defined.

(** ** Files written into the temporary directory *)

Section Files.
Context {content : Type}.
Implicit Types (s : state content) (t : node content) (p q : path).

(** What is written at a path is read back from it. *)
Lemma write_lookup q (d : content) t t' :
  Fs.write q d t = inr t' → Fs.lookup q t' = Some (File d).
Proof.
  revert t t'. induction q as [|x q IH]; intros [d0|es] t'; simpl; try done.
  - by intros [= <-].
  - destruct (es !! x) as [c|] eqn:Hx.
    + destruct (Fs.write q d c) as [e|c'] eqn:Hc; [done|]. intros [= <-].
      simpl. rewrite lookup_insert_eq. by eapply IH.
    + destruct q; [|done]. intros [= <-]. simpl.
      by rewrite lookup_insert_eq.
Qed.

(** A write leaves every other file as it was. *)
Lemma write_other_file q (d : content) t t' p (x : content) :
  Fs.write q d t = inr t' → Fs.lookup p t = Some (File x) → p ≠ q →
  Fs.lookup p t' = Some (File x).
Proof.
  revert t t' p. induction q as [|y q IH]; intros [d0|es] t' p; simpl;
    try done.
  - intros _. destruct p; simpl; [done|done].
  - destruct p as [|z p]; [done|]. simpl.
    destruct (decide (z = y)) as [->|Hne].
    + destruct (es !! y) as [c|] eqn:Hy; [|done].
      destruct (Fs.write q d c) as [e|c'] eqn:Hc; [done|]. intros [= <-].
      intros Hp Hpq. simpl. rewrite lookup_insert_eq.
      eapply IH; [done|done|]. by intros ->.
    + intros Hw Hp _.
      assert (∃ es', t' = Dir es' ∧ es' !! z = es !! z) as (es' & -> & Hz).
      { destruct (es !! y) as [c|].
        - destruct (Fs.write q d c); [done|]. injection Hw as <-.
          eexists. split; [done|]. by rewrite lookup_insert_ne.
        - destruct q; [|done]. injection Hw as <-.
          eexists. split; [done|]. by rewrite lookup_insert_ne. }
      simpl. by rewrite Hz.
Qed.

(** A write removes nothing. *)
Lemma write_keeps_exists q (d : content) t t' p :
  Fs.write q d t = inr t' → is_Some (Fs.lookup p t) →
  is_Some (Fs.lookup p t').
Proof.
  revert t t' p. induction q as [|y q IH]; intros [d0|es] t' p; simpl;
    try done.
  - intros [= <-]. by destruct p.
  - destruct p as [|z p]; [done|]. simpl.
    destruct (decide (z = y)) as [->|Hne].
    + destruct (es !! y) as [c|] eqn:Hy; [|by intros _ []].
      destruct (Fs.write q d c) as [e|c'] eqn:Hc; [done|]. intros [= <-].
      intros Hp. simpl. rewrite lookup_insert_eq. by eapply IH.
    + intros Hw Hp.
      assert (∃ es', t' = Dir es' ∧ es' !! z = es !! z) as (es' & -> & Hz).
      { destruct (es !! y) as [c|].
        - destruct (Fs.write q d c); [done|]. injection Hw as <-.
          eexists. split; [done|]. by rewrite lookup_insert_ne.
        - destruct q; [|done]. injection Hw as <-.
          eexists. split; [done|]. by rewrite lookup_insert_ne. }
      simpl. by rewrite Hz.
Qed.

Lemma basename_snoc (dir : path) (name : string) :
  basename (dir ++ [name]) = name.
Proof. unfold basename. apply last_last. Qed.

(** One page of the inner loop, on any state: what a return means for the
    tree, and that an exception changes nothing. *)
Lemma renumber_page_copy (subdir : path) (filename : string) s :
  match renumber_page subdir filename s with
  | (inr _, s') =>
      ∃ t t' d p,
        let dst := if Fs.isdir p t then p ++ [filename] else p in
        tempdir s = Some t ∧ tempdir s' = Some t' ∧
        output_file s' = output_file s ∧
        files_to_export s' = files_to_export s ++ [p] ∧
        Fs.lookup (subdir ++ [filename]) t = Some (File d) ∧
        subdir ++ [filename] ≠ dst ∧
        Fs.write dst d t = inr t'
  | (inl _, s') => s' = s
  end.
Proof.
  rewrite renumber_page_run. cbn zeta.
  set (name := if is_double_page filename then _ else _).
  destruct (tempdir s) as [t|] eqn:Ht; cycle 1.
  { unfold copy. rewrite run_bind. unfold on_tree at 1. by rewrite Ht. }
  rewrite (copy_run _ _ _ _ Ht). cbn zeta. rewrite basename_snoc.
  set (dst := if Fs.isdir (mergedir ++ [name]) t then _ else _).
  case_bool_decide as Hsame; [done|].
  unfold Fs.read at 1.
  destruct (Fs.lookup (subdir ++ [filename]) t) as [[d|es]|] eqn:Hsrc;
    try done.
  destruct (Fs.write dst d t) as [e|t'] eqn:Hw; [done|].
  exists t, t', d, (mergedir ++ [name]). cbn zeta.
  split; [done|]. split; [done|]. split; [done|]. split; [done|].
  split; [done|]. split; [|done].
  intros Heq. apply Hsame. split; [done|]. by eexists.
Qed.

(** X6: one page of the inner loop, on any state.  When it returns, the
    page was a regular file, it is still there with the same bytes, and
    the same bytes are read back at the path that is staged (or inside it
    under the name of the page, when that path was a directory).  When it
    raises, the state is exactly as before: nothing is staged, the counter
    and the files are unchanged. *)
Theorem X6_page_copied_intact (subdir : path) (filename : string) s :
  match renumber_page subdir filename s with
  | (inr _, s') =>
      ∃ t t' d p,
        tempdir s = Some t ∧ tempdir s' = Some t' ∧
        files_to_export s' = files_to_export s ++ [p] ∧
        Fs.read (subdir ++ [filename]) t = inr d ∧
        Fs.read (subdir ++ [filename]) t' = inr d ∧
        Fs.read (if Fs.isdir p t then p ++ [filename] else p) t' = inr d
  | (inl _, s') => s' = s
  end.
Proof.
  pose proof (renumber_page_copy subdir filename s) as H.
  destruct (renumber_page subdir filename s) as [[e|[]] s']; [done|].
  destruct H as (t & t' & d & p & Ht & Ht' & _ & Hf & Hsrc & Hne & Hw).
  exists t, t', d, p. split; [done|]. split; [done|]. split; [done|].
  unfold Fs.read. rewrite Hsrc. split; [done|].
  rewrite (write_other_file _ _ _ _ _ _ Hw Hsrc Hne).
  by rewrite (write_lookup _ _ _ _ Hw).
Qed.

(** Every staged path exists, whatever the pages are. *)
Lemma renumber_page_staged_exist (subdir : path) (filename : string) :
  preserves (staged_exist (content:=content)) (renumber_page subdir filename).
Proof.
  intros s Hs.
  pose proof (renumber_page_copy subdir filename s) as H.
  destruct (renumber_page subdir filename s) as [[e|[]] s']; simpl;
    [by subst|].
  destruct H as (t & t' & d & p & Ht & Ht' & _ & Hf & Hsrc & Hne & Hw).
  intros q Hq. rewrite Hf in Hq. exists t'. split; [done|].
  apply elem_of_app in Hq as [Hq|Hq].
  - destruct (Hs q Hq) as (t0 & Ht0 & Hex).
    rewrite Ht in Ht0. injection Ht0 as <-.
    by eapply write_keeps_exists.
  - apply list_elem_of_singleton in Hq as ->.
    destruct (Fs.isdir p t) eqn:Hdir.
    + eapply write_keeps_exists; [done|].
      unfold Fs.isdir in Hdir. by destruct (Fs.lookup p t).
    + rewrite (write_lookup _ _ _ _ Hw). by eexists.
Qed.

Lemma renumber_all_staged_exist s :
  staged_exist (renumber_all (content:=content) s).2.
Proof.
  unfold renumber_all. run_state.
  apply preserves_for_each.
  - intros subdir. unfold renumber_subdir, listdir.
    apply preserves_bind; [apply preserves_on_tree|].
    intros names. apply preserves_for_each.
    intros filename. apply renumber_page_staged_exist.
  - intros q Hq. simpl in Hq. by apply elem_of_nil in Hq.
Qed.

End Files.

(** ** The output file *)

Section Output.
Context {content : Type}.
Variable image_ok : content → bool.
Variable save_other : string → list content → exn + artifact content.
Variable inputdir : gmap string (source content).
Variable output_path : string.
Implicit Types (s : state content) (t : node content).

(** Opening the images changes nothing; when it returns, every file was
    read and decoded, in order. *)
Lemma open_images_spec (files : list path) s :
  match map_each files (open_image image_ok) s with
  | (inr pages, s') =>
      s' = s ∧
      Forall2 (λ p d, ∃ t, tempdir s = Some t ∧ Fs.read p t = inr d ∧
                           image_ok d = true) files pages
  | (inl _, s') => s' = s
  end.
Proof.
  induction files as [|p files IH]; [by split; [|constructor]|].
  cbn [map_each]. rewrite run_bind.
  unfold open_image at 1. rewrite run_bind. unfold on_tree at 1.
  destruct (tempdir s) as [t|] eqn:Ht; [|done].
  destruct (Fs.read p t) as [e|d] eqn:Hp; [done|].
  destruct (image_ok d) eqn:Hd; [|done].
  cbn [mret M_ret]. rewrite run_bind.
  destruct (map_each files (open_image image_ok) s) as [[e|pages] s'];
    [done|].
  destruct IH as [-> IH].
  split; [done|]. constructor; [|done]. by exists t.
Qed.

(** What [export_to_pdf] does, on any list, destination and state. *)
Lemma export_to_pdf_cases (files : list path) (output_pdf : string) s :
  match export_to_pdf image_ok save_other files output_pdf s with
  | (inr _, s') =>
      ∃ pages written,
        files ≠ [] ∧
        Forall2 (λ p d, ∃ t, tempdir s = Some t ∧ Fs.read p t = inr d ∧
                             image_ok d = true) files pages ∧
        s' = State (tempdir s) (Some written) (subdirs s)
               (page_counter s) (files_to_export s) ∧
        (Text.lower (Text.splitext output_pdf).2 = ".pdf" →
         written = Pdf pages) ∧
        (Text.lower (Text.splitext output_pdf).2 ≠ ".pdf" →
         save_other (Text.lower (Text.splitext output_pdf).2) pages
           = inr written)
  | (inl e, s') => s' = s ∧ (files = [] → e = IndexError)
  end.
Proof.
  unfold export_to_pdf. rewrite run_bind.
  pose proof (open_images_spec files s) as Hpages.
  destruct (map_each files (open_image image_ok) s) as [[e|pages] s']
    eqn:Hrun.
  - subst s'. split; [done|]. intros ->. discriminate Hrun.
  - destruct Hpages as [-> Hpages]. destruct pages as [|first rest].
    + by split.
    + assert (Hfiles : files ≠ []).
      { intros ->. by apply Forall2_nil_cons_inv in Hpages. }
      unfold save.
      destruct (String.eqb_spec
                  (Text.lower (Text.splitext output_pdf).2) ".pdf")
        as [Hpdf|Hother].
      * exists (first :: rest), (Pdf (first :: rest)).
        split; [done|]. split; [done|]. split; [done|]. by split.
      * destruct (save_other _ (first :: rest)) as [e|written] eqn:Hsave.
        -- split; [done|]. by intros ->.
        -- exists (first :: rest), written.
           split; [done|]. split; [done|]. split; [done|]. by split.
Qed.

(** X7: [export_to_pdf].  When it returns there was at least one file,
    every file was read from the temporary directory and decoded as an
    image, one file was written and nothing else has changed; for a
    destination whose extension is [.pdf] in any case that file is the
    document that holds exactly these images in the order of the list,
    for another extension it is what Pillow's writer for that extension
    makes of them.  When it raises, nothing at all has changed (nothing is
    written); on the empty list it raises [IndexError]. *)
Theorem X7_export_to_pdf_contract (files : list path) (output_pdf : string)
    s :
  match export_to_pdf image_ok save_other files output_pdf s with
  | (inr _, s') =>
      ∃ pages written,
        files ≠ [] ∧
        Forall2 (λ p d, ∃ t, tempdir s = Some t ∧ Fs.read p t = inr d ∧
                             image_ok d = true) files pages ∧
        s' = State (tempdir s) (Some written) (subdirs s)
               (page_counter s) (files_to_export s) ∧
        (Text.lower (Text.splitext output_pdf).2 = ".pdf" →
         written = Pdf pages) ∧
        (Text.lower (Text.splitext output_pdf).2 ≠ ".pdf" →
         save_other (Text.lower (Text.splitext output_pdf).2) pages
           = inr written)
  | (inl e, s') => s' = s ∧ (files = [] → e = IndexError)
  end.
Proof. apply export_to_pdf_cases. Qed.

(** The writer of the archive finds every staged path. *)
Lemma zip_write_all (files : list path) s :
  (∀ p, p ∈ files → ∃ t, tempdir s = Some t ∧ is_Some (Fs.lookup p t)) →
  is_Some (output_file s) →
  ∃ s', for_each files
          (λ file_path, zip_write file_path (basename file_path)) s
        = (inr tt, s') ∧
        is_Some (output_file s') ∧ tempdir s' = tempdir s.
Proof.
  revert s. induction files as [|p files IH]; intros s Hfiles Hout.
  - by exists s.
  - cbn [for_each]. rewrite run_bind. unfold zip_write at 1.
    rewrite run_bind. unfold on_tree at 1.
    destruct (Hfiles p) as (t & Ht & [n Hn]); [by left|].
    rewrite Ht, Hn. rewrite run_bind. cbn [gets].
    set (entry := match n with File d => _ | Dir _ => _ end).
    set (s1 := State (tempdir s)
                 (Some (Cbz (match output_file s with
                             | Some (Cbz entries) => entries ++ [entry]
                             | _ => [entry]
                             end)))
                 (subdirs s) (page_counter s) (files_to_export s)).
    destruct (IH s1) as (s' & Hrun & Hout' & Ht').
    { intros q Hq. apply Hfiles. by right. }
    { by eexists. }
    exists s'. split; [|split; [done|rewrite Ht'; exact Ht]].
    rewrite <- Hrun. unfold s1.
    by destruct (output_file s) as [[entries|pages]|].
Qed.

(** The steps before the writing leave the output file alone and keep the
    temporary directory. *)
Lemma steps_keep_output :
  preserves (λ s, is_Some (tempdir s) ∧ output_file s = None)
    (makedirs mergedir) ∧
  preserves (λ s, is_Some (tempdir s) ∧ output_file s = None)
    (unpack_all inputdir) ∧
  preserves (λ s, is_Some (tempdir s) ∧ output_file s = None)
    renumber_all.
Proof.
  unfold renumber_all.
  split; [|split]; preserves; try unfold renumber_page; preserves;
    try (intros; unfold with_tempdir in *; simpl in *;
         by intuition eauto).
Qed.

(** X8: the output file exists if and only if the merge returns.  A run
    that raises, at whatever step and in either mode, leaves no output
    file, not even a partial one; a run that returns has written it. *)
Theorem X8_output_iff_return (is_pdf : bool) :
  match merge_cbz_files image_ok save_other inputdir output_path is_pdf initial
      with
  | (inr _, s) => is_Some (output_file s)
  | (inl _, s) => output_file s = None
  end.
Proof.
  destruct steps_keep_output as (Hmk & Hun & Hre).
  unfold merge_cbz_files. rewrite run_bind.
  unfold mkdtemp at 1. cbn [set_tempdir modify].
  set (s0 := State _ _ _ _ _).
  assert (is_Some (tempdir s0) ∧ output_file s0 = None) as H0
    by (split; [by eexists|done]).
  rewrite run_bind. specialize (Hmk s0 H0).
  destruct (makedirs mergedir s0) as [[e|[]] s1]; [by destruct Hmk|].
  rewrite run_bind. specialize (Hun s1 Hmk).
  destruct (unpack_all inputdir s1) as [[e|[]] s2]; [by destruct Hun|].
  rewrite run_bind. specialize (Hre s2 Hun).
  pose proof (renumber_all_staged_exist s2) as Hex.
  destruct (renumber_all s2) as [[e|[]] s3]; [by destruct Hre|].
  simpl in Hre, Hex. destruct Hre as [[t Ht] Hnone].
  rewrite run_bind. unfold write_output. rewrite run_bind. cbn [gets].
  destruct is_pdf.
  - pose proof (export_to_pdf_cases (files_to_export s3) output_path s3)
      as Hpdf.
    destruct (export_to_pdf image_ok save_other (files_to_export s3)
                output_path s3) as [[e|[]] s4].
    + by destruct Hpdf as [-> _].
    + destruct Hpdf as (pages & written & _ & _ & -> & _).
      unfold rmtree. rewrite run_bind. unfold on_tree. simpl.
      rewrite Ht. simpl. by eexists.
  - rewrite run_bind. cbn [set_output_file modify].
    set (s3' := State _ _ _ _ _).
    destruct (zip_write_all (files_to_export s3) s3')
      as (s4 & -> & Hout & Ht4); [done|by eexists|].
    unfold rmtree. rewrite run_bind. unfold on_tree. rewrite Ht4. simpl.
    rewrite Ht. by simpl.
Qed.

(** ** An archive that cannot be read *)

(** A loop whose body raises at some element, in whatever state it is
    reached, raises. *)
Lemma for_each_raises {A} (l : list A) (body : A → M content unit) (x : A) :
  x ∈ l → (∀ s, ∃ e, (body x s).1 = inl e) →
  ∀ s, ∃ e, (for_each l body s).1 = inl e.
Proof.
  intros Hx Hbody. induction l as [|y l IH]; intros s.
  - by apply elem_of_nil in Hx.
  - cbn [for_each]. rewrite run_bind.
    destruct (body y s) as [[e|[]] s'] eqn:Hy; [by exists e|].
    apply elem_of_cons in Hx as [->|Hx]; [|by apply IH].
    destruct (Hbody s) as [e He]. by rewrite Hy in He.
Qed.

Lemma unpack_keeps_nothing_staged :
  preserves (λ s, files_to_export s = [] ∧ output_file s = None)
    (makedirs mergedir) ∧
  preserves (λ s, files_to_export s = [] ∧ output_file s = None)
    (unpack_all inputdir).
Proof.
  split; preserves;
    try (intros; unfold with_tempdir in *; simpl in *; by intuition eauto).
Qed.

(** X9: when some name of the input directory that ends in [.cbz] is no
    ZIP container or is a directory, the merge raises in either mode,
    whatever the other archives are; no page has been staged and no output
    file is written. *)
Theorem X9_unreadable_archive_aborts (f : string) (is_pdf : bool) :
  Text.endswith f ".cbz" = true →
  inputdir !! f = Some Corrupt ∨ inputdir !! f = Some Folder →
  ∃ e s, merge_cbz_files image_ok save_other inputdir output_path is_pdf
      initial = (inl e, s) ∧
         files_to_export s = [] ∧ output_file s = None.
Proof.
  intros Hext Hf.
  assert (Hin : f ∈ cbz_files inputdir).
  { unfold cbz_files. apply sorted_elem_of, list_elem_of_In, filter_In.
    split; [|done]. apply list_elem_of_In, elem_of_elements, elem_of_dom.
    by destruct Hf as [->| ->]. }
  destruct unpack_keeps_nothing_staged as [Hmk Hun].
  unfold merge_cbz_files. rewrite run_bind.
  unfold mkdtemp at 1. cbn [set_tempdir modify].
  set (s0 := State _ _ _ _ _).
  assert (files_to_export s0 = [] ∧ output_file s0 = None) as H0 by done.
  rewrite run_bind. specialize (Hmk s0 H0).
  destruct (makedirs mergedir s0) as [[e|[]] s1]; [by exists e, s1|].
  rewrite run_bind. specialize (Hun s1 Hmk).
  assert (∃ e, (unpack_all inputdir s1).1 = inl e) as [e He].
  { unfold unpack_all. rewrite run_bind. cbn [set_subdirs modify].
    apply (for_each_raises _ _ f Hin). intros s.
    rewrite run_bind. unfold unpack_cbz. rewrite run_bind.
    destruct (makedirs _ s) as [[e|[]] s']; [by exists e|].
    rewrite run_bind. unfold ZipFile.
    destruct Hf as [->| ->]; by eexists. }
  destruct (unpack_all inputdir s1) as [[e'|[]] s2]; [|done].
  by exists e', s2.
Qed.

End Output.

Lemma X9_unreadable_archive_aborts_witness :
  ∃ e s, merge_cbz_files all_images pdf_only corrupt_input "merged.pdf" true
      initial = (inl e, s) ∧
         files_to_export s = [] ∧ output_file s = None.
Proof.
  refine (X9_unreadable_archive_aborts all_images pdf_only corrupt_input
            "merged.pdf" "vol1.cbz" true _ _).
  - by vm_compute.
  - left. by vm_compute.
Defined.

(** ** The subdirectory of an archive *)

(** [splitext] on an archive name that does not start with a dot: dots
    inside the stem do not matter. *)
Lemma splitext_cbz (x : ascii) (base : string) :
  x ≠ "."%char →
  all_chars (λ y, negb (Ascii.eqb y "/")) (String x base) = true →
  Text.splitext (String x base +:+ ".cbz") = (String x base, ".cbz").
Proof.
  intros Hx Hsep. unfold Text.splitext.
  rewrite (rfind_app_present _ ".cbz" ".") by done.
  rewrite (rfind_app_absent _ _ _ Hsep).
  change (Text.rfind ".cbz" ".") with 0%Z.
  change (Text.rfind ".cbz" "/") with (-1)%Z.
  change (0 <=? -1)%Z with false. cbv iota.
  rewrite Z.add_0_r, Nat2Z.id.
  rewrite bool_decide_eq_true_2 by lia. rewrite andb_true_l.
  replace (Z.to_nat (-1 + 1)) with 0 by done.
  replace (Z.to_nat (Z.of_nat (String.length (String x base)) - (-1 + 1)))
    with (S (String.length base)) by (simpl String.length; lia).
  cbn [seq existsb]. unfold_app. cbn [String.get].
  rewrite bool_decide_eq_false_2 by (by intros [= ->]).
  cbn [negb orb]. rewrite <- str_app_cons.
  by rewrite take_app_length, drop_app_length.
Qed.

(** X10: the subdirectory an archive is unpacked into.  For an archive
    name [base.cbz] whose [base] does not start with a dot (and, as every
    name of a directory, has no slash), [splitext] cuts exactly the final
    [.cbz], however many dots [base] has; [unpack_cbz], when it returns,
    returns the subdirectory [base]; hence two such archives share a
    subdirectory only if they have the same name, and the subdirectory is
    [mergedir] only for [mergedir.cbz]. *)
Theorem X10_archive_subdirectory {content} (x : ascii) (base : string) :
  x ≠ "."%char →
  all_chars (λ y, negb (Ascii.eqb y "/")) (String x base) = true →
  Text.splitext (String x base +:+ ".cbz") = (String x base, ".cbz") ∧
  (∀ (inputdir : gmap string (source content)) s p s',
     unpack_cbz inputdir (String x base +:+ ".cbz") s = (inr p, s') →
     p = [String x base]) ∧
  (∀ y base', y ≠ "."%char →
     all_chars (λ z, negb (Ascii.eqb z "/")) (String y base') = true →
     (Text.splitext (String x base +:+ ".cbz")).1
       = (Text.splitext (String y base' +:+ ".cbz")).1 →
     String x base = String y base') ∧
  ([(Text.splitext (String x base +:+ ".cbz")).1] = mergedir ↔
   String x base +:+ ".cbz" = "mergedir.cbz").
Proof.
  intros Hx Hsep. pose proof (splitext_cbz x base Hx Hsep) as Hsplit.
  split; [done|]. split; [|split].
  - intros inputdir s p s'. unfold unpack_cbz. rewrite Hsplit.
    rewrite run_bind.
    destruct (makedirs _ s) as [[e|[]] s1]; [done|].
    rewrite run_bind.
    destruct (ZipFile inputdir _ s1) as [[e|members] s2]; [done|].
    rewrite run_bind.
    destruct (extractall members _ s2) as [[e|[]] s3]; [done|].
    by intros [= <- _].
  - intros y base' Hy Hsep'.
    by rewrite Hsplit, (splitext_cbz y base' Hy Hsep').
  - rewrite Hsplit. unfold mergedir. simpl. split.
    + by intros [= -> ->].
    + intros Heq. change "mergedir.cbz" with ("mergedir" +:+ ".cbz") in Heq.
      f_equal.
      assert (Hlen : String.length (String x base) = String.length "mergedir").
      { apply (f_equal String.length) in Heq.
        rewrite !str_length_app in Heq. simpl in Heq |- *. lia. }
      apply (f_equal (Text.take (String.length (String x base)))) in Heq.
      rewrite take_app_length in Heq. rewrite Hlen in Heq.
      by rewrite take_app_length in Heq.
Qed.

Lemma X10_archive_subdirectory_witness :
  Text.splitext ("vol.1.cbz") = ("vol.1", ".cbz").
Proof.
  apply (X10_archive_subdirectory (content:=string) "v" "ol.1").
  - done.
  - by vm_compute.
Defined.

(** ** The document mode on a well-formed input *)

(** X11: on a well-formed input whose pages all decode, with a
    destination whose extension is [.pdf] in any case, the run in document
    mode returns when there is at least one page, and the document has the
    pages of the archives, one for each, in the order in which the archive
    mode writes its entries; without any page [images[0]] raises
    [IndexError], the process exits with status 1 and no document is
    written. *)
Theorem X11_document_mode {content} (image_ok : content → bool)
    (save_other : string → list content → exn + artifact content)
    (inputdir : gmap string (source content)) (output_path : string) :
  valid_input inputdir →
  Forall (λ d, image_ok d = true) (input_pages inputdir).*2 →
  Text.lower (Text.splitext output_path).2 = ".pdf" →
  match input_pages inputdir with
  | [] =>
      (merge_cbz_files image_ok save_other inputdir output_path true
         initial).1 = inl IndexError ∧
      (main image_ok save_other inputdir output_path true).1 = 1 ∧
      output_file (main image_ok save_other inputdir output_path true).2
        = None
  | _ :: _ =>
      (main image_ok save_other inputdir output_path true).1 = 0 ∧
      output_file (main image_ok save_other inputdir output_path true).2
        = Some (Pdf (input_pages inputdir).*2) ∧
      (expected_entries (input_pages inputdir)).*2
        = Some <$> (input_pages inputdir).*2
  end.
Proof.
  intros Hvalid Hok Hpdf. unfold main.
  rewrite (merge_valid_input_pdf image_ok save_other inputdir output_path
             Hvalid Hok Hpdf).
  destruct (input_pages inputdir) as [|page pages] eqn:Hpages; [done|].
  split; [done|]. split; [done|].
  unfold expected_entries. apply snd_zip.
  rewrite length_spec_renumber, !length_fmap. lia.
Qed.

Lemma X11_document_mode_witness :
  (main all_images pdf_only example_volumes "Merged.PDF" true).1 = 0 ∧
  output_file (main all_images pdf_only example_volumes "Merged.PDF" true).2
    = Some (Pdf ["vol1/01"; "vol1/02"; "vol1/18-19"; "vol2/01"; "vol2/02"]).
Proof.
  assert (Hvalid : valid_input example_volumes)
    by (apply valid_inputb_sound; by vm_compute).
  assert (Hok : Forall (λ d, all_images d = true)
                  (input_pages example_volumes).*2)
    by (by apply Forall_forall).
  assert (Hpdf : Text.lower (Text.splitext "Merged.PDF").2 = ".pdf")
    by (by vm_compute).
  pose proof (X11_document_mode all_images pdf_only example_volumes
                "Merged.PDF" Hvalid Hok Hpdf) as H.
  destruct (input_pages example_volumes) as [|page pages] eqn:Hpages;
    [by vm_compute in Hpages|].
  destruct H as (H0 & Hout & _). split; [exact H0|].
  rewrite Hout. f_equal. f_equal. rewrite <- Hpages. by vm_compute.
Defined.



(** ** Names of the input directory that do not end in [.cbz] *)

Section Ignored.
Context {content : Type}.
Variable image_ok : content → bool.
Variable save_other : string → list content → exn + artifact content.
Variable output_path : string.
Implicit Types (inputdir : gmap string (source content)).

Lemma sorted_Permutation (l1 l2 : list string) :
  l1 ≡ₚ l2 → sorted l1 = sorted l2.
Proof.
  intros Hperm. unfold sorted. apply (Sorted_unique String.le).
  - apply Sorted_merge_sort, _.
  - apply Sorted_merge_sort, _.
  - by rewrite !merge_sort_Permutation.
Qed.

Lemma archives_only_lookup inputdir (f : string) :
  Text.endswith f ".cbz" = true →
  archives_only inputdir !! f = inputdir !! f.
Proof.
  intros Hf. unfold archives_only. apply option_eq. intros src.
  rewrite map_lookup_filter_Some. simpl. split; [by intros [? _]|done].
Qed.

Lemma NoDup_List_filter {A} (p : A → bool) (l : list A) :
  NoDup l → NoDup (List.filter p l).
Proof.
  induction 1 as [|x l Hx Hl IH]; simpl; [constructor|].
  destruct (p x); [|done]. constructor; [|done].
  intros Hin. apply list_elem_of_In, filter_In in Hin as [Hin _].
  by apply Hx, list_elem_of_In.
Qed.

Lemma cbz_files_archives_only inputdir :
  cbz_files (archives_only inputdir) = cbz_files inputdir.
Proof.
  unfold cbz_files. apply sorted_Permutation, NoDup_Permutation.
  - apply NoDup_List_filter, NoDup_elements.
  - apply NoDup_List_filter, NoDup_elements.
  - intros f. rewrite !list_elem_of_In, !filter_In, <- !list_elem_of_In.
    rewrite !elem_of_elements, !elem_of_dom.
    split; intros [Hin Hf]; (split; [|done]).
    + by rewrite archives_only_lookup in Hin.
    + by rewrite archives_only_lookup.
Qed.

Lemma for_each_ext {A} (l : list A) (body1 body2 : A → M content unit) :
  (∀ x s, x ∈ l → body1 x s = body2 x s) →
  ∀ s, for_each l body1 s = for_each l body2 s.
Proof.
  induction l as [|x l IH]; intros Hbody s; [done|].
  cbn [for_each]. rewrite !run_bind, Hbody by left.
  destruct (body2 x s) as [[e|[]] s']; [done|].
  apply IH. intros y s'' Hy. apply Hbody. by right.
Qed.

Lemma merge_archives_only inputdir (is_pdf : bool) s :
  merge_cbz_files image_ok save_other (archives_only inputdir) output_path
      is_pdf s
    = merge_cbz_files image_ok save_other inputdir output_path is_pdf s.
Proof.
  unfold merge_cbz_files. rewrite !(run_bind mkdtemp).
  destruct (mkdtemp s) as [[e|[]] s0]; [done|].
  rewrite !(run_bind (makedirs mergedir)).
  destruct (makedirs mergedir s0) as [[e|[]] s1]; [done|].
  rewrite (run_bind (unpack_all inputdir)),
    (run_bind (unpack_all (archives_only inputdir))).
  replace (unpack_all (archives_only inputdir) s1)
    with (unpack_all inputdir s1); [done|].
  unfold unpack_all. rewrite !run_bind. cbn [set_subdirs modify].
  rewrite cbz_files_archives_only. apply for_each_ext.
  intros f s' Hf. rewrite !run_bind.
  replace (unpack_cbz (archives_only inputdir) f s')
    with (unpack_cbz inputdir f s'); [done|].
  unfold unpack_cbz. rewrite !run_bind.
  destruct (makedirs _ s') as [[e|[]] s'']; [done|].
  rewrite !run_bind. unfold ZipFile.
  rewrite archives_only_lookup; [done|].
  unfold cbz_files in Hf.
  apply sorted_elem_of, list_elem_of_In, filter_In in Hf. by destruct Hf.
Qed.

(** X12: the run is a function of the entries of the input directory
    whose names end in [.cbz], in lower case: every other name (a file, a
    directory, an archive named [X.CBZ] or [X.zip]) can be added, changed
    or removed without any effect on the result and on the state the run
    leaves. *)
Theorem X12_other_names_ignored inputdir (is_pdf : bool) :
  (∀ s, merge_cbz_files image_ok save_other (archives_only inputdir)
      output_path is_pdf s
        = merge_cbz_files image_ok save_other inputdir output_path is_pdf s) ∧
  (∀ f src, Text.endswith f ".cbz" = false →
     (∀ s, merge_cbz_files image_ok save_other (<[f := src]> inputdir)
         output_path is_pdf s
           = merge_cbz_files image_ok save_other inputdir output_path is_pdf s)
               ∧
     (∀ s, merge_cbz_files image_ok save_other (delete f inputdir) output_path
         is_pdf s
           = merge_cbz_files image_ok save_other inputdir output_path is_pdf
               s)).
Proof.
  split; [apply merge_archives_only|].
  intros f src Hf. split; intros s.
  - rewrite <- (merge_archives_only (<[f := src]> inputdir)),
      <- (merge_archives_only inputdir).
    f_equal. unfold archives_only. apply map_filter_insert_not.
    intros y. simpl. by rewrite Hf.
  - rewrite <- (merge_archives_only (delete f inputdir)),
      <- (merge_archives_only inputdir).
    f_equal. unfold archives_only. rewrite map_filter_delete.
    apply delete_id. apply map_lookup_filter_None. right.
    intros y _. simpl. by rewrite Hf.
Qed.

End Ignored.

Lemma X12_other_names_ignored_witness :
  merge_cbz_files all_images pdf_only (<["vol3.CBZ" := Corrupt]>
      example_volumes) "merged.cbz" false initial
  = merge_cbz_files all_images pdf_only example_volumes "merged.cbz" false
      initial.
Proof.
  refine (proj1 (proj2 (X12_other_names_ignored all_images pdf_only
                          "merged.cbz" example_volumes
                          false) "vol3.CBZ" Corrupt _) initial).
  by vm_compute.
Defined.

(** ** A directory named like an image *)

Section Directory.
Context {content : Type}.
Variable image_ok : content → bool.
Variable save_other : string → list content → exn + artifact content.
Variable inputdir : gmap string (source content).
Variable output_path : string.
Implicit Types (s : state content) (t : node content) (p q : path).

Lemma lookup_app p q t :
  Fs.lookup (p ++ q) t = Fs.lookup p t ≫= Fs.lookup q.
Proof.
  revert t. induction p as [|x p IH]; intros t; [done|].
  simpl. destruct t as [d|es]; [done|].
  destruct (es !! x) as [c|]; [apply IH|done].
Qed.

(** What lies above a node is a directory. *)
Lemma isdir_prefix p (y : string) q t :
  is_Some (Fs.lookup (p ++ y :: q) t) → Fs.isdir p t = true.
Proof.
  rewrite lookup_app. unfold Fs.isdir.
  destruct (Fs.lookup p t) as [[d|es]|]; simpl; [|done|]; by intros [? [=]].
Qed.

(** No write and no [makedirs] removes or replaces a directory. *)
Lemma write_keeps_dir q (d : content) t t' p :
  Fs.write q d t = inr t' → Fs.isdir p t = true → Fs.isdir p t' = true.
Proof.
  unfold Fs.isdir.
  revert t t' p. induction q as [|x q IH]; intros [d0|es] t' p; simpl;
    try done.
  - intros _. by destruct p.
  - destruct p as [|z p].
    { intros Hw _. destruct (es !! x) as [c|].
      - destruct (Fs.write q d c); [done|]. by injection Hw as <-.
      - destruct q; [|done]. by injection Hw as <-. }
    simpl. destruct (decide (z = x)) as [->|Hne].
    + destruct (es !! x) as [c|] eqn:Hx; [|done].
      destruct (Fs.write q d c) as [e|c'] eqn:Hc; [done|]. intros [= <-].
      simpl. rewrite lookup_insert_eq. by apply IH.
    + intros Hw.
      assert (∃ es', t' = Dir es' ∧ es' !! z = es !! z) as (es' & -> & Hz).
      { destruct (es !! x) as [c|].
        - destruct (Fs.write q d c); [done|]. injection Hw as <-.
          eexists. split; [done|]. by rewrite lookup_insert_ne.
        - destruct q; [|done]. injection Hw as <-.
          eexists. split; [done|]. by rewrite lookup_insert_ne. }
      simpl. by rewrite Hz.
Qed.

Lemma makedirs_keeps_dir q t t' p :
  Fs.makedirs q t = inr t' → Fs.isdir p t = true → Fs.isdir p t' = true.
Proof.
  unfold Fs.isdir.
  revert t t' p. induction q as [|x q IH]; intros [d0|es] t' p; simpl;
    try done.
  - by intros [= <-].
  - destruct (Fs.makedirs q (default (Dir ∅) (es !! x))) as [e|c] eqn:Hc;
      [done|].
    intros [= <-]. destruct p as [|z p]; [done|]. simpl.
    destruct (decide (z = x)) as [->|Hne].
    + rewrite lookup_insert_eq.
      destruct (es !! x) as [c0|] eqn:Hx; [|done]. simpl in Hc.
      by apply IH.
    + by rewrite lookup_insert_ne.
Qed.

Lemma makedirs_isdir q t t' :
  Fs.makedirs q t = inr t' → Fs.isdir q t' = true.
Proof.
  unfold Fs.isdir.
  revert t t'. induction q as [|x q IH]; intros [d0|es] t'; simpl; try done.
  - by intros [= <-].
  - destruct (Fs.makedirs q (default (Dir ∅) (es !! x))) as [e|c] eqn:Hc;
      [done|].
    intros [= <-]. simpl. rewrite lookup_insert_eq. by eapply IH.
Qed.

(** A statement that returns after a bind, and an update that returns. *)
Lemma bind_returns {A B} (m : M content A) (k : A → M content B) s b s' :
  (m ≫= k) s = (inr b, s') →
  ∃ a s1, m s = (inr a, s1) ∧ k a s1 = (inr b, s').
Proof.
  rewrite run_bind. destruct (m s) as [[e|a] s1]; [done|]. by exists a, s1.
Qed.

Lemma update_tree_returns (f : node content → exn + node content) s u s' :
  update_tree f s = (inr u, s') →
  ∃ t t', tempdir s = Some t ∧ f t = inr t' ∧ tempdir s' = Some t'.
Proof.
  unfold update_tree. destruct (tempdir s) as [t|]; [|done].
  destruct (f t) as [e|t'] eqn:Hf; [done|]. intros [= _ <-].
  by exists t, t'.
Qed.

Lemma preserves_update_dir p (f : node content → exn + node content) :
  (∀ t t', f t = inr t' → Fs.isdir p t = true → Fs.isdir p t' = true) →
  preserves (dir_at p) (update_tree f).
Proof.
  intros Hf s (t & Ht & Hdir). unfold update_tree. rewrite Ht.
  destruct (f t) as [e|t'] eqn:Hft; simpl; [by exists t|].
  exists t'. split; [done|]. by eapply Hf.
Qed.

Lemma preserves_set_dir p (f : state content → state content) :
  (∀ s, tempdir (f s) = tempdir s) → preserves (dir_at p) (modify f).
Proof.
  intros Hf s (t & Ht & Hdir). exists t. simpl. by rewrite Hf.
Qed.

Lemma extract_member_keeps_dir p (dir : path) (m : member content) :
  preserves (dir_at p) (extract_member dir m).
Proof.
  destruct m as [name [d|]]; unfold extract_member, path_exists, makedirs.
  - apply preserves_bind; [apply preserves_on_tree|]. intros there.
    apply preserves_bind.
    + destruct there; [apply preserves_ret|].
      apply preserves_update_dir; intros ??; apply makedirs_keeps_dir.
    + intros _. apply preserves_update_dir; intros ??; apply write_keeps_dir.
  - apply preserves_update_dir; intros ??; apply makedirs_keeps_dir.
Qed.

Lemma unpack_cbz_keeps_dir p (g : string) :
  preserves (dir_at p) (unpack_cbz inputdir g).
Proof.
  unfold unpack_cbz, makedirs, ZipFile, extractall.
  apply preserves_bind; [apply preserves_update_dir; intros ??; apply
      makedirs_keeps_dir|].
  intros _. apply preserves_bind.
  { destruct (inputdir !! g) as [[members| |]|];
      first [apply preserves_ret|apply preserves_raise]. }
  intros members. apply preserves_bind; [|intros _; apply preserves_ret].
  apply preserves_for_each. intros m. apply extract_member_keeps_dir.
Qed.

Lemma renumber_page_keeps_dir p (subdir : path) (filename : string) :
  preserves (dir_at (content:=content) p) (renumber_page subdir filename).
Proof.
  intros s (t & Ht & Hdir).
  pose proof (renumber_page_copy subdir filename s) as H.
  destruct (renumber_page subdir filename s) as [[e|[]] s']; simpl.
  - subst s'. by exists t.
  - destruct H as (t0 & t' & d & p0 & Ht0 & Ht' & _ & _ & _ & _ & Hw).
    rewrite Ht in Ht0. injection Ht0 as <-.
    exists t'. split; [done|]. by eapply write_keeps_dir.
Qed.

Lemma renumber_subdir_keeps_dir p (subdir : path) :
  preserves (dir_at (content:=content) p) (renumber_subdir subdir).
Proof.
  unfold renumber_subdir, listdir.
  apply preserves_bind; [apply preserves_on_tree|]. intros names.
  apply preserves_for_each. intros filename. apply renumber_page_keeps_dir.
Qed.

(** A loop establishes what one of its iterations establishes and the
    others preserve. *)
Lemma for_each_establish {A} (I : state content → Prop) (l : list A)
    (body : A → M content unit) (x : A) :
  x ∈ l → (∀ y, preserves I (body y)) →
  (∀ s, match body x s with (inr _, s') => I s' | (inl _, _) => True end) →
  ∀ s, match for_each l body s with
       | (inr _, s') => I s'
       | (inl _, _) => True
       end.
Proof.
  intros Hx Hpres Hbody. induction l as [|y l IH]; intros s.
  - by apply elem_of_nil in Hx.
  - cbn [for_each]. rewrite run_bind.
    destruct (body y s) as [[e|[]] s1] eqn:Hy; [done|].
    apply elem_of_cons in Hx as [->|Hx]; [|by apply IH].
    specialize (Hbody s). rewrite Hy in Hbody.
    pose proof (preserves_for_each I l body Hpres s1 Hbody) as Hl.
    by destruct (for_each l body s1) as [[e|[]] s2].
Qed.

(** A loop raises when the body raises at one element in every state
    that satisfies an invariant of the loop. *)
Lemma for_each_raises_inv {A} (I : state content → Prop) (l : list A)
    (body : A → M content unit) (x : A) :
  x ∈ l → (∀ y, preserves I (body y)) →
  (∀ s, I s → ∃ e, (body x s).1 = inl e) →
  ∀ s, I s → ∃ e, (for_each l body s).1 = inl e.
Proof.
  intros Hx Hpres Hbody. induction l as [|y l IH]; intros s Hs.
  - by apply elem_of_nil in Hx.
  - cbn [for_each]. rewrite run_bind.
    pose proof (Hpres y s Hs) as Hs1.
    destruct (body y s) as [[e|[]] s1] eqn:Hy; [by exists e|].
    apply elem_of_cons in Hx as [->|Hx]; [|by apply IH].
    destruct (Hbody s Hs) as [e He]. by rewrite Hy in He.
Qed.

(** A member that lies in a directory [x] of the archive, or is the
    directory entry [x] itself, leaves a directory [x]. *)
Lemma extract_member_makes_dir (dir : path) (x : string) (rest : path)
    (o : option content) s :
  rest ≠ [] ∨ o = None →
  match extract_member dir (x :: rest, o) s with
  | (inr _, s') => dir_at (dir ++ [x]) s'
  | (inl _, _) => True
  end.
Proof.
  intros Hdir.
  destruct (extract_member dir (x :: rest, o) s) as [[e|[]] s'] eqn:Hrun;
    [done|].
  assert (∃ t', tempdir s' = Some t' ∧
                (is_Some (Fs.lookup (dir ++ x :: rest) t') ∧
                 (rest = [] → Fs.isdir (dir ++ [x]) t' = true)))
    as (t' & Ht' & Hsome & Hnil).
  { unfold extract_member in Hrun. destruct o as [d|].
    - apply bind_returns in Hrun as (there & s1 & _ & Hrun).
      apply bind_returns in Hrun as (u & s2 & _ & Hrun).
      apply update_tree_returns in Hrun as (t & t' & _ & Hw & Ht').
      exists t'. split; [done|]. split.
      + rewrite (write_lookup _ _ _ _ Hw). by eexists.
      + intros ->. by destruct Hdir.
    - unfold makedirs in Hrun.
      apply update_tree_returns in Hrun as (t & t' & _ & Hmk & Ht').
      exists t'. split; [done|].
      apply makedirs_isdir in Hmk. split.
      + unfold Fs.isdir in Hmk.
        destruct (Fs.lookup (dir ++ x :: rest) t'); [by eexists|done].
      + by intros ->. }
  exists t'. split; [done|].
  destruct rest as [|y rest]; [by apply Hnil|].
  apply (isdir_prefix (dir ++ [x]) y rest).
  by rewrite <- List.app_assoc.
Qed.

(** The archive that has such a member, once unpacked. *)
Lemma unpack_cbz_makes_dir (f : string) (members : list (member content))
    (x : string) (rest : path) (o : option content) s :
  inputdir !! f = Some (Archive members) →
  (x :: rest, o) ∈ members → rest ≠ [] ∨ o = None →
  match unpack_cbz inputdir f s with
  | (inr sub, s') =>
      sub = [(Text.splitext f).1] ∧ dir_at [(Text.splitext f).1; x] s'
  | (inl _, _) => True
  end.
Proof.
  intros Hf Hm Hdir.
  destruct (unpack_cbz inputdir f s) as [[e|sub] s'] eqn:Hrun; [done|].
  unfold unpack_cbz in Hrun.
  apply bind_returns in Hrun as (u & s1 & _ & Hrun).
  apply bind_returns in Hrun as (zip_ref & s2 & Hzip & Hrun).
  apply bind_returns in Hrun as (u' & s3 & Hex & Hrun).
  injection Hrun as <- <-. split; [done|].
  unfold ZipFile in Hzip. rewrite Hf in Hzip. injection Hzip as <- <-.
  pose proof (for_each_establish
    (dir_at ([(Text.splitext f).1] ++ [x])) members
    (extract_member [(Text.splitext f).1]) (x :: rest, o) Hm
    (extract_member_keeps_dir _ _)
    (λ s0, extract_member_makes_dir _ x rest o s0 Hdir) s1) as Hall.
  unfold extractall in Hex. by rewrite Hex in Hall.
Qed.

Lemma unpack_all_makes_dir (f : string) (members : list (member content))
    (x : string) (rest : path) (o : option content) s :
  f ∈ cbz_files inputdir →
  inputdir !! f = Some (Archive members) →
  (x :: rest, o) ∈ members → rest ≠ [] ∨ o = None →
  match unpack_all inputdir s with
  | (inr _, s') =>
      dir_at [(Text.splitext f).1; x] s' ∧
      [(Text.splitext f).1] ∈ subdirs s'
  | (inl _, _) => True
  end.
Proof.
  intros Hin Hf Hm Hdir. unfold unpack_all. rewrite run_bind.
  cbn [set_subdirs modify].
  apply (for_each_establish
    (λ s', dir_at [(Text.splitext f).1; x] s' ∧
           [(Text.splitext f).1] ∈ subdirs s') _ _ f Hin).
  - intros g s0 [Hd Hsub]. rewrite run_bind.
    pose proof (unpack_cbz_keeps_dir _ g s0 Hd) as Hd1.
    assert (Hsub1 : [(Text.splitext f).1]
                      ∈ subdirs (unpack_cbz inputdir g s0).2).
    { assert (Hkeep : preserves (λ s1 : state content,
                          [(Text.splitext f).1] ∈ subdirs s1)
                        (unpack_cbz inputdir g))
        by (preserves;
            try (intros; unfold with_tempdir in *; by simpl in * )).
      by apply Hkeep. }
    destruct (unpack_cbz inputdir g s0) as [[e|sub] s1]; [done|].
    simpl in Hd1, Hsub1. rewrite run_bind. cbn [gets set_subdirs modify].
    simpl. split.
    + destruct Hd1 as (t & Ht & Ht'). by exists t.
    + apply elem_of_app. by left.
  - intros s0. rewrite run_bind.
    pose proof (unpack_cbz_makes_dir f members x rest o s0 Hf Hm Hdir) as H.
    destruct (unpack_cbz inputdir f s0) as [[e|sub] s1]; [done|].
    destruct H as [-> (t & Ht & Ht')].
    rewrite run_bind. cbn [gets set_subdirs modify]. simpl. split.
    + by exists t.
    + apply elem_of_app. right. by left.
Qed.

(** The subdirectory with a directory named like an image: its loop
    raises. *)
Lemma renumber_subdir_raises (sub x : string) s :
  is_image x = true → dir_at [sub; x] s →
  ∃ e, (renumber_subdir [sub] s).1 = inl e.
Proof.
  intros Himg (t & Ht & Hdir).
  unfold renumber_subdir. rewrite run_bind.
  unfold listdir, on_tree at 1. rewrite Ht. unfold Fs.listdir.
  pose proof (isdir_prefix [sub] x [] t) as Hsub.
  unfold Fs.isdir in Hdir, Hsub. simpl in Hdir, Hsub |- *.
  destruct t as [d|root]; [done|].
  destruct (root !! sub) as [[d|es]|] eqn:Hroot; try done.
  destruct (es !! x) as [[d|es']|] eqn:Hx; try done.
  apply (for_each_raises_inv (dir_at [sub; x]) _ _ x).
  - apply image_files_elem_of. split; [|done].
    apply elem_of_elements, elem_of_dom. by eexists.
  - intros filename. apply renumber_page_keeps_dir.
  - intros s0 (t0 & Ht0 & Hdir0).
    pose proof (renumber_page_copy [sub] x s0) as H.
    destruct (renumber_page [sub] x s0) as [[e|[]] s1]; [by exists e|].
    destruct H as (t1 & t' & d & p0 & Ht1 & _ & _ & _ & Hsrc & _).
    rewrite Ht0 in Ht1. injection Ht1 as <-.
    unfold Fs.isdir in Hdir0. change ([sub] ++ [x]) with [sub; x] in Hsrc.
    by rewrite Hsrc in Hdir0.
  - exists (Dir root). split; [done|]. unfold Fs.isdir. simpl.
    by rewrite Hroot, Hx.
Qed.

(** X13: an archive with a directory named like an image at its top
    level (a directory entry [x], or a member [x/...], where [x] ends in
    an image extension) makes the merge raise, in either mode and
    whatever else the input holds: line 55 tests the name only, and the
    copy of a directory raises.  The process exits with status 1. *)
Theorem X13_image_named_directory_aborts (f : string)
    (members : list (member content)) (x : string) (rest : path)
    (o : option content) (is_pdf : bool) :
  Text.endswith f ".cbz" = true →
  inputdir !! f = Some (Archive members) →
  (x :: rest, o) ∈ members → rest ≠ [] ∨ o = None →
  is_image x = true →
  (∃ e s, merge_cbz_files image_ok save_other inputdir output_path is_pdf
      initial = (inl e, s)) ∧
  (main image_ok save_other inputdir output_path is_pdf).1 = 1.
Proof.
  intros Hext Hf Hm Hdir Himg.
  assert (Hin : f ∈ cbz_files inputdir).
  { unfold cbz_files. apply sorted_elem_of, list_elem_of_In, filter_In.
    split; [|done]. apply list_elem_of_In, elem_of_elements, elem_of_dom.
    by rewrite Hf. }
  assert (Hraise : ∃ e s,
    merge_cbz_files image_ok save_other inputdir output_path is_pdf initial =
        (inl e, s)).
  { unfold merge_cbz_files. rewrite run_bind.
    unfold mkdtemp at 1. cbn [set_tempdir modify].
    set (s0 := State _ _ _ _ _). rewrite run_bind.
    destruct (makedirs mergedir s0) as [[e|[]] s1]; [by exists e, s1|].
    rewrite run_bind.
    pose proof (unpack_all_makes_dir f members x rest o s1 Hin Hf Hm Hdir)
      as Hun.
    destruct (unpack_all inputdir s1) as [[e|[]] s2]; [by exists e, s2|].
    destruct Hun as [Hd Hsub]. rewrite run_bind.
    assert (∃ e, (renumber_all s2).1 = inl e) as [e He].
    { unfold renumber_all. rewrite run_bind.
      cbn [set_page_counter modify]. rewrite run_bind.
      cbn [set_files_to_export modify]. rewrite run_bind. cbn [gets].
      cbn [subdirs].
      apply (for_each_raises_inv (dir_at [(Text.splitext f).1; x]) _ _
               [(Text.splitext f).1] Hsub).
      - intros sd. apply renumber_subdir_keeps_dir.
      - intros s Hs. by apply (renumber_subdir_raises _ x).
      - destruct Hd as (t & Ht & Ht'). by exists t. }
    destruct (renumber_all s2) as [[e'|[]] s3]; [|done].
    by exists e', s3. }
  split; [done|]. unfold main.
  destruct Hraise as (e & s & ->). done.
Qed.

End Directory.

Lemma X13_image_named_directory_aborts_witness :
  (main all_images pdf_only image_named_directory "merged.cbz" false).1 = 1.
Proof.
  refine (proj2 (X13_image_named_directory_aborts all_images pdf_only
    image_named_directory "merged.cbz" "vol1.cbz"
    [(["cover.jpg"; "thumb.txt"], Some "thumb")]
    "cover.jpg" ["thumb.txt"] (Some "thumb") false _ _ _ _ _)).
  - by vm_compute.
  - by vm_compute.
  - by left.
  - by left.
  - by vm_compute.
Defined.

(** ** The extension of a staged name *)

Lemma lower_char_dot (c : ascii) :
  Ascii.eqb (Text.lower_char c) "." = Ascii.eqb c ".".
Proof. by destruct c as [[] [] [] [] [] [] [] []]. Qed.

Lemma lower_dotless (s : string) :
  all_chars (λ x, negb (Ascii.eqb x ".")) (Text.lower s)
    = all_chars (λ x, negb (Ascii.eqb x ".")) s.
Proof.
  induction s as [|c s IH]; simpl; [done|]. by rewrite lower_char_dot, IH.
Qed.

(** [splitext] cuts a name in two. *)
Lemma splitext_join (p : string) :
  (Text.splitext p).1 +:+ (Text.splitext p).2 = p.
Proof.
  unfold Text.splitext. destruct (bool_decide _ && _); simpl.
  - apply take_drop.
  - apply str_app_nil_r.
Qed.

(** The part of a string from its last dot on is determined. *)
Lemma last_dot_unique (a b r r' : string) :
  all_chars (λ x, negb (Ascii.eqb x ".")) r = true →
  all_chars (λ x, negb (Ascii.eqb x ".")) r' = true →
  a +:+ String "." r = b +:+ String "." r' →
  String "." r = String "." r'.
Proof.
  intros Hr Hr' Heq.
  assert (Hdot : ∀ t, all_chars (λ x, negb (Ascii.eqb x ".")) t = true →
                      Text.rfind (String "." t) "." = 0%Z).
  { intros t Ht. simpl. by rewrite (rfind_absent _ _ Ht). }
  assert (Hlen : String.length a = String.length b).
  { apply (f_equal (λ s, Text.rfind s ".")) in Heq.
    rewrite !rfind_app_present in Heq by (rewrite Hdot; [lia|done]).
    rewrite !Hdot in Heq by done. lia. }
  apply (f_equal (Text.drop (String.length a))) in Heq.
  rewrite drop_app_length, Hlen, drop_app_length in Heq. done.
Qed.

(** A name without a dot is no image name. *)
Lemma dotless_not_image (s : string) :
  all_chars (λ x, negb (Ascii.eqb x ".")) s = true → is_image s = false.
Proof.
  intros Hs. apply not_true_is_false. intros Himg.
  unfold is_image, Text.endswith_any in Himg.
  apply existsb_exists in Himg as (suf & Hin & Hsuf).
  apply endswith_spec in Hsuf as [pre Hpre].
  rewrite <- lower_dotless, Hpre, all_chars_app in Hs.
  apply andb_true_iff in Hs as [_ Hs].
  simpl in Hin. by destruct Hin as [<-|[<-|[<-|[<-|[]]]]].
Qed.

(** A non-empty extension of an image name makes an image name of
    whatever it is appended to. *)
Lemma image_ext_carried (filename pre : string) :
  is_image filename = true → (Text.splitext filename).2 ≠ "" →
  is_image (pre +:+ (Text.splitext filename).2) = true.
Proof.
  intros Himg Hext.
  destruct (splitext_ext_shape filename) as [Hnil|(rest & Hrest & Hdot & _)];
    [done|].
  pose proof (splitext_join filename) as Hjoin. rewrite Hrest in Hjoin |- *.
  unfold is_image, Text.endswith_any in Himg |- *.
  apply existsb_exists in Himg as (suf & Hin & Hsuf).
  apply endswith_spec in Hsuf as [pre' Hpre'].
  rewrite <- Hjoin, lower_app in Hpre'.
  assert (Hlow : Text.lower (String "." rest) = suf).
  { change (Text.lower (String "." rest))
      with (String "." (Text.lower rest)) in Hpre' |- *.
    simpl in Hin.
    destruct Hin as [<-|[<-|[<-|[<-|[]]]]];
      (eapply last_dot_unique; [|done|exact Hpre']);
      by rewrite lower_dotless. }
  apply existsb_exists. exists suf. split; [done|].
  apply endswith_spec. exists (Text.lower pre). by rewrite lower_app, Hlow.
Qed.

(** X14: the name a page is staged under is again an image name, with the
    extension of the original name in its original case, whenever
    [splitext] finds an extension in the original name.  A page whose
    name has none, which for an image name means that only dots precede
    the letters (such as [.jpg]), is staged under the bare number, which
    is no image name. *)
Theorem X14_staged_name_is_image (c : N) (filename : string) :
  is_image filename = true →
  let ext := (Text.splitext filename).2 in
  (ext ≠ "" →
   is_image (Text.format_02d c +:+ ext) = true ∧
   is_image (Text.format_02d c +:+ "-" +:+ Text.format_02d (c + 1) +:+ ext)
     = true) ∧
  (ext = "" →
   is_image (Text.format_02d c +:+ ext) = false ∧
   is_image (Text.format_02d c +:+ "-" +:+ Text.format_02d (c + 1) +:+ ext)
     = false).
Proof.
  intros Himg ext. split.
  - intros Hext. split; [by apply image_ext_carried|].
    rewrite <- !str_app_assoc. by apply image_ext_carried.
  - intros ->.
    assert (Hnum : ∀ n, all_chars (λ x, negb (Ascii.eqb x "."))
                          (Text.format_02d n) = true).
    { intros n. eapply all_chars_impl; [|apply format_02d_digits].
      intros x Hx. by apply is_digit_not_char. }
    split; apply dotless_not_image; rewrite !all_chars_app, ?Hnum; done.
Qed.

Lemma X14_staged_name_is_image_witness :
  is_image (Text.format_02d 7 +:+ (Text.splitext "Cover.PNG").2) = true.
Proof.
  refine (proj1 (proj1 (X14_staged_name_is_image 7 "Cover.PNG" _) _)).
  - by vm_compute.
  - by vm_compute.
Defined.
